(* ===== verification/_CoqProject ===== *)
-Q . S2P
Prelude.v
Exn.v
FileSystem.v
Settings.v
Hub.v
SessionStore.v
Json.v
Doubles.v
Account.v
Interleave.v
Machine.v
SessionFile.v
Symbols.v
Runs.v
