(* ===== verification/Prelude.v ===== *)
(** * Verification of the OpenBB account core

    The program is the account command group of the OpenBB platform
    ([src/openbb_platform/core/openbb_core/app/static/account.py], class
    [Account]) together with the institutional-ownership schema
    ([src/openbb_platform/core/openbb_core/provider/standard_models/institutional_ownership.py]).
    The account class keeps the session of a user against a remote hub:
    [login] pulls the remote settings and installs them, [save] pushes or
    stores them, [refresh] pulls again and keeps the local identity, [logout]
    disconnects, removes the remembered session file and falls back to the
    default settings.  Every command is wrapped by the decorator
    [_log_account_command], which turns any exception into an [OpenBBError]
    and writes one log record on the way out.  The schema file declares two
    classes whose [symbol] field is normalised by a validator [upper_symbol].

    ** Files, in the order they build

    - [Prelude] (this file): the state-and-exception monad [action] in which
      the commands are written, its notations (scope [action_scope]), the
      combinators [try_except], [try_finally] and [zoom] with their equations
      and inversion lemmas, the predicates [preserves], [keeps], [raises], [grows]
      with one lemma per combinator, the hint and rewrite databases [action],
      and the tactics ([run_action], [inv_run], [preserves_step],
      [raises_step], [case_outcome], [vm_refl], [by_cases_on]), and the
      lemmas on lists and strings the components share (rewrite database
      [string]).
    - [Exn]: the Python exceptions the commands can raise, as the inductive
      [exn] (one constructor per exception class that occurs, [OpenBBError]
      with a message or with a cause).
    - [FileSystem]: the local disk as a finite map from paths to nodes, and
      the calls the commands make on it ([Path.exists], [Path.mkdir] without
      parents and with [exist_ok], [open] for writing, the write, [open] for
      reading, [Path.unlink]); the invariant [fs_wf] and its preservation.
    - [Settings]: the data the commands move around ([HubSession], [Profile],
      [UserSettings], [SystemSettings]) and the interface of the settings
      store, the class [UserService] ([read_default_user_settings],
      [write_default_user_settings], [update_default]), with the laws the
      specification states of it as the class [UserServiceLaws].
    - [Hub]: the client [HubService] (a record holding the live session) with
      [connect], [pull], [push], [disconnect], over the interface [HubRemote]
      of the remote service; every remote call is recorded on a wire trace.
    - [SessionStore]: the three fragments of [account.py] that read (lines 78
      to 85), write (lines 126 to 132) and remove (lines 216 to 218) the
      session file, over the interface [SessionCodec] of its text (with the
      laws [SessionCodecLaws]); when the disk is ready for the file
      ([session_dir_ready]).
    - [Json]: the text of the session file.  JSON documents ([json]), the
      printer of [json.dump(..., indent=4)] ([dumps], with [ensure_ascii]),
      the parser of [json.load] ([loads]), the document of a session
      ([session_to_json], for [model_dump(mode="json")]) and its validation
      ([session_of_json], for [HubSession( **session_dict)]); the instance
      [json_codec] of [SessionCodec] and the proof of its laws.
    - [Doubles]: concrete instances of the interfaces of the hub and of the
      settings store (an in-memory hub, a settings store) with the proofs
      that they meet the laws, and a concrete disk; used to run the model.
    - [Account]: the state [World], the decorator, [_create_hub_service] and
      the four commands, translated statement by statement
      ([Account.login_body] is the function, [Account.login] the decorated
      function, and so on); requests as data ([request], [dispatch], [serve]);
      the theorems of the commands.
    - [Interleave]: the commands cut at their statements (module [Steps]),
      threads whose last step is the decorator's, and schedules that
      interleave the steps of several callers ([run_schedule]).
    - [Machine]: the state machine of section 4.4 of the specification as an
      inductive relation [transition false] with its executable test
      [allowed], the machine of the code [transition true], runs, and the
      refinement theorems from [Account] to both.
    - [SessionFile]: the commands over the real text: the theorems of
      [Account], which hold for every lawful codec, at the instance
      [json_codec], and the schedule [torn] under which a [login] reads the
      session file while another [login] is writing it.
    - [Symbols]: the two classes of [institutional_ownership.py] and their
      validators, over [upper], [join] and [split] on strings.
    - [Runs]: concrete worlds and the theorems applied to them.

    ** Correspondence with the code

    A command of the class is an [action World exn (option UserSettings)]: a
    function from the state before to the outcome ([Returned v] or
    [Raised e]) and the state after.  State changes made before an exception
    is raised persist, as in Python.  [World] holds what the code reaches
    through [self._base_app._command_runner] (user and system settings), the
    disk, the settings store, the remote hub with the trace of calls made to
    it, and the log.  [None] against a value is [option]; [if not x] on an
    optional object is a match on [None].  The commands are written against
    the interfaces ([UserService], [HubRemote], [SessionCodec]); their
    theorems assume the laws of the interfaces and nothing else, and the
    instances of [Json] and [Doubles] discharge the laws.  A [try]/[except]/[finally] is
    [try_finally (try_except ...)]; inside the [finally] block
    [sys.exc_info()] is the exception in flight, which is the [OpenBBError]
    raised by the [except] clause.  The three collaborators that are not under
    [src/] (the hub client, the settings store, the logging service) are
    modelled from the specification: the hub client in full over an abstract
    remote service, the settings store as an interface with laws, the logging
    service as the append of one record.

    ** Theorems

    - The decorator: every command logs exactly one record, with its route
      and no argument, whether it returns or raises, and raises one
      [OpenBBError] around an unwrapped cause ([dispatch_logs_once],
      [dispatch_wraps_once]).
    - Each command, on every branch: what [login], [refresh], [save] and
      [logout] install, call and write when they return
      ([login_installs_remote], [refresh_keeps_identity], [save_connected],
      [anonymous_stays_local], [logout_returned]); when they fail and what is
      left then ([login_failure], [login_without_session_file],
      [login_corrupt_session], [refresh_failure], [logout_anonymous],
      [logout_twice], [logout_failure], [failed_command_keeps_settings]);
      that they return when their collaborators answer ([login_returns],
      [logout_returns]).  [login_installs_remote] names the document that is
      installed: it is the answer of the hub to the pull made with the
      session of the client, in the state of the hub that resolving the
      client left, whichever way the client was resolved; a [login] that
      merged anything else would not meet it.
    - Well-formed worlds and bounds: every command takes a well-formed world
      ([world_wf]: the disk is a tree, every record of the log is one the
      decorator writes, with no argument of the call in it) to a well-formed
      world ([dispatch_keeps_world_wf]); a command makes at most two remote
      calls if it is a [login] and at most one otherwise
      ([dispatch_calls_bound], through the predicate [grows] of this file).
    - The session file: what is saved is read back ([save_read_session],
      [remember_me_round_trip]); the order of the open and the test of the
      session ([save_session_no_session]).
    - Its text: printing then parsing is the identity, on sessions
      ([json_load_dump]) and on every document ([loads_dumps]); the fuel of
      the parser is enough ([loads_enough_fuel]); the text is printable ASCII
      ([dumps_ascii]); what a login writes, and what a login makes of a file
      that is empty or holds something else than an object
      ([login_writes_session_file], [login_truncated_session_file],
      [login_session_file_not_object]).
    - Sequences of commands: the disk stays well formed, the system settings
      are never written, the log has one record per command
      ([serve_invariant]); every sequence is a run of the machine of the code
      ([serve_simulation]), and of the machine of the specification on a disk
      that is ready for the session file ([serve_refines_spec],
      [dispatch_refines_spec]); only [login] connects
      ([serve_connected_needs_login]).
    - Callers without a lock: under every schedule the world stays well
      formed, the system settings are not written and each finished call has
      logged once ([schedule_invariant]); under every schedule that gives
      each caller ten turns every call is over ([schedule_fair_finishes]); a
      [logout] that runs while a [refresh] waits for the hub leaves the
      process connected with a dead session, which no serial order does
      ([refresh_logout_race]); and a [login] without credentials that runs
      between the open and the write of a [login] that remembers reads an
      empty session file and fails in the decoding, which no serial order
      does ([login_torn_read]).  The lemmas [of_request_agrees],
      [finish_of_request] and [serial_schedule] keep the commands in steps
      and the commands of [Account] in step with each other; they say
      nothing of the code by themselves.
    - The file system: every call keeps [fs_wf] ([fs_calls_keep_wf]), a
      write is read back ([open_w_write_read]).
    - The validators: the field is in normal form, joining and upper-casing
      commute, the symbols can be read back from the field
      ([upper_symbol_idempotent], [upper_symbol_join], [upper_symbol_split],
      [query_upper_symbol_returned]).

    ** Bounds

    Every definition is a total function.  The commands have no loop;
    [serve] and the string functions recurse on their argument.  The one
    recursion that is not structural is the JSON parser, which descends into
    nested arrays and objects: [parse_value] takes fuel, and [loads] gives it
    the length of the text.  That is enough for every text: the parser uses
    one unit per level of nesting and per element, each of which consumes a
    character ([parse_settled]), so [loads] returns whatever the parser
    returns with any fuel ([loads_enough_fuel]); in particular a failure of
    [loads] is a failure of the text, never a lack of fuel.
    A command in steps is a finite tree, and no path of a command has more
    than [steps_bound] = 9 statements ([within_of_request]; the longest is a
    [login] that resumes the session file, remembers it and returns the
    settings): a thread that is given ten turns, in a row ([run_alone]) or
    not ([run_schedule_over_in]), is over, which is what the serial
    schedule, the schedules of the two races and [schedule_fair_finishes]
    rely on.  The schedule [torn] gives the first [login] six turns before
    the second starts: the connection, the pull, the merge, the assignment,
    [mkdir] and [open].
    Python integers are unbounded and modelled by [Z].  A Python string is a
    [string] of characters below 256, and [str.upper] is modelled on the
    letters [a] to [z]: the theorems of [Symbols] are about ASCII text, and
    what they say of lengths does not carry over to text outside ASCII.

    ** Not modelled

    Exceptions that do not derive from [Exception] (they bypass the [except]
    clause), file permissions and symbolic links, thread switches inside a
    statement or inside a call of a collaborator (the interleavings of
    [Interleave] are at statements), the wire format of the hub, and failures
    of the logging service itself.  A file has one content and [write]
    appends to it, which is one handle writing after its own [open]: two
    handles that write the same file in turn, each at its own position, are
    not modelled, and no theorem about the text of the file interleaves two
    writers.  The hub client, the settings store and the logging service are
    not under [src/]: their models follow the specification, the theorems
    hold for every settings store that meets [UserServiceLaws] and every
    remote service, and say nothing of a collaborator that does not.  Of JSON: numbers with a fraction or an
    exponent, the literals [NaN] and [Infinity], escapes [\u] above 255 and
    the coercions of the validation library (a value of another type that it
    would convert); a text that uses them is rejected by the model where Python may
    accept it, which no theorem about written files depends on, since
    [dumps] never writes them.
    Of the schema: raw values outside what the annotation of the validator
    declares ([None], numbers, tuples, collections of something else than
    strings), and the check that the three numbers of a [date] make a day of
    the calendar.  The documentation strings of the schema fields carry no
    behaviour and are left out; [Account.__repr__] returns the documentation string of the
    class as the source has it, before any treatment of its indentation by
    the interpreter. *)

From stdpp Require Export base tactics option list strings.

Declare Scope action_scope.
Delimit Scope action_scope with act.

(** ** Outcomes and actions *)

(** What a call produces: a value, or a raised exception. *)
Inductive outcome (E A : Type) : Type :=
| Returned (a : A)
| Raised (e : E).
Arguments Returned {E A} a.
Arguments Raised {E A} e.

#[global] Instance outcome_eq_dec {E A} `{EqDecision E, EqDecision A} :
  EqDecision (outcome E A).
Proof. solve_decision. Defined.

(** [exc_info r] is what [sys.exc_info()] holds once a block finished with
    [r]: the exception in flight, if any. *)
Definition exc_info {E A} (r : outcome E A) : option E :=
  match r with Returned _ => None | Raised e => Some e end.

Definition returned {E A} (r : outcome E A) : option A :=
  match r with Returned a => Some a | Raised _ => None end.

(** A computation over a state [S] that may raise an [E]: the state after is
    returned in both cases. *)
Definition action (S E A : Type) : Type := S → outcome E A * S.

Section Action.
Context {S E : Type}.

Definition ret {A} (a : A) : action S E A := λ s, (Returned a, s).

Definition bind {A B} (m : action S E A) (k : A → action S E B) : action S E B :=
  λ s, match m s with
       | (Returned a, s') => k a s'
       | (Raised e, s') => (Raised e, s')
       end.

Definition raise {A} (e : E) : action S E A := λ s, (Raised e, s).

Definition gets {A} (f : S → A) : action S E A := λ s, (Returned (f s), s).

Definition modify (f : S → S) : action S E unit := λ s, (Returned tt, f s).

(** [try: m except Exception as e: h e]. *)
Definition try_except {A} (m : action S E A) (h : E → action S E A) : action S E A :=
  λ s, match m s with
       | (Raised e, s') => h e s'
       | r => r
       end.

(** [try: m finally: final]: the final block runs in both cases and sees the
    exception in flight; its own exception, if it raises one, replaces the
    outcome of [m]. *)
Definition try_finally {A} (m : action S E A) (final : option E → action S E unit) :
    action S E A :=
  λ s, match m s with
       | (r, s') =>
           match final (exc_info r) s' with
           | (Returned _, s'') => (r, s'')
           | (Raised e, s'') => (Raised e, s'')
           end
       end.

(** Lift a pure fallible function of a part of the state. *)
Definition of_outcome {A} (r : outcome E A) : action S E A := λ s, (r, s).

End Action.

(** Run an action of a component [T] inside a larger state [S]. *)
Definition zoom {S T E A} (get : S → T) (set : T → S → S) (m : action T E A) :
    action S E A :=
  λ s, match m (get s) with (r, t) => (r, set t s) end.

(** [m] keeps the property [P] of the state, whatever its outcome. *)
Definition preserves {S E A} (P : S → Prop) (m : action S E A) : Prop :=
  ∀ s, P s → P (m s).2.

(** [m] leaves the part [f] of the state as it is. *)
Definition keeps {S E A B} (f : S → B) (m : action S E A) : Prop :=
  ∀ s, f (m s).2 = f s.

(** Whatever [m] raises satisfies [P]. *)
Definition raises {S E A} (P : E → Prop) (m : action S E A) : Prop :=
  ∀ s e s', m s = (Raised e, s') → P e.

(** [m] appends at most [k] elements to the list [tr] of the state, and
    leaves what the list held. *)
Definition grows {S E A T} (tr : S → list T) (k : nat) (m : action S E A) : Prop :=
  ∀ s, ∃ l, tr (m s).2 = tr s ++ l ∧ length l ≤ k.

Notation "'let*' x := m 'in' k" := (bind m (λ x, k))
  (at level 10, x name, m at level 100, k at level 200) : action_scope.
Notation "m ;; k" := (bind m (λ _, k))
  (at level 100, k at level 200, right associativity) : action_scope.

(** ** Equations of the combinators *)

Section ActionLemmas.
Context {S E : Type}.
Implicit Types s : S.

Lemma run_ret {A} (a : A) s : ret (E:=E) a s = (Returned a, s).
Proof. reflexivity. Qed.

Lemma run_raise {A} (e : E) s : raise (A:=A) e s = (Raised e, s).
Proof. reflexivity. Qed.

Lemma run_gets {A} (f : S → A) s : gets (E:=E) f s = (Returned (f s), s).
Proof. reflexivity. Qed.

Lemma run_modify (f : S → S) s : modify (E:=E) f s = (Returned tt, f s).
Proof. reflexivity. Qed.

Lemma run_bind_returned {A B} (m : action S E A) (k : A → action S E B) s a s' :
  m s = (Returned a, s') → bind m k s = k a s'.
Proof. unfold bind. by intros ->. Qed.

Lemma run_bind_raised {A B} (m : action S E A) (k : A → action S E B) s e s' :
  m s = (Raised e, s') → bind m k s = (Raised e, s').
Proof. unfold bind. by intros ->. Qed.

Lemma bind_ret_l {A B} (a : A) (k : A → action S E B) s : bind (ret a) k s = k a s.
Proof. reflexivity. Qed.

Lemma bind_ret_r {A} (m : action S E A) s : bind m ret s = m s.
Proof. unfold bind, ret. by destruct (m s) as [[a|e] s']. Qed.

Lemma bind_assoc {A B C} (m : action S E A) (k : A → action S E B)
    (h : B → action S E C) s :
  bind (bind m k) h s = bind m (λ a, bind (k a) h) s.
Proof. unfold bind. by destruct (m s) as [[a|e] s']. Qed.

Lemma bind_raise_l {A B} (e : E) (k : A → action S E B) s :
  bind (raise e) k s = (Raised e, s).
Proof. reflexivity. Qed.

(** An inversion principle for [bind]: a bind returns only if both parts do;
    it raises if the first part raises or the continuation does. *)
Lemma bind_returned_inv {A B} (m : action S E A) (k : A → action S E B) s b s2 :
  bind m k s = (Returned b, s2) →
  ∃ a s1, m s = (Returned a, s1) ∧ k a s1 = (Returned b, s2).
Proof. unfold bind. destruct (m s) as [[a|e] s1]; [eauto | done]. Qed.

Lemma bind_raised_inv {A B} (m : action S E A) (k : A → action S E B) s e s2 :
  bind m k s = (Raised e, s2) →
  m s = (Raised e, s2) ∨ ∃ a s1, m s = (Returned a, s1) ∧ k a s1 = (Raised e, s2).
Proof. unfold bind. destruct (m s) as [[a|e'] s1]; intros ?; simplify_eq; eauto 10. Qed.

Lemma try_except_returned {A} (m : action S E A) h s a s' :
  m s = (Returned a, s') → try_except m h s = (Returned a, s').
Proof. unfold try_except. by intros ->. Qed.

Lemma try_except_raised {A} (m : action S E A) h s e s' :
  m s = (Raised e, s') → try_except m h s = h e s'.
Proof. unfold try_except. by intros ->. Qed.

(** The final block runs exactly once, on the state the body left. *)
Lemma try_finally_run {A} (m : action S E A) final s r s1 r' s2 :
  m s = (r, s1) → final (exc_info r) s1 = (r', s2) →
  try_finally m final s = (match r' with Returned _ => r | Raised e => Raised e end, s2).
Proof. unfold try_finally. intros -> ->. by destruct r'. Qed.

(** A property of the state that every part of a sequence keeps is kept by
    the sequence, whatever the outcome. *)
Lemma bind_state_inv {A B} (P : S → Prop) (m : action S E A) (k : A → action S E B) s :
  P (m s).2 → (∀ a s', P s' → P (k a s').2) → P (bind m k s).2.
Proof. unfold bind. destruct (m s) as [[a|e] s']; simpl; eauto. Qed.

Lemma try_except_state_inv {A} (P : S → Prop) (m : action S E A) h s :
  P (m s).2 → (∀ e s', P s' → P (h e s').2) → P (try_except m h s).2.
Proof. unfold try_except. destruct (m s) as [[a|e] s']; simpl; eauto. Qed.

Lemma run_zoom {T A} (get : S → T) (set : T → S → S) (m : action T E A) s :
  zoom get set m s = ((m (get s)).1, set (m (get s)).2 s).
Proof. unfold zoom. by destruct (m (get s)). Qed.

Lemma zoom_returned_inv {T A} (get : S → T) (set : T → S → S) (m : action T E A) s a s' :
  zoom get set m s = (Returned a, s') → ∃ t, m (get s) = (Returned a, t) ∧ s' = set t s.
Proof. unfold zoom. destruct (m (get s)) as [r t]. naive_solver. Qed.

Lemma zoom_raised_inv {T A} (get : S → T) (set : T → S → S) (m : action T E A) s e s' :
  zoom get set m s = (Raised e, s') → ∃ t, m (get s) = (Raised e, t) ∧ s' = set t s.
Proof. unfold zoom. destruct (m (get s)) as [r t]. naive_solver. Qed.

(** *** Preservation, combinator by combinator *)

Lemma keeps_preserves {A B} (f : S → B) (m : action S E A) :
  keeps f m ↔ ∀ v, preserves (λ s, f s = v) m.
Proof.
  split.
  - intros H v s <-. apply H.
  - intros H s. by apply (H (f s)).
Qed.

Lemma preserves_ret {A} (P : S → Prop) (a : A) : preserves P (ret (E:=E) a).
Proof. by intros s. Qed.

Lemma preserves_raise {A} (P : S → Prop) (e : E) : preserves P (raise (A:=A) e).
Proof. by intros s. Qed.

Lemma preserves_gets {A} (P : S → Prop) (f : S → A) : preserves P (gets (E:=E) f).
Proof. by intros s. Qed.

Lemma preserves_of_outcome {A} (P : S → Prop) (r : outcome E A) :
  preserves P (of_outcome (S:=S) r).
Proof. by intros s. Qed.

Lemma preserves_modify (P : S → Prop) (g : S → S) :
  (∀ s, P s → P (g s)) → preserves P (modify (E:=E) g).
Proof. intros H s. apply H. Qed.

Lemma preserves_bind {A B} (P : S → Prop) (m : action S E A) (k : A → action S E B) :
  preserves P m → (∀ a, preserves P (k a)) → preserves P (bind m k).
Proof. intros Hm Hk s Hs. apply bind_state_inv; [by apply Hm|]. intros a s'. apply Hk. Qed.

Lemma preserves_try_except {A} (P : S → Prop) (m : action S E A) h :
  preserves P m → (∀ e, preserves P (h e)) → preserves P (try_except m h).
Proof.
  intros Hm Hh s Hs. apply try_except_state_inv; [by apply Hm|]. intros e s'. apply Hh.
Qed.

Lemma preserves_try_finally {A} (P : S → Prop) (m : action S E A) final :
  preserves P m → (∀ o, preserves P (final o)) → preserves P (try_finally m final).
Proof.
  intros Hm Hf s Hs. unfold try_finally. specialize (Hm s Hs).
  destruct (m s) as [r s1]. specialize (Hf (exc_info r) s1 Hm).
  by destruct (final (exc_info r) s1) as [[[]|e] s2].
Qed.

Lemma preserves_zoom {T A} (P : S → Prop) (Q : T → Prop) (get : S → T)
    (set : T → S → S) (m : action T E A) :
  preserves Q m → (∀ s, P s → Q (get s)) → (∀ s t, P s → Q t → P (set t s)) →
  preserves P (zoom get set m).
Proof.
  intros Hm Hget Hset s Hs. rewrite run_zoom. simpl. apply Hset; [done|].
  apply Hm, Hget, Hs.
Qed.

(** A part of the state that the setter of the zoomed component does not
    touch is kept by any action on that component. *)
Lemma preserves_zoom_frame {T A} (P : S → Prop) (get : S → T) (set : T → S → S)
    (m : action T E A) :
  (∀ s t, P s → P (set t s)) → preserves P (zoom get set m).
Proof.
  intros Hset. apply (preserves_zoom P (λ _, True)); [done|done|]. intros s t Hs _.
  by apply Hset.
Qed.

(** *** What can be raised, combinator by combinator *)

Lemma raises_ret {A} (P : E → Prop) (a : A) : raises P (ret (S:=S) a).
Proof. by intros s e s'. Qed.

Lemma raises_gets {A} (P : E → Prop) (f : S → A) : raises P (gets f).
Proof. by intros s e s'. Qed.

Lemma raises_modify (P : E → Prop) (g : S → S) : raises P (modify g).
Proof. by intros s e s'. Qed.

Lemma raises_raise {A} (P : E → Prop) (e : E) : P e → raises P (raise (S:=S) (A:=A) e).
Proof. intros He s e' s'. rewrite run_raise. naive_solver. Qed.

Lemma raises_of_outcome {A} (P : E → Prop) (r : outcome E A) :
  (∀ e, r = Raised e → P e) → raises P (of_outcome (S:=S) r).
Proof. intros H s e s'. unfold of_outcome. naive_solver. Qed.

Lemma raises_bind {A B} (P : E → Prop) (m : action S E A) (k : A → action S E B) :
  raises P m → (∀ a, raises P (k a)) → raises P (bind m k).
Proof. unfold raises. intros Hm Hk s e s' [H|(a & s1 & _ & H)]%bind_raised_inv; eauto. Qed.

Lemma raises_zoom {T A} (P : E → Prop) (get : S → T) (set : T → S → S)
    (m : action T E A) :
  raises P m → raises P (zoom get set m).
Proof. unfold raises. intros Hm s e s' (t & H & _)%zoom_raised_inv. eauto. Qed.

Lemma raises_try_except {A} (P : E → Prop) (m : action S E A) h :
  (∀ e, raises P (h e)) → raises P (try_except m h).
Proof.
  intros Hh s e s'. unfold try_except. destruct (m s) as [[a|e'] s1] eqn:Hm; [done|].
  apply Hh.
Qed.

Lemma raises_weaken {A} (P Q : E → Prop) (m : action S E A) :
  (∀ e, P e → Q e) → raises P m → raises Q m.
Proof. unfold raises. intros HPQ Hm s e s' H. eauto. Qed.

(** *** Growth of a trace, combinator by combinator *)

Lemma grows_keeps {A T} (tr : S → list T) (m : action S E A) k :
  keeps tr m → grows tr k m.
Proof. intros H s. exists []. rewrite app_nil_r. split; [apply H|simpl; lia]. Qed.

Lemma grows_mono {A T} (tr : S → list T) k k' (m : action S E A) :
  k ≤ k' → grows tr k m → grows tr k' m.
Proof. intros Hk H s. destruct (H s) as (l & Hl & Hn). exists l. split; [done|lia]. Qed.

Lemma grows_bind {A B T} (tr : S → list T) k1 k2 (m : action S E A) (f : A → action S E B) :
  grows tr k1 m → (∀ a, grows tr k2 (f a)) → grows tr (k1 + k2) (bind m f).
Proof.
  intros Hm Hf s. unfold bind. destruct (Hm s) as (l1 & Hl1 & Hn1).
  destruct (m s) as [[a|e] s1]; simpl in *.
  - destruct (Hf a s1) as (l2 & Hl2 & Hn2). exists (l1 ++ l2).
    rewrite Hl2, Hl1, length_app, <-app_assoc. split; [done|lia].
  - exists l1. split; [done|lia].
Qed.

Lemma grows_zoom {U A T} (tr : S → list T) (tr' : U → list T) k (get : S → U)
    (set : U → S → S) (m : action U E A) :
  grows tr' k m → (∀ s, tr s = tr' (get s)) → (∀ s t, tr (set t s) = tr' t) →
  grows tr k (zoom get set m).
Proof. intros Hm Hget Hset s. rewrite run_zoom. simpl. rewrite Hset, Hget. apply Hm. Qed.

End ActionLemmas.

Create HintDb action discriminated.
Create Rewrite HintDb action.
#[export] Hint Rewrite @run_ret @run_raise @run_gets @run_modify @bind_ret_l
  @bind_raise_l : action.

(** ** Tactics *)

(** Unfold the combinators and compute as far as the state allows. *)
Ltac run_action :=
  unfold bind, ret, raise, gets, modify, try_except, try_finally, zoom, of_outcome
    in *; simpl in *.

(** Preservation goals: split the action along its combinators and case on
    the values its branches test; what is left is about the primitives. *)
Ltac preserves_step :=
  lazymatch goal with
  | |- preserves _ (bind _ _) => apply preserves_bind; [|intros ?]
  | |- preserves _ (ret _) => apply preserves_ret
  | |- preserves _ (raise _) => apply preserves_raise
  | |- preserves _ (gets _) => apply preserves_gets
  | |- preserves _ (of_outcome _) => apply preserves_of_outcome
  | |- preserves _ (try_except _ _) => apply preserves_try_except; [|intros ?]
  | |- preserves _ (try_finally _ _) => apply preserves_try_finally; [|intros ?]
  | |- preserves _ (match ?x with _ => _ end) => destruct x
  | |- preserves _ (if ?x then _ else _) => destruct x
  end.

Ltac raises_step :=
  lazymatch goal with
  | |- raises _ (bind _ _) => apply raises_bind; [|intros ?]
  | |- raises _ (ret _) => apply raises_ret
  | |- raises _ (gets _) => apply raises_gets
  | |- raises _ (modify _) => apply raises_modify
  | |- raises _ (raise _) => apply raises_raise
  | |- raises _ (zoom _ _ _) => apply raises_zoom
  | |- raises _ (try_except _ _) => apply raises_try_except; intros ?
  | |- raises _ (match ?x with _ => _ end) => destruct x
  | |- raises _ (if ?x then _ else _) => destruct x
  end.

Ltac solve_preserves tac :=
  repeat preserves_step; try solve [tac | eauto with action].

(** Inversion of a run: a hypothesis that a sequence returned, or raised, is
    split into the runs of its parts. *)
Ltac inv_run_step :=
  match goal with
  | H : bind _ _ _ = (Returned _, _) |- _ =>
      apply bind_returned_inv in H as (? & ? & ? & H)
  | H : bind _ _ _ = (Raised _, _) |- _ =>
      apply bind_raised_inv in H as [H|(? & ? & ? & H)]
  | H : ret _ _ = (_, _) |- _ => rewrite run_ret in H; simplify_eq
  | H : raise _ _ = (_, _) |- _ => rewrite run_raise in H; simplify_eq
  | H : gets _ _ = (_, _) |- _ => rewrite run_gets in H; simplify_eq
  | H : modify _ _ = (_, _) |- _ => rewrite run_modify in H; simplify_eq
  | H : of_outcome _ _ = (_, _) |- _ => unfold of_outcome in H; simplify_eq
  | H : zoom _ _ _ _ = (Returned _, _) |- _ =>
      apply zoom_returned_inv in H as (? & H & ->)
  | H : zoom _ _ _ _ = (Raised _, _) |- _ =>
      apply zoom_raised_inv in H as (? & H & ->)
  end.

Ltac inv_run := repeat inv_run_step.

(** A closed equation both sides of which compute to the same value, checked
    by the virtual machine. *)
Ltac vm_refl :=
  lazymatch goal with
  | |- @eq ?T ?a ?b => vm_cast_no_check (@eq_refl T b)
  end.

(** A property of every character, by computation on each of the 256. *)
Ltac by_cases_on c := destruct c as [[] [] [] [] [] [] [] []]; try reflexivity.

(** Split on the outcome of the call [m s] that blocks the goal. *)
Ltac case_outcome :=
  match goal with
  | |- context [match ?m with (_, _) => _ end] =>
      let r := fresh "r" in let s := fresh "s" in let H := fresh "Hrun" in
      destruct m as [r s] eqn:H; try destruct r; simpl in *
  end.

(** ** Shared facts on lists, options and strings *)

Lemma removelast_snoc {A} (l : list A) (x : A) : removelast (l ++ [x]) = l.
Proof. apply removelast_last. Qed.

Lemma removelast_snoc_inv {A} (l : list A) :
  l ≠ [] → ∃ l' x, l = l' ++ [x] ∧ removelast l = l'.
Proof.
  intros Hl. destruct (exists_last Hl) as (l' & x & ->).
  exists l', x. by rewrite removelast_snoc.
Qed.

Lemma snoc_ne_self {A} (l : list A) (x : A) : l ++ [x] ≠ l.
Proof.
  intros H. apply (f_equal length) in H. rewrite length_app in H. simpl in H. lia.
Qed.

Lemma removelast_ne_snoc {A} (l : list A) (x : A) : removelast l ≠ l ++ [x].
Proof.
  intros H. apply (f_equal length) in H.
  rewrite removelast_firstn_len, length_take, length_app in H. simpl in H. lia.
Qed.

(** Strings *)

Lemma string_app_cons (c : Ascii.ascii) (s t : string) :
  String c s +:+ t = String c (s +:+ t).
Proof. reflexivity. Qed.

Lemma string_app_nil_l (s : string) : "" +:+ s = s.
Proof. reflexivity. Qed.

Lemma string_app_assoc (s t u : string) : (s +:+ t) +:+ u = s +:+ (t +:+ u).
Proof. induction s as [|c s IH]; [done|]. by rewrite !string_app_cons, IH. Qed.

Lemma string_app_nil_r (s : string) : s +:+ "" = s.
Proof. induction s as [|c s IH]; [done|]. by rewrite string_app_cons, IH. Qed.

Lemma string_app_length (s t : string) :
  String.length (s +:+ t) = String.length s + String.length t.
Proof. induction s as [|c s IH]; [done|]. rewrite string_app_cons. simpl. by rewrite IH. Qed.

(** Appends in normal form: nested to the right, with the characters of a
    literal prefix in front. *)
Create Rewrite HintDb string.
#[export] Hint Rewrite string_app_assoc string_app_cons string_app_nil_l string_app_nil_r :
  string.

Lemma is_Some_bool_decide {A} (o : option A) :
  bool_decide (is_Some o) = match o with Some _ => true | None => false end.
Proof.
  destruct o; [apply bool_decide_eq_true_2; eauto|].
  apply bool_decide_eq_false_2. by intros [? ?].
Qed.
