(* ===== verification/Exn.v ===== *)
(** * Exceptions

    The Python exceptions that the account commands raise or let through, as
    values.  [OpenBBError] is the platform's own error class: the commands
    raise it with a message ([account.py], lines 80, 130 and 211) and the
    decorator raises it around the exception it caught (line 50).  The four
    [OSError] subclasses are what [Path.mkdir], [open] and [Path.unlink] raise
    on the paths the commands use; [JSONDecodeError] and [ValidationError] are
    what reading a session file that is not a serialized session raises, and
    [TypeError] what [HubSession( **x)] raises when [x] is not a dictionary.  The
    errors of the hub client carry the kinds the specification names. *)

From S2P Require Import Prelude.

(** Failures of the hub client (specification, section 7). *)
Inductive hub_error : Type :=
| AuthenticationError
| TransportError
| HubUnavailableError
| NotConnectedError.

#[global] Instance hub_error_eq_dec : EqDecision hub_error.
Proof. solve_decision. Defined.

Inductive exn : Type :=
| OpenBBError (original : string)
| OpenBBErrorFrom (cause : exn)
| FileNotFoundError
| FileExistsError
| IsADirectoryError
| NotADirectoryError
| JSONDecodeError
| ValidationError
| TypeError
| HubError (kind : hub_error).

#[global] Instance exn_eq_dec : EqDecision exn.
Proof. solve_decision. Defined.

(** The two messages of the commands. *)
Definition session_not_found : exn := OpenBBError "Session not found.".
Definition not_connected : exn := OpenBBError "Not connected to hub.".

(** How many times an exception has been wrapped by the decorator. *)
Fixpoint wrap_depth (e : exn) : nat :=
  match e with
  | OpenBBErrorFrom c => S (wrap_depth c)
  | _ => 0
  end.

(** The exception at the bottom of a chain of causes. *)
Fixpoint root_cause (e : exn) : exn :=
  match e with
  | OpenBBErrorFrom c => root_cause c
  | _ => e
  end.

(** The classes of exceptions the parts of the system raise. *)
Definition os_error (e : exn) : Prop :=
  match e with
  | FileNotFoundError | FileExistsError | IsADirectoryError | NotADirectoryError => True
  | _ => False
  end.

Definition hub_failure (e : exn) : Prop :=
  match e with HubError _ => True | _ => False end.

Definition corrupt_session (e : exn) : Prop :=
  e = JSONDecodeError ∨ e = ValidationError ∨ e = TypeError.

(** An exception as a function raised it, before the decorator wrapped it. *)
Definition unwrapped (e : exn) : Prop := wrap_depth e = 0.

#[global] Instance os_error_dec e : Decision (os_error e).
Proof. destruct e; apply _. Defined.

#[global] Instance hub_failure_dec e : Decision (hub_failure e).
Proof. destruct e; apply _. Defined.

Lemma os_error_unwrapped e : os_error e → unwrapped e.
Proof. by destruct e. Qed.

Lemma hub_failure_unwrapped e : hub_failure e → unwrapped e.
Proof. by destruct e. Qed.

Lemma corrupt_session_unwrapped e : corrupt_session e → unwrapped e.
Proof. by intros [-> | [-> | ->]]. Qed.

Lemma wrap_depth_root_cause e : wrap_depth (root_cause e) = 0.
Proof. induction e; done. Qed.

Lemma root_cause_idemp e : root_cause (root_cause e) = root_cause e.
Proof. induction e; done. Qed.

Lemma wrap_depth_0_root_cause e : wrap_depth e = 0 → root_cause e = e.
Proof. by destruct e. Qed.

#[export] Hint Resolve os_error_unwrapped hub_failure_unwrapped corrupt_session_unwrapped :
  action.
