(* ===== verification/FileSystem.v ===== *)
(** * The local file system

    The account commands touch the disk through six calls ([account.py]):
    [Path.exists] (lines 79 and 217), [open] for reading (line 82),
    [Path.mkdir(parents=False, exist_ok=True)] (line 126), [open(_, "w")]
    (line 128), the write of the serialized session inside the [with] block
    (line 132) and [Path.unlink] (line 218).  This file gives each call its
    meaning on a disk modelled as a finite map from absolute paths to nodes,
    with the exceptions Python raises on POSIX.  Permissions and symbolic
    links are left out. *)

From stdpp Require Import gmap fin_maps.
From S2P Require Import Prelude Exn.

(** An absolute path, as the list of its components from the root. *)
Abbreviation path := (list string).

Inductive node : Type :=
| Dir
| File (content : string).

#[global] Instance node_eq_dec : EqDecision node.
Proof. solve_decision. Defined.

(** The disk.  An abbreviation and not a definition, so that the lemmas of
    finite maps apply to it as they are. *)
Abbreviation fs := (gmap path node).

(** [Path.parent]; the root is its own parent. *)
Definition parent (p : path) : path := removelast p.

(** [Path(dir, name)]. *)
Definition child (dir : path) (name : string) : path := dir ++ [name].

(** Which exception a path that is absent raises when it is created or
    opened: its parent is missing, or is a file. *)
Definition absent_error (σ : fs) (p : path) : option exn :=
  match σ !! parent p with
  | Some Dir => None
  | Some (File _) => Some NotADirectoryError
  | None => Some FileNotFoundError
  end.

(** [p.exists()]. *)
Definition path_exists (p : path) : action fs exn bool :=
  gets (λ σ, bool_decide (is_Some (σ !! p))).

(** [p.mkdir(parents=False, exist_ok=True)]: nothing to do on a directory,
    [FileExistsError] on a file, and no intermediate directory is created. *)
Definition mkdir (p : path) : action fs exn unit :=
  λ σ, match σ !! p with
       | Some Dir => (Returned tt, σ)
       | Some (File _) => (Raised FileExistsError, σ)
       | None =>
           match absent_error σ p with
           | None => (Returned tt, <[p := Dir]> σ)
           | Some e => (Raised e, σ)
           end
       end.

(** [open(p, "w")]: the file is created, or truncated if it exists. *)
Definition open_w (p : path) : action fs exn unit :=
  λ σ, match σ !! p with
       | Some Dir => (Raised IsADirectoryError, σ)
       | Some (File _) => (Returned tt, <[p := File ""]> σ)
       | None =>
           match absent_error σ p with
           | None => (Returned tt, <[p := File ""]> σ)
           | Some e => (Raised e, σ)
           end
       end.

(** Writing [data] to the file opened at [p]: appended to what the handle has
    written so far. *)
Definition write (p : path) (data : string) : action fs exn unit :=
  modify (λ σ, match σ !! p with
               | Some (File c) => <[p := File (c +:+ data)]> σ
               | _ => σ
               end).

(** [open(p)] and reading the whole file. *)
Definition open_r (p : path) : action fs exn string :=
  λ σ, match σ !! p with
       | Some (File c) => (Returned c, σ)
       | Some Dir => (Raised IsADirectoryError, σ)
       | None =>
           (Raised (default FileNotFoundError (absent_error σ p)), σ)
       end.

(** [p.unlink()]. *)
Definition unlink (p : path) : action fs exn unit :=
  λ σ, match σ !! p with
       | Some (File _) => (Returned tt, delete p σ)
       | Some Dir => (Raised IsADirectoryError, σ)
       | None =>
           (Raised (default FileNotFoundError (absent_error σ p)), σ)
       end.

(** ** Well-formed disks *)

(** The root is a directory and every node sits in a directory. *)
Definition fs_wf (σ : fs) : Prop :=
  σ !! [] = Some Dir ∧ map_Forall (λ p _, σ !! parent p = Some Dir) σ.

#[global] Instance fs_wf_dec σ : Decision (fs_wf σ).
Proof. unfold fs_wf. apply _. Defined.

Section FileSystemLemmas.
Implicit Types (σ : fs) (p q : path) (n : node).

Lemma parent_child p c : parent (child p c) = p.
Proof. apply removelast_snoc. Qed.

Lemma child_ne_parent p c : child p c ≠ p.
Proof. apply snoc_ne_self. Qed.

Lemma parent_ne_child p c : parent p ≠ child p c.
Proof. apply removelast_ne_snoc. Qed.

Lemma parent_nil : parent [] = [].
Proof. reflexivity. Qed.

Lemma fs_wf_parent σ p n : fs_wf σ → σ !! p = Some n → σ !! parent p = Some Dir.
Proof. intros [_ Hwf] Hp. exact (Hwf p n Hp). Qed.

Lemma fs_wf_child σ p c n : fs_wf σ → σ !! child p c = Some n → σ !! p = Some Dir.
Proof. intros Hwf Hp. rewrite <-(parent_child p c). eauto using fs_wf_parent. Qed.

(** A file has nothing below it on a well-formed disk. *)
Lemma fs_wf_file_leaf σ p c data :
  fs_wf σ → σ !! p = Some (File data) → σ !! child p c = None.
Proof.
  intros Hwf Hp. destruct (σ !! child p c) as [n|] eqn:Hc; [|done].
  apply (fs_wf_child _ _ _ _ Hwf) in Hc. congruence.
Qed.

(** Adding a node under a directory keeps the disk well formed. *)
Lemma fs_wf_insert σ p n :
  fs_wf σ → σ !! parent p = Some Dir → (p = [] → n = Dir) →
  (∀ c, n ≠ Dir → σ !! child p c = None) →
  fs_wf (<[p := n]> σ).
Proof.
  intros [Hroot Hwf] Hpar Hnil Hleaf. split.
  - destruct (decide (p = [])) as [->|]; [by rewrite Hnil, lookup_insert_eq|].
    by rewrite lookup_insert_ne.
  - intros q m Hq. destruct (decide (p = parent q)) as [Heq|Hne].
    + destruct (decide (n = Dir)) as [->|Hn]; [by rewrite Heq, lookup_insert_eq|].
      exfalso. apply lookup_insert_Some in Hq as [[<- _]|[Hpq Hq]].
      * destruct p as [|c p] using rev_ind; [by apply Hn, Hnil|].
        unfold parent in Heq. rewrite removelast_snoc in Heq.
        by apply (snoc_ne_self p c).
      * destruct q as [|c q _] using rev_ind; [done|].
        unfold parent in Heq. rewrite removelast_snoc in Heq. subst q.
        specialize (Hleaf c Hn). unfold child in Hleaf. congruence.
    + rewrite lookup_insert_ne by done.
      apply lookup_insert_Some in Hq as [[<- _]|[_ Hq]]; [done|].
      exact (Hwf q m Hq).
Qed.

(** Replacing the content of a file keeps the disk well formed. *)
Lemma fs_wf_overwrite σ p c c' :
  fs_wf σ → σ !! p = Some (File c) → fs_wf (<[p := File c']> σ).
Proof.
  intros Hwf Hp. apply fs_wf_insert; [done|by eapply fs_wf_parent| |].
  - intros ->. destruct Hwf as [Hroot _]. congruence.
  - intros d _. by eapply fs_wf_file_leaf.
Qed.

(** Removing a file keeps the disk well formed. *)
Lemma fs_wf_delete_file σ p data :
  fs_wf σ → σ !! p = Some (File data) → fs_wf (delete p σ).
Proof.
  intros [Hroot Hwf] Hp. split.
  - rewrite lookup_delete_ne; [done|]. intros ->. by simplify_eq.
  - intros q m Hq. apply lookup_delete_Some in Hq as [Hpq Hq].
    rewrite lookup_delete_ne; [exact (Hwf q m Hq)|].
    intros ->. pose proof (Hwf q m Hq) as Hd. simpl in Hd. congruence.
Qed.

(** ** The calls, one by one *)

Lemma absent_error_None σ p : absent_error σ p = None ↔ σ !! parent p = Some Dir.
Proof. unfold absent_error. by destruct (σ !! parent p) as [[|c]|]. Qed.

Lemma path_exists_run p σ :
  path_exists p σ = (Returned (bool_decide (is_Some (σ !! p))), σ).
Proof. reflexivity. Qed.

Lemma path_exists_true p σ n : σ !! p = Some n → path_exists p σ = (Returned true, σ).
Proof. intros Hp. rewrite path_exists_run, is_Some_bool_decide. by rewrite Hp. Qed.

Lemma path_exists_false p σ : σ !! p = None → path_exists p σ = (Returned false, σ).
Proof. intros Hp. rewrite path_exists_run, is_Some_bool_decide. by rewrite Hp. Qed.

(** [mkdir] *)

Lemma mkdir_dir p σ : σ !! p = Some Dir → mkdir p σ = (Returned tt, σ).
Proof. unfold mkdir. by intros ->. Qed.

Lemma mkdir_file p σ c : σ !! p = Some (File c) → mkdir p σ = (Raised FileExistsError, σ).
Proof. unfold mkdir. by intros ->. Qed.

Lemma mkdir_fresh p σ :
  σ !! p = None → σ !! parent p = Some Dir → mkdir p σ = (Returned tt, <[p := Dir]> σ).
Proof. unfold mkdir, absent_error. by intros -> ->. Qed.

(** [mkdir] does not create parents ([parents=False]): when the
    directory is absent and its parent is absent too, the call raises
    [FileNotFoundError] and the disk is unchanged. *)
Theorem mkdir_no_parent p σ :
  σ !! p = None → σ !! parent p = None → mkdir p σ = (Raised FileNotFoundError, σ).
Proof. unfold mkdir, absent_error. by intros -> ->. Qed.

Lemma mkdir_returned p σ σ' : mkdir p σ = (Returned tt, σ') → σ' !! p = Some Dir.
Proof.
  unfold mkdir. destruct (σ !! p) as [[|c]|] eqn:Hp; [naive_solver..|].
  destruct (absent_error σ p); intros; simplify_eq. apply lookup_insert_eq.
Qed.

Lemma mkdir_raised p σ e σ' : mkdir p σ = (Raised e, σ') → σ' = σ.
Proof.
  unfold mkdir. destruct (σ !! p) as [[|c]|]; [naive_solver..|].
  destruct (absent_error σ p); naive_solver.
Qed.

Lemma mkdir_frame p q σ : q ≠ p → (mkdir p σ).2 !! q = σ !! q.
Proof.
  intros Hq. unfold mkdir. destruct (σ !! p) as [[|c]|]; [done..|].
  destruct (absent_error σ p); [done|]. simpl. by rewrite lookup_insert_ne.
Qed.

Lemma mkdir_wf p σ : fs_wf σ → fs_wf (mkdir p σ).2.
Proof.
  intros Hwf. unfold mkdir. destruct (σ !! p) as [[|c]|] eqn:Hp; [done..|].
  destruct (absent_error σ p) eqn:He; [done|]. simpl.
  apply absent_error_None in He. apply fs_wf_insert; [done..|].
  intros c Hn. by destruct Hn.
Qed.

(** [open] for writing *)

Lemma open_w_returned p σ σ' :
  open_w p σ = (Returned tt, σ') → σ' = <[p := File ""]> σ ∧ σ !! p ≠ Some Dir.
Proof.
  unfold open_w. destruct (σ !! p) as [[|c]|]; [naive_solver..|].
  destruct (absent_error σ p); naive_solver.
Qed.

Lemma open_w_raised p σ e σ' : open_w p σ = (Raised e, σ') → σ' = σ.
Proof.
  unfold open_w. destruct (σ !! p) as [[|c]|]; [naive_solver..|].
  destruct (absent_error σ p); naive_solver.
Qed.

Lemma open_w_file p σ c : σ !! p = Some (File c) → open_w p σ = (Returned tt, <[p := File ""]> σ).
Proof. unfold open_w. by intros ->. Qed.

Lemma open_w_fresh p σ :
  σ !! p = None → σ !! parent p = Some Dir →
  open_w p σ = (Returned tt, <[p := File ""]> σ).
Proof. unfold open_w, absent_error. by intros -> ->. Qed.

(** [open(p, "w")] returns when no directory stands at [p] and the parent of
    [p] is a directory. *)
Lemma open_w_not_dir p σ :
  σ !! p ≠ Some Dir → σ !! parent p = Some Dir →
  open_w p σ = (Returned tt, <[p := File ""]> σ).
Proof.
  intros Hp Hd. destruct (σ !! p) as [[|c]|] eqn:Hc; [done| |].
  - by apply open_w_file with c.
  - by apply open_w_fresh.
Qed.

Lemma open_w_dir p σ : σ !! p = Some Dir → open_w p σ = (Raised IsADirectoryError, σ).
Proof. unfold open_w. by intros ->. Qed.

Lemma open_w_frame p q σ : q ≠ p → (open_w p σ).2 !! q = σ !! q.
Proof.
  intros Hq. unfold open_w.
  destruct (σ !! p) as [[|c]|]; [done|simpl; by rewrite lookup_insert_ne|].
  destruct (absent_error σ p); [done|]. simpl. by rewrite lookup_insert_ne.
Qed.

Lemma open_w_wf p σ : fs_wf σ → fs_wf (open_w p σ).2.
Proof.
  intros Hwf. unfold open_w. destruct (σ !! p) as [[|c]|] eqn:Hp; [done| |].
  - simpl. eauto using fs_wf_overwrite.
  - destruct (absent_error σ p) eqn:He; [done|]. simpl.
    apply absent_error_None in He. apply fs_wf_insert; [done..| |].
    + intros ->. destruct Hwf as [Hroot _]. congruence.
    + intros c _. destruct (σ !! child p c) as [n|] eqn:Hc; [|done].
      apply (fs_wf_child _ _ _ _ Hwf) in Hc. congruence.
Qed.

(** [write] *)

Lemma write_file p data σ c :
  σ !! p = Some (File c) → write p data σ = (Returned tt, <[p := File (c +:+ data)]> σ).
Proof. unfold write, modify. by intros ->. Qed.

Lemma write_frame p q data σ : q ≠ p → (write p data σ).2 !! q = σ !! q.
Proof.
  intros Hq. unfold write, modify. simpl.
  destruct (σ !! p) as [[|c]|]; [done| |done]. by rewrite lookup_insert_ne.
Qed.

Lemma write_wf p data σ : fs_wf σ → fs_wf (write p data σ).2.
Proof.
  intros Hwf. unfold write, modify. simpl. destruct (σ !! p) as [[|c]|] eqn:Hp; [done| |done].
  eauto using fs_wf_overwrite.
Qed.

(** [open] for reading *)

Lemma open_r_file p σ c : σ !! p = Some (File c) → open_r p σ = (Returned c, σ).
Proof. unfold open_r. by intros ->. Qed.

Lemma open_r_state p σ : (open_r p σ).2 = σ.
Proof. unfold open_r. by destruct (σ !! p) as [[|c]|]. Qed.

Lemma open_r_returned p σ c σ' : open_r p σ = (Returned c, σ') → σ !! p = Some (File c).
Proof. unfold open_r. destruct (σ !! p) as [[|c']|]; naive_solver. Qed.

(** [unlink] *)

Lemma unlink_file p σ c : σ !! p = Some (File c) → unlink p σ = (Returned tt, delete p σ).
Proof. unfold unlink. by intros ->. Qed.

Lemma unlink_dir p σ : σ !! p = Some Dir → unlink p σ = (Raised IsADirectoryError, σ).
Proof. unfold unlink. by intros ->. Qed.

Lemma unlink_returned p σ σ' : unlink p σ = (Returned tt, σ') → σ' !! p = None.
Proof.
  unfold unlink. destruct (σ !! p) as [[|c]|]; [done| |done].
  intros; simplify_eq. apply lookup_delete_eq.
Qed.

Lemma unlink_raised p σ e σ' : unlink p σ = (Raised e, σ') → σ' = σ.
Proof. unfold unlink. destruct (σ !! p) as [[|c]|]; naive_solver. Qed.

Lemma unlink_frame p q σ : q ≠ p → (unlink p σ).2 !! q = σ !! q.
Proof.
  intros Hq. unfold unlink. destruct (σ !! p) as [[|c]|]; [done| |done].
  simpl. by rewrite lookup_delete_ne.
Qed.

Lemma unlink_wf p σ : fs_wf σ → fs_wf (unlink p σ).2.
Proof.
  intros Hwf. unfold unlink. destruct (σ !! p) as [[|c]|] eqn:Hp; [done| |done].
  simpl. eauto using fs_wf_delete_file.
Qed.

Lemma path_exists_wf p σ : fs_wf σ → fs_wf (path_exists p σ).2.
Proof. done. Qed.

Lemma open_r_wf p σ : fs_wf σ → fs_wf (open_r p σ).2.
Proof. by rewrite open_r_state. Qed.

(** The calls raise [OSError]s only. *)

Lemma absent_error_os σ p e : absent_error σ p = Some e → os_error e.
Proof. unfold absent_error. destruct (σ !! parent p) as [[|c]|]; naive_solver. Qed.

Lemma default_absent_error_os σ p : os_error (default FileNotFoundError (absent_error σ p)).
Proof. unfold absent_error. by destruct (σ !! parent p) as [[|c]|]. Qed.

Lemma path_exists_raises p (P : exn → Prop) : raises P (path_exists p).
Proof. apply raises_gets. Qed.

Lemma write_raises p data (P : exn → Prop) : raises P (write p data).
Proof. apply raises_modify. Qed.

Lemma mkdir_raises p : raises os_error (mkdir p).
Proof.
  intros σ e σ'. unfold mkdir. destruct (σ !! p) as [[|c]|]; [naive_solver..|].
  destruct (absent_error σ p) eqn:He; [|done]. intros; simplify_eq.
  by eapply absent_error_os.
Qed.

Lemma open_w_raises p : raises os_error (open_w p).
Proof.
  intros σ e σ'. unfold open_w. destruct (σ !! p) as [[|c]|]; [naive_solver..|].
  destruct (absent_error σ p) eqn:He; [|done]. intros; simplify_eq.
  by eapply absent_error_os.
Qed.

Lemma open_r_raises p : raises os_error (open_r p).
Proof.
  intros σ e σ'. unfold open_r. pose proof (default_absent_error_os σ p).
  destruct (σ !! p) as [[|c]|]; naive_solver.
Qed.

Lemma unlink_raises p : raises os_error (unlink p).
Proof.
  intros σ e σ'. unfold unlink. pose proof (default_absent_error_os σ p).
  destruct (σ !! p) as [[|c]|]; naive_solver.
Qed.

(** What is written through a handle opened for writing is what a
    later read returns, whatever the file held before: [open(p, "w")]
    truncates. *)
Theorem open_w_write_read p data σ σ1 :
  open_w p σ = (Returned tt, σ1) →
  open_r p (write p data σ1).2 = (Returned data, (write p data σ1).2).
Proof.
  intros [-> _]%open_w_returned.
  erewrite write_file by apply lookup_insert_eq. simpl.
  apply open_r_file. by rewrite lookup_insert_eq.
Qed.

(** C39. The five calls that can change the disk or fail keep it well formed,
    on every branch: no call leaves a node whose parent is not a
    directory. *)
Theorem fs_calls_keep_wf p data :
  preserves fs_wf (mkdir p) ∧ preserves fs_wf (open_w p) ∧
  preserves fs_wf (write p data) ∧ preserves fs_wf (open_r p) ∧
  preserves fs_wf (unlink p).
Proof.
  split_and!; intros σ Hσ;
    [by apply mkdir_wf|by apply open_w_wf|by apply write_wf|by apply open_r_wf
    |by apply unlink_wf].
Qed.

End FileSystemLemmas.

#[export] Hint Resolve mkdir_wf open_w_wf write_wf unlink_wf path_exists_wf open_r_wf : action.
#[export] Hint Resolve path_exists_raises write_raises mkdir_raises open_w_raises
  open_r_raises unlink_raises : action.
#[export] Hint Rewrite open_r_state : action.
