(* ===== verification/Settings.v ===== *)
(** * Settings and the settings store

    The data the account commands move around, and the interface of the
    service that keeps the default settings on disk.  None of these classes is
    under [src/]: the records follow section 3 of the specification and the
    interface its section 6 ([readDefault], [writeDefault], [updateDefault],
    which [account.py] calls as [UserService.read_default_user_settings],
    [UserService.write_default_user_settings] and
    [UserService.update_default]). *)

From stdpp Require Import numbers.
From S2P Require Import Prelude Exn FileSystem.

(** The token bundle a successful authentication returns. *)
Record HubSession : Type := mkHubSession {
  access_token : string;
  refresh_token : string;
  token_type : string;
  expiry : Z;
}.

#[global] Instance HubSession_eq_dec : EqDecision HubSession.
Proof. solve_decision. Defined.

Record Profile : Type := mkProfile {
  hub_session : option HubSession;
}.

#[global] Instance Profile_eq_dec : EqDecision Profile.
Proof. solve_decision. Defined.

(** The current user: an identity, a profile that may hold a session,
    credentials and preferences (both as ordered field-value lists). *)
Record UserSettings : Type := mkUserSettings {
  id : string;
  profile : Profile;
  credentials : list (string * string);
  preferences : list (string * string);
}.

#[global] Instance UserSettings_eq_dec : EqDecision UserSettings.
Proof. solve_decision. Defined.

Record SystemSettings : Type := mkSystemSettings {
  openbb_directory : path;
}.

#[global] Instance SystemSettings_eq_dec : EqDecision SystemSettings.
Proof. solve_decision. Defined.

(** [us.id = i]: assignment to the identity field. *)
Definition set_id (i : string) (us : UserSettings) : UserSettings :=
  {| id := i; profile := profile us; credentials := credentials us;
     preferences := preferences us |}.

(** The settings with [s] as the session of the profile. *)
Definition set_hub_session (s : option HubSession) (us : UserSettings) : UserSettings :=
  {| id := id us; profile := {| hub_session := s |}; credentials := credentials us;
     preferences := preferences us |}.

(** [us.profile.hub_session], which every command but [login] starts by
    reading. *)
Definition session_of (us : UserSettings) : option HubSession :=
  hub_session (profile us).

(** The two states of the specification (section 4.4). *)
Definition connected (us : UserSettings) : Prop := is_Some (session_of us).
Definition anonymous (us : UserSettings) : Prop := session_of us = None.

#[global] Instance connected_dec us : Decision (connected us).
Proof. unfold connected. apply _. Defined.

#[global] Instance anonymous_dec us : Decision (anonymous us).
Proof. unfold anonymous. apply _. Defined.

(** Two settings that agree on everything but the identity. *)
Definition same_but_id (a b : UserSettings) : Prop :=
  profile a = profile b ∧ credentials a = credentials b ∧ preferences a = preferences b.

(** ** The settings store *)

(** The store of default settings, over a state [defaults_store] (the
    settings file it keeps).  The three operations are total: the
    specification gives them no failure. *)
Class UserService : Type := {
  defaults_store : Type;
  read_default_user_settings : defaults_store → UserSettings;
  write_default_user_settings : UserSettings → defaults_store → defaults_store;
  update_default : UserSettings → defaults_store → UserSettings;
}.

(** What the specification states of the store: the default settings are
    local-only (section 3), and merging an incoming document keeps its session
    and its identity (section 4.3: the merged settings are the remote
    ones). *)
Class UserServiceLaws (US : UserService) : Prop := {
  read_default_anonymous d : session_of (read_default_user_settings d) = None;
  update_default_session us d : session_of (update_default us d) = session_of us;
  update_default_id us d : id (update_default us d) = id us;
}.

Section SettingsLemmas.
Implicit Types (us : UserSettings) (s : HubSession).

Lemma anonymous_not_connected us : anonymous us ↔ ¬ connected us.
Proof. unfold anonymous, connected. apply eq_None_not_Some. Qed.

Lemma id_set_id i us : id (set_id i us) = i.
Proof. reflexivity. Qed.

Lemma session_of_set_id i us : session_of (set_id i us) = session_of us.
Proof. reflexivity. Qed.

Lemma same_but_id_set_id i us : same_but_id (set_id i us) us.
Proof. by repeat split. Qed.

Lemma set_id_id us : set_id (id us) us = us.
Proof. by destruct us. Qed.

Lemma session_of_set_hub_session o us : session_of (set_hub_session o us) = o.
Proof. reflexivity. Qed.

Lemma id_set_hub_session o us : id (set_hub_session o us) = id us.
Proof. reflexivity. Qed.

End SettingsLemmas.

#[export] Hint Rewrite id_set_id session_of_set_id session_of_set_hub_session
  id_set_hub_session : action.
