(* ===== verification/Hub.v ===== *)
(** * The hub client

    [account.py] talks to the remote hub through an object of class
    [HubService]: it builds one from a stored session ([HubService(session)],
    lines 86, 158, 185 and 213) or empty ([HubService()], line 88), and calls
    [connect], [pull], [push], [disconnect] and the attribute [session] on it.
    The class is not under [src/]; this file models it from section 4.2 of
    the specification, over the interface [HubRemote] of the remote service
    (the four calls of section 6).  Every call that reaches the remote service
    is appended to a wire trace, so that "no remote call is made" is a
    statement about the state. *)

From S2P Require Import Prelude Exn FileSystem Settings.

(** How a client proves who it is. *)
Inductive auth_request : Type :=
| ByCredentials (email password : string)
| ByToken (pat : string).

#[global] Instance auth_request_eq_dec : EqDecision auth_request.
Proof. solve_decision. Defined.

(** The calls of the remote boundary. *)
Inductive rpc : Type :=
| RpcAuthenticate (a : auth_request)
| RpcPull (s : HubSession)
| RpcPush (s : HubSession) (doc : UserSettings)
| RpcDisconnect (s : HubSession).

#[global] Instance rpc_eq_dec : EqDecision rpc.
Proof. solve_decision. Defined.

(** The remote service: a state and the four calls, each of which may fail
    with one of the hub's error kinds. *)
Class HubRemote : Type := {
  hub_state : Type;
  authenticate : auth_request → action hub_state hub_error HubSession;
  pull_settings : HubSession → action hub_state hub_error UserSettings;
  push_settings : HubSession → UserSettings → action hub_state hub_error unit;
  invalidate : HubSession → action hub_state hub_error unit;
}.

Section Net.
Context {HR : HubRemote}.

(** The network as the client sees it: the remote service and the calls made
    to it so far, oldest first. *)
Record Net : Type := mkNet {
  remote : hub_state;
  wire : list rpc;
}.

(** The network after one call [r] that left the remote service in [h]. *)
Definition after_call (r : rpc) (h : hub_state) (n : Net) : Net :=
  {| remote := h; wire := wire n ++ [r] |}.

(** One call: it is recorded on the wire, runs on the remote state, and its
    failure reaches the caller as a [HubError]. *)
Definition call {A} (r : rpc) (m : action hub_state hub_error A) : action Net exn A :=
  λ n, match m (remote n) with
       | (Returned a, h) => (Returned a, after_call r h n)
       | (Raised k, h) => (Raised (HubError k), after_call r h n)
       end.

End Net.

Arguments Net : clear implicits.
Arguments Net {HR}.

Module HubService.
Section HubService.
Context {HR : HubRemote}.

(** The client object: it owns the live session once connected. *)
Record t : Type := mk {
  session : option HubSession;
}.

(** [HubService(session)]; [HubService()] is [init None]. *)
Definition init (s : option HubSession) : t := {| session := s |}.

(** [hs.connect(email, password, pat)]: by credentials when both are given,
    else by token, else rejected.  On success the client holds the session. *)
Definition connect (email password pat : option string) (hs : t) : action Net exn t :=
  match email, password, pat with
  | Some e, Some p, _ =>
      let* s := call (RpcAuthenticate (ByCredentials e p)) (authenticate (ByCredentials e p)) in
      ret {| session := Some s |}
  | _, _, Some tok =>
      let* s := call (RpcAuthenticate (ByToken tok)) (authenticate (ByToken tok)) in
      ret {| session := Some s |}
  | _, _, None => raise (HubError AuthenticationError)
  end%act.

(** [hs.pull()]: the remote settings of the connected identity, with the
    client's session in their profile. *)
Definition pull (hs : t) : action Net exn UserSettings :=
  match session hs with
  | None => raise (HubError NotConnectedError)
  | Some s =>
      let* doc := call (RpcPull s) (pull_settings s) in
      ret (set_hub_session (Some s) doc)
  end%act.

(** [hs.push(settings)]. *)
Definition push (hs : t) (us : UserSettings) : action Net exn unit :=
  match session hs with
  | None => raise (HubError NotConnectedError)
  | Some s => call (RpcPush s us) (push_settings s us)
  end.

(** [hs.disconnect()]: the session is invalidated on the remote side as far
    as that succeeds, and released by the client; without a session there is
    nothing to do. *)
Definition disconnect (hs : t) : action Net exn t :=
  match session hs with
  | None => ret hs
  | Some s =>
      (try_except (call (RpcDisconnect s) (invalidate s)) (λ _, ret tt) ;;
       ret {| session := None |})%act
  end.

End HubService.
End HubService.

(** ** What the client guarantees *)

Section HubLemmas.
Context {HR : HubRemote}.
Implicit Types (n : Net) (hs : HubService.t) (s : HubSession).

(** A call adds exactly itself to the wire. *)
Lemma call_wire {A} r (m : action hub_state hub_error A) n :
  wire (call r m n).2 = wire n ++ [r].
Proof. unfold call. by destruct (m (remote n)) as [[a|k] h]. Qed.

Lemma call_returned {A} r (m : action hub_state hub_error A) n a n' :
  call r m n = (Returned a, n') →
  m (remote n) = (Returned a, remote n') ∧ wire n' = wire n ++ [r].
Proof. unfold call. destruct (m (remote n)) as [[a'|k] h]; naive_solver. Qed.

Lemma call_raised {A} r (m : action hub_state hub_error A) n e n' :
  call r m n = (Raised e, n') →
  ∃ k, e = HubError k ∧ m (remote n) = (Raised k, remote n') ∧ wire n' = wire n ++ [r].
Proof. unfold call. destruct (m (remote n)) as [[a'|k] h]; naive_solver. Qed.

(** Without a session, [pull] and [push] fail before any call is made. *)
Lemma pull_not_connected hs n :
  HubService.session hs = None →
  HubService.pull hs n = (Raised (HubError NotConnectedError), n).
Proof. unfold HubService.pull. by intros ->. Qed.

Lemma push_not_connected hs us n :
  HubService.session hs = None →
  HubService.push hs us n = (Raised (HubError NotConnectedError), n).
Proof. unfold HubService.push. by intros ->. Qed.

(** A [pull] that returns was made with a live session, made one call, and
    its result carries that session. *)
Lemma pull_returned hs n us n' :
  HubService.pull hs n = (Returned us, n') →
  ∃ s doc, HubService.session hs = Some s ∧ us = set_hub_session (Some s) doc ∧
           pull_settings s (remote n) = (Returned doc, remote n') ∧
           wire n' = wire n ++ [RpcPull s].
Proof.
  unfold HubService.pull. destruct (HubService.session hs) as [s|]; [|done].
  intros (doc & n1 & [Hm Hw]%call_returned & Hret)%bind_returned_inv.
  run_action. simplify_eq. eauto 10.
Qed.

Lemma pull_returned_session hs n us n' :
  HubService.pull hs n = (Returned us, n') → session_of us = HubService.session hs.
Proof. intros (s & doc & -> & -> & _)%pull_returned. reflexivity. Qed.

(** A successful [connect] leaves the client with a session. *)
Lemma connect_returned email password pat hs n hs' n' :
  HubService.connect email password pat hs n = (Returned hs', n') →
  is_Some (HubService.session hs').
Proof.
  unfold HubService.connect.
  destruct email as [e|], password as [p|], pat as [tok|]; try done;
    intros (s & n1 & _ & Hret)%bind_returned_inv; run_action; simplify_eq; eauto.
Qed.

(** With no credential at all, [connect] is rejected before any call. *)
Lemma connect_no_credentials hs n :
  HubService.connect None None None hs n = (Raised (HubError AuthenticationError), n).
Proof. reflexivity. Qed.

(** [disconnect] never fails, and releases the session. *)
Lemma disconnect_returns hs n :
  ∃ n', HubService.disconnect hs n = (Returned (HubService.init None), n').
Proof.
  unfold HubService.disconnect, HubService.init.
  destruct hs as [[s|]]; simpl; [|eauto].
  unfold bind, try_except, call.
  destruct (invalidate s (remote n)) as [[[]|k] h]; simpl; eauto.
Qed.

(** [disconnect] is idempotent: the second one changes nothing. *)
Lemma disconnect_idemp hs n hs' n' :
  HubService.disconnect hs n = (Returned hs', n') →
  HubService.disconnect hs' n' = (Returned hs', n').
Proof.
  intros H. destruct (disconnect_returns hs n) as [n1 H1].
  rewrite H in H1. by simplify_eq.
Qed.

(** [disconnect] makes at most the one call that invalidates the session. *)
Lemma disconnect_wire hs n :
  wire (HubService.disconnect hs n).2 =
  wire n ++ match HubService.session hs with Some s => [RpcDisconnect s] | None => [] end.
Proof.
  unfold HubService.disconnect. destruct (HubService.session hs) as [s|]; simpl.
  - unfold bind, try_except, call.
    by destruct (invalidate s (remote n)) as [[[]|k] h].
  - by rewrite app_nil_r.
Qed.

(** No operation of the client makes more than one call. *)
Lemma call_grows {A} r (m : action hub_state hub_error A) : grows wire 1 (call r m).
Proof. intros n. exists [r]. by rewrite call_wire. Qed.

Lemma connect_grows email password pat hs :
  grows wire 1 (HubService.connect email password pat hs).
Proof.
  unfold HubService.connect. destruct email, password, pat;
    first [ apply (grows_bind wire 1 0); [apply call_grows|intros; by apply grows_keeps]
          | by apply grows_keeps ].
Qed.

Lemma pull_grows hs : grows wire 1 (HubService.pull hs).
Proof.
  unfold HubService.pull. destruct (HubService.session hs); [|by apply grows_keeps].
  apply (grows_bind wire 1 0); [apply call_grows|intros; by apply grows_keeps].
Qed.

Lemma push_grows hs us : grows wire 1 (HubService.push hs us).
Proof.
  unfold HubService.push. destruct (HubService.session hs);
    [apply call_grows|by apply grows_keeps].
Qed.

Lemma disconnect_grows hs : grows wire 1 (HubService.disconnect hs).
Proof.
  intros n. eexists. split; [apply disconnect_wire|].
  destruct (HubService.session hs); simpl; lia.
Qed.

(** The client raises hub errors only, and [disconnect] raises nothing. *)

Lemma call_raises {A} r (m : action hub_state hub_error A) : raises hub_failure (call r m).
Proof. intros n e n' (k & -> & _)%call_raised. done. Qed.

Lemma connect_raises email password pat hs :
  raises hub_failure (HubService.connect email password pat hs).
Proof.
  unfold HubService.connect.
  repeat first [raises_step | apply call_raises | done].
Qed.

Lemma pull_raises hs : raises hub_failure (HubService.pull hs).
Proof. unfold HubService.pull. repeat first [raises_step | apply call_raises | done]. Qed.

Lemma push_raises hs us : raises hub_failure (HubService.push hs us).
Proof. unfold HubService.push. repeat first [raises_step | apply call_raises | done]. Qed.

Lemma disconnect_raises hs (P : exn → Prop) : raises P (HubService.disconnect hs).
Proof.
  intros n e n' H. destruct (disconnect_returns hs n) as [n1 H1]. congruence.
Qed.

End HubLemmas.

#[export] Hint Resolve call_raises connect_raises pull_raises push_raises
  disconnect_raises : action.
