(* ===== verification/SessionStore.v ===== *)
(** * The remembered session

    The session file [.hub_session.json] under the platform directory
    ([account.py]: [SESSION_FILE], line 29).  The class has no helper for it:
    [_create_hub_service] reads it (lines 78 to 85), [login] writes it when
    asked to remember (lines 126 to 132) and [logout] removes it (lines 216 to
    218).  Each of the three fragments is a definition here, over the disk of
    [FileSystem].  The text of the file is the JSON form of the session; this
    file takes the pair of [json.dump] of the dumped model and
    [HubSession( **json.load(f))] as the interface [SessionCodec]. *)

From stdpp Require Import gmap.
From S2P Require Import Prelude Exn FileSystem Settings.

(** Writing a session as text and reading it back.  Reading fails with
    [JSONDecodeError] on text that is not JSON, with [TypeError] on JSON that
    is not an object and with [ValidationError] on an object that is not a
    session. *)
Class SessionCodec : Type := {
  session_dump : HubSession → string;
  session_load : string → outcome exn HubSession;
}.

Class SessionCodecLaws (SC : SessionCodec) : Prop := {
  load_dump s : session_load (session_dump s) = Returned s;
  load_raises text e : session_load text = Raised e → corrupt_session e;
}.

Definition SESSION_FILE : string := ".hub_session.json".

(** [Path(self._openbb_directory, self.SESSION_FILE)]. *)
Definition session_file (dir : path) : path := child dir SESSION_FILE.

Section SessionStore.
Context {SC : SessionCodec}.

(** Lines 82 to 85: open the file, parse it, build the session. *)
Definition read_session (file : path) : action fs exn HubSession :=
  (let* text := open_r file in
   of_outcome (session_load text))%act.

(** Lines 126 to 132: make the directory (not its parents), open the file for
    writing, and only then look at the session of the client: without one the
    command fails and the file stays open-truncated; with one its JSON form is
    written. *)
Definition save_session (dir : path) (session : option HubSession) : action fs exn unit :=
  (mkdir dir ;;
   open_w (session_file dir) ;;
   match session with
   | None => raise not_connected
   | Some s => write (session_file dir) (session_dump s)
   end)%act.

(** Lines 216 to 218: remove the file if it is there. *)
Definition remove_session (dir : path) : action fs exn unit :=
  (let* present := path_exists (session_file dir) in
   if present then unlink (session_file dir) else ret tt)%act.

(** The disk is ready to remember a session under [dir]: the directory is
    there or its parent is, and no directory stands in the place of the
    session file.  This is exactly when saving a session returns. *)
Definition session_dir_ready (dir : path) (σ : fs) : bool :=
  match σ !! dir with
  | Some Dir => true
  | Some (File _) => false
  | None => bool_decide (σ !! parent dir = Some Dir)
  end && negb (bool_decide (σ !! session_file dir = Some Dir)).

Implicit Types (σ : fs) (dir : path) (s : HubSession).

(** ** Reading *)

Lemma read_session_state file σ : (read_session file σ).2 = σ.
Proof.
  unfold read_session, bind, of_outcome.
  pose proof (open_r_state file σ). by destruct (open_r file σ) as [[c|e] σ'].
Qed.

Lemma read_session_preserves (Q : fs → Prop) file : preserves Q (read_session file).
Proof. intros σ Hσ. by rewrite read_session_state. Qed.

Lemma read_session_wf file σ : fs_wf σ → fs_wf (read_session file σ).2.
Proof. by rewrite read_session_state. Qed.

Lemma read_session_file file σ text :
  σ !! file = Some (File text) → read_session file σ = (session_load text, σ).
Proof. intros H. unfold read_session, bind. by rewrite (open_r_file _ _ _ H). Qed.

Lemma read_session_dir file σ :
  σ !! file = Some Dir → read_session file σ = (Raised IsADirectoryError, σ).
Proof. intros H. unfold read_session, bind, open_r. by rewrite H. Qed.

(** ** Writing *)

(** After a save that returned, the client held a session, the file holds
    exactly its JSON form and the platform directory is there. *)
Lemma save_session_returned dir o σ u σ' :
  save_session dir o σ = (Returned u, σ') →
  ∃ s, o = Some s ∧ σ' !! session_file dir = Some (File (session_dump s)) ∧
       σ' !! dir = Some Dir.
Proof.
  unfold save_session.
  intros ([] & σ1 & Hmk & ([] & σ2 & Hop & Hwr)%bind_returned_inv)%bind_returned_inv.
  apply mkdir_returned in Hmk. apply open_w_returned in Hop as [-> _].
  destruct o as [s|]; [|done]. exists s. split; [done|].
  rewrite (write_file _ _ _ "") in Hwr by apply lookup_insert_eq. simplify_eq.
  rewrite insert_insert_eq, lookup_insert_eq, lookup_insert_ne by apply child_ne_parent.
  done.
Qed.

(** C29. The session of the client is tested after the file was opened for
    writing (lines 128 to 130): when the client holds no session, the command
    raises "Not connected to hub." and leaves an empty session file, whatever
    session was remembered there before. *)
Theorem save_session_no_session dir σ σ1 σ2 :
  mkdir dir σ = (Returned tt, σ1) → open_w (session_file dir) σ1 = (Returned tt, σ2) →
  save_session dir None σ = (Raised not_connected, σ2) ∧
  σ2 !! session_file dir = Some (File "").
Proof.
  intros Hmk Hop. unfold save_session, bind. rewrite Hmk, Hop. split; [done|].
  apply open_w_returned in Hop as [-> _]. apply lookup_insert_eq.
Qed.

Lemma save_session_raised_some dir s σ e σ' :
  save_session dir (Some s) σ = (Raised e, σ') → σ' = σ ∨ σ' = <[dir := Dir]> σ.
Proof.
  unfold save_session.
  intros [Hmk|([] & σ1 & Hmk & [Hop|([] & σ2 & Hop & Hwr)]%bind_raised_inv)]%bind_raised_inv.
  - left. by eapply mkdir_raised.
  - apply open_w_raised in Hop as ->. revert Hmk. unfold mkdir.
    destruct (σ !! dir) as [[|c]|]; [naive_solver..|].
    destruct (absent_error σ dir); naive_solver.
  - by unfold write, modify in Hwr.
Qed.

(** [mkdir] returns exactly when the directory is there or can be made. *)
Lemma mkdir_ready dir σ :
  match σ !! dir with
  | Some Dir => true
  | Some (File _) => false
  | None => bool_decide (σ !! parent dir = Some Dir)
  end = true →
  ∃ σ1, mkdir dir σ = (Returned tt, σ1) ∧ σ1 !! dir = Some Dir ∧
        σ1 !! session_file dir = σ !! session_file dir.
Proof.
  destruct (σ !! dir) as [[|c]|] eqn:Hd; [|done|].
  - intros _. exists σ. by rewrite (mkdir_dir _ _ Hd).
  - intros Hp%bool_decide_eq_true. exists (<[dir := Dir]> σ).
    rewrite (mkdir_fresh _ _ Hd Hp), lookup_insert_eq, lookup_insert_ne; [done|].
    intros Heq. by eapply child_ne_parent.
Qed.

Lemma session_dir_ready_intro dir σ n :
  σ !! dir = Some Dir → σ !! session_file dir = Some (File n) →
  session_dir_ready dir σ = true.
Proof. unfold session_dir_ready. by intros -> ->. Qed.

(** On a disk that is ready, the directory is made if need be and the file
    is opened empty. *)
Lemma save_session_opens dir σ :
  session_dir_ready dir σ = true →
  ∃ σ1, mkdir dir σ = (Returned tt, σ1) ∧ σ1 !! dir = Some Dir ∧
        open_w (session_file dir) σ1 = (Returned tt, <[session_file dir := File ""]> σ1).
Proof.
  unfold session_dir_ready. intros [Hd Hf]%andb_true_iff.
  destruct (mkdir_ready _ _ Hd) as (σ1 & Hmk & Hdir & Hfile).
  apply negb_true_iff, bool_decide_eq_false in Hf. rewrite <-Hfile in Hf.
  exists σ1. split_and!; [done..|].
  apply open_w_not_dir; [done|]. unfold session_file. by rewrite parent_child.
Qed.

(** Saving a session returns on a disk that is ready for it... *)
Lemma save_session_ready dir s σ :
  session_dir_ready dir σ = true → (save_session dir (Some s) σ).1 = Returned tt.
Proof.
  intros (σ1 & Hmk & _ & Hop)%save_session_opens.
  unfold save_session, bind. by rewrite Hmk, Hop.
Qed.

(** A disk that is ready stays ready: saving leaves the directory and a file
    in it, removing leaves the directory. *)
Lemma save_session_keeps_ready dir o :
  preserves (λ σ, session_dir_ready dir σ = true) (save_session dir o).
Proof.
  intros σ (σ1 & Hmk & Hdir & Hop)%save_session_opens.
  unfold save_session, bind. rewrite Hmk, Hop.
  assert (<[session_file dir := File ""]> σ1 !! dir = Some Dir) as Hd.
  { rewrite lookup_insert_ne; [done|]. apply child_ne_parent. }
  destruct o as [s|]; [rewrite (write_file _ _ _ "") by apply lookup_insert_eq|]; simpl.
  - eapply session_dir_ready_intro; [|apply lookup_insert_eq].
    rewrite lookup_insert_ne; [done|]. apply child_ne_parent.
  - eapply session_dir_ready_intro; [done|apply lookup_insert_eq].
Qed.


(** ... and on no other. *)
Lemma save_session_returned_ready dir o σ u σ' :
  save_session dir o σ = (Returned u, σ') → session_dir_ready dir σ = true.
Proof.
  unfold save_session, session_dir_ready.
  intros ([] & σ1 & Hmk & ([] & σ2 & Hop & _)%bind_returned_inv)%bind_returned_inv.
  apply open_w_returned in Hop as [_ Hnd]. apply andb_true_iff. split.
  - revert Hmk. unfold mkdir. destruct (σ !! dir) as [[|c]|]; [done..|].
    destruct (absent_error σ dir) eqn:He; [done|]. intros _.
    by apply bool_decide_eq_true, absent_error_None.
  - apply negb_true_iff, bool_decide_eq_false.
    rewrite <-(mkdir_frame dir (session_file dir) σ) by apply child_ne_parent.
    by rewrite Hmk.
Qed.

Lemma save_session_wf dir o σ : fs_wf σ → fs_wf (save_session dir o σ).2.
Proof.
  intros Hwf. unfold save_session.
  apply bind_state_inv; [by apply mkdir_wf|intros _ σ1 H1].
  apply bind_state_inv; [by apply open_w_wf|intros _ σ2 H2].
  destruct o as [s|]; [by apply write_wf|done].
Qed.

(** ** Removing *)

Lemma remove_session_absent dir σ :
  σ !! session_file dir = None → remove_session dir σ = (Returned tt, σ).
Proof. intros H. unfold remove_session, bind. by rewrite (path_exists_false _ _ H). Qed.

Lemma remove_session_file dir σ text :
  σ !! session_file dir = Some (File text) →
  remove_session dir σ = (Returned tt, delete (session_file dir) σ).
Proof.
  intros H. unfold remove_session, bind. rewrite (path_exists_true _ _ _ H).
  by apply (unlink_file _ _ _ H).
Qed.

Lemma remove_session_dir dir σ :
  σ !! session_file dir = Some Dir →
  remove_session dir σ = (Raised IsADirectoryError, σ).
Proof.
  intros H. unfold remove_session, bind. rewrite (path_exists_true _ _ _ H).
  by apply unlink_dir.
Qed.

(** After a removal that returned, the file is absent, whether it was there
    or not. *)
Lemma remove_session_returned dir σ u σ' :
  remove_session dir σ = (Returned u, σ') → σ' !! session_file dir = None.
Proof.
  destruct (σ !! session_file dir) as [[|text]|] eqn:H.
  - by rewrite (remove_session_dir _ _ H).
  - rewrite (remove_session_file _ _ _ H). intros; simplify_eq. apply lookup_delete_eq.
  - rewrite (remove_session_absent _ _ H). by intros; simplify_eq.
Qed.

Lemma remove_session_raised dir σ e σ' :
  remove_session dir σ = (Raised e, σ') →
  e = IsADirectoryError ∧ σ' = σ ∧ σ !! session_file dir = Some Dir.
Proof.
  destruct (σ !! session_file dir) as [[|text]|] eqn:H.
  - rewrite (remove_session_dir _ _ H). by intros; simplify_eq.
  - by rewrite (remove_session_file _ _ _ H).
  - by rewrite (remove_session_absent _ _ H).
Qed.

Lemma remove_session_keeps_ready dir :
  preserves (λ σ, session_dir_ready dir σ = true) (remove_session dir).
Proof.
  intros σ Hr. destruct (σ !! session_file dir) as [[|text]|] eqn:H.
  - by rewrite (remove_session_dir _ _ H).
  - rewrite (remove_session_file _ _ _ H). simpl. revert Hr. unfold session_dir_ready.
    rewrite lookup_delete_eq, !lookup_delete_ne, H;
      [intros [-> _]%andb_true_iff; by case_bool_decide|apply not_eq_sym, parent_ne_child
      |apply child_ne_parent].
  - by rewrite (remove_session_absent _ _ H).
Qed.

Lemma remove_session_wf dir σ : fs_wf σ → fs_wf (remove_session dir σ).2.
Proof.
  intros Hwf. destruct (σ !! session_file dir) as [[|text]|] eqn:H.
  - by rewrite (remove_session_dir _ _ H).
  - rewrite (remove_session_file _ _ _ H). by eapply fs_wf_delete_file.
  - by rewrite (remove_session_absent _ _ H).
Qed.

(** ** What the three fragments raise *)

Lemma read_session_raises `{!SessionCodecLaws SC} file :
  raises (λ e, os_error e ∨ corrupt_session e) (read_session file).
Proof.
  unfold read_session. apply raises_bind.
  - eapply raises_weaken, open_r_raises. eauto.
  - intros text. apply raises_of_outcome. intros e He. right. by eapply load_raises.
Qed.

Lemma save_session_raises dir o :
  raises (λ e, os_error e ∨ e = not_connected) (save_session dir o).
Proof.
  unfold save_session. apply raises_bind; [eapply raises_weaken, mkdir_raises; eauto|].
  intros _. apply raises_bind; [eapply raises_weaken, open_w_raises; eauto|].
  intros _. destruct o; [apply write_raises|apply raises_raise; eauto].
Qed.

(** Given a session, saving it can only fail on the disk. *)
Lemma save_session_some_raises dir s : raises os_error (save_session dir (Some s)).
Proof.
  unfold save_session. repeat first [raises_step | eauto with action].
Qed.

Lemma remove_session_raises dir : raises os_error (remove_session dir).
Proof.
  unfold remove_session. apply raises_bind; [apply path_exists_raises|].
  intros []; [apply unlink_raises|apply raises_ret].
Qed.

(** ** Round trip *)

(** C28. What [login] wrote to the session file, [_create_hub_service] reads
    back: the session read from the file is the session that was saved. *)
Theorem save_read_session `{!SessionCodecLaws SC} dir o σ u σ' :
  save_session dir o σ = (Returned u, σ') →
  ∃ s, o = Some s ∧ read_session (session_file dir) σ' = (Returned s, σ').
Proof.
  intros (s & -> & Hfile & _)%save_session_returned. exists s. split; [done|].
  by rewrite (read_session_file _ _ _ Hfile), load_dump.
Qed.

End SessionStore.

#[export] Hint Resolve save_session_wf remove_session_wf read_session_wf : action.
