(* ===== verification/Json.v ===== *)
(** * The JSON text of the session file

    [login] writes the session with [json.dump(..., f, indent=4)] (line 132 of
    [account.py]) and [_create_hub_service] reads it with [json.load(f)] and
    [HubSession( **session_dict)] (lines 83 and 85).  This file models the
    library calls on the values a session file holds.  [dumps] is the text
    [json.dump] produces with [indent=4] and the default [ensure_ascii]:
    members one per line behind four spaces per level, [": "] after a key,
    characters outside printable ASCII escaped.  [loads] is [json.loads] on
    texts whose numbers are integers: white space is skipped, escapes are
    read, a leading zero, a trailing comma, a control character in a string or
    anything after the value is an error.  [session_of_json] is the
    validation of the parsed document as a session: an object that holds the
    four fields, each of its type; other members are ignored and of two
    members with one key the last counts.

    The parsers recurse on fuel.  [loads] takes the length of the text, which
    is enough for every text ([loads_enough_fuel]): a parser that returns
    with some fuel returns the same with any fuel that is at least the number
    of characters it read ([parse_settled]).

    Not modelled: numbers with a fraction or an exponent (the model rejects
    the text where Python reads a float, which the validation would then
    refuse or coerce), the [\u] escapes of characters above 255, and the
    coercions of the validation library (a numeric string for a number). *)

From Stdlib Require Import Ascii DecimalString DecimalZ DecimalPos DecimalN DecimalFacts.
From S2P Require Import Prelude Exn Settings SessionStore.

(** ** Values *)

#[local] Unset Elimination Schemes.

Inductive json : Type :=
| JNull
| JBool (b : bool)
| JNumber (z : Z)
| JString (s : string)
| JArray (items : list json)
| JObject (members : list (string * json)).

#[local] Set Elimination Schemes.

(** Induction on a value, with the property of the items of an array and of
    the members of an object at hand. *)
Section JsonInduction.
Variable P : json → Prop.
Hypothesis Hnull : P JNull.
Hypothesis Hbool : ∀ b, P (JBool b).
Hypothesis Hnumber : ∀ z, P (JNumber z).
Hypothesis Hstring : ∀ s, P (JString s).
Hypothesis Harray : ∀ items, Forall P items → P (JArray items).
Hypothesis Hobject : ∀ members, Forall (λ kv, P kv.2) members → P (JObject members).

Fixpoint json_ind (v : json) : P v :=
  match v with
  | JNull => Hnull
  | JBool b => Hbool b
  | JNumber z => Hnumber z
  | JString s => Hstring s
  | JArray items =>
      Harray items
        ((fix go (l : list json) : Forall P l :=
            match l with
            | [] => @List.Forall_nil _ P
            | x :: l' => @List.Forall_cons _ P x l' (json_ind x) (go l')
            end) items)
  | JObject members =>
      Hobject members
        ((fix go (l : list (string * json)) : Forall (λ kv, P kv.2) l :=
            match l with
            | [] => @List.Forall_nil _ (λ kv, P kv.2)
            | kv :: l' => @List.Forall_cons _ (λ kv, P kv.2) kv l' (json_ind kv.2) (go l')
            end) members)
  end.

End JsonInduction.

(** ** Characters *)

Definition quote_char : ascii := "034".
Definition backslash : ascii := "\".
Definition newline : ascii := "010".

Definition hex_digit (n : nat) : ascii :=
  if (n <? 10)%nat then ascii_of_nat (48 + n) else ascii_of_nat (87 + n).

Definition of_hex_digit (c : ascii) : option nat :=
  let n := nat_of_ascii c in
  if (48 <=? n)%nat && (n <=? 57)%nat then Some (n - 48)
  else if (97 <=? n)%nat && (n <=? 102)%nat then Some (n - 87)
  else if (65 <=? n)%nat && (n <=? 70)%nat then Some (n - 55)
  else None.

(** How [json.dump] writes one character of a string: the quote and the
    backslash behind a backslash, the control characters that have a short
    escape by it, printable ASCII as it is, and anything else as [\u00XX]. *)
Definition escape_char (c : ascii) : string :=
  let n := nat_of_ascii c in
  if Ascii.eqb c quote_char then String backslash (String quote_char "")
  else if Ascii.eqb c backslash then String backslash (String backslash "")
  else if Ascii.eqb c newline then String backslash "n"
  else if Ascii.eqb c "013" then String backslash "r"
  else if Ascii.eqb c "009" then String backslash "t"
  else if Ascii.eqb c "008" then String backslash "b"
  else if Ascii.eqb c "012" then String backslash "f"
  else if (32 <=? n)%nat && (n <=? 126)%nat then String c ""
  else String backslash
         (String "u" (String "0" (String "0"
           (String (hex_digit (n / 16)) (String (hex_digit (n mod 16)) ""))))).

Fixpoint escape (s : string) : string :=
  match s with
  | EmptyString => EmptyString
  | String c s' => escape_char c +:+ escape s'
  end.

(** A string between quotes. *)
Definition quote (s : string) : string :=
  String quote_char (escape s +:+ String quote_char "").

(** The character a short escape stands for. *)
Definition unescape (e : ascii) : option ascii :=
  if Ascii.eqb e quote_char then Some quote_char
  else if Ascii.eqb e backslash then Some backslash
  else if Ascii.eqb e "/" then Some "/"%char
  else if Ascii.eqb e "n" then Some newline
  else if Ascii.eqb e "r" then Some "013"%char
  else if Ascii.eqb e "t" then Some "009"%char
  else if Ascii.eqb e "b" then Some "008"%char
  else if Ascii.eqb e "f" then Some "012"%char
  else None.

(** The character of [\uXXXX], when it is below 256. *)
Definition unescape_u (h1 h2 h3 h4 : ascii) : option ascii :=
  match of_hex_digit h1, of_hex_digit h2, of_hex_digit h3, of_hex_digit h4 with
  | Some 0, Some 0, Some a, Some b => Some (ascii_of_nat (16 * a + b))
  | _, _, _, _ => None
  end.

Definition cons_char (c : ascii) (r : option (string * string)) : option (string * string) :=
  match r with
  | Some (s, rest) => Some (String c s, rest)
  | None => None
  end.

(** The characters of a string up to its closing quote, and what follows.  A
    control character that is not escaped is an error. *)
Fixpoint parse_chars (s : string) : option (string * string) :=
  match s with
  | EmptyString => None
  | String c s' =>
      if Ascii.eqb c quote_char then Some (EmptyString, s')
      else if Ascii.eqb c backslash then
        match s' with
        | String e s'' =>
            if Ascii.eqb e "u" then
              match s'' with
              | String h1 (String h2 (String h3 (String h4 s3))) =>
                  match unescape_u h1 h2 h3 h4 with
                  | Some c' => cons_char c' (parse_chars s3)
                  | None => None
                  end
              | _ => None
              end
            else
              match unescape e with
              | Some c' => cons_char c' (parse_chars s'')
              | None => None
              end
        | EmptyString => None
        end
      else if (nat_of_ascii c <? 32)%nat then None
      else cons_char c (parse_chars s')
  end.

Definition tagged {A B} (f : A → B) (r : option (A * string)) : option (B * string) :=
  match r with
  | Some (a, rest) => Some (f a, rest)
  | None => None
  end.

(** ** Numbers *)

#[global] Instance uint_eq_dec : EqDecision Decimal.uint := Decimal.uint_eq_dec.

(** [str(z)]. *)
Definition print_int (z : Z) : string := NilEmpty.string_of_int (Z.to_int z).

Definition digit_of (c : ascii) (u : Decimal.uint) : option Decimal.uint :=
  if Ascii.eqb c "0" then Some (Decimal.D0 u)
  else if Ascii.eqb c "1" then Some (Decimal.D1 u)
  else if Ascii.eqb c "2" then Some (Decimal.D2 u)
  else if Ascii.eqb c "3" then Some (Decimal.D3 u)
  else if Ascii.eqb c "4" then Some (Decimal.D4 u)
  else if Ascii.eqb c "5" then Some (Decimal.D5 u)
  else if Ascii.eqb c "6" then Some (Decimal.D6 u)
  else if Ascii.eqb c "7" then Some (Decimal.D7 u)
  else if Ascii.eqb c "8" then Some (Decimal.D8 u)
  else if Ascii.eqb c "9" then Some (Decimal.D9 u)
  else None.

Definition is_digit (c : ascii) : bool :=
  (48 <=? nat_of_ascii c)%nat && (nat_of_ascii c <=? 57)%nat.

(** The digits a text starts with, and what follows them. *)
Fixpoint parse_digits (s : string) : Decimal.uint * string :=
  match s with
  | EmptyString => (Decimal.Nil, EmptyString)
  | String c s' =>
      let (u, rest) := parse_digits s' in
      match digit_of c u with
      | Some u' => (u', rest)
      | None => (Decimal.Nil, s)
      end
  end.

(** What cannot follow an integer: a digit, or the start of a fraction or of
    an exponent. *)
Definition continues_number (s : string) : bool :=
  match s with
  | String c _ =>
      is_digit c || Ascii.eqb c "." || Ascii.eqb c "e" || Ascii.eqb c "E"
  | EmptyString => false
  end.

(** An unsigned integer of the grammar: digits without a leading zero. *)
Definition parse_nat (s : string) : option (Decimal.uint * string) :=
  let (u, rest) := parse_digits s in
  if bool_decide (Decimal.unorm u = u) && negb (continues_number rest)
  then Some (u, rest) else None.

Definition parse_int (s : string) : option (Z * string) :=
  match s with
  | String c s' =>
      if Ascii.eqb c "-" then tagged (λ u, Z.of_int (Decimal.Neg u)) (parse_nat s')
      else tagged (λ u, Z.of_int (Decimal.Pos u)) (parse_nat s)
  | EmptyString => None
  end.

(** ** White space *)

Definition is_space (c : ascii) : bool :=
  Ascii.eqb c " " || Ascii.eqb c newline || Ascii.eqb c "013" || Ascii.eqb c "009".

Fixpoint skip_ws (s : string) : string :=
  match s with
  | String c s' => if is_space c then skip_ws s' else s
  | EmptyString => EmptyString
  end.

(** A new line and [4 * level] spaces. *)
Fixpoint spaces (n : nat) : string :=
  match n with
  | 0 => EmptyString
  | S n' => String " " (spaces n')
  end.

Definition break (level : nat) : string := String newline (spaces (4 * level)).

Arguments break : simpl never.

(** ** Printing *)

Section Sequences.
Context {A : Type} (pr : A → string) (sep : string).

(** The items after the first, each behind the separator. *)
Fixpoint dump_tail (l : list A) : string :=
  match l with
  | [] => EmptyString
  | y :: l' => sep +:+ pr y +:+ dump_tail l'
  end.

Definition dump_seq (l : list A) : string :=
  match l with
  | [] => EmptyString
  | x :: l' => pr x +:+ dump_tail l'
  end.

End Sequences.

(** [json.dumps(v, indent=4)], for a value that stands at depth [level]. *)
Fixpoint dumps_at (level : nat) (v : json) : string :=
  match v with
  | JNull => "null"
  | JBool true => "true"
  | JBool false => "false"
  | JNumber z => print_int z
  | JString s => quote s
  | JArray [] => "[]"
  | JArray items =>
      "[" +:+ break (S level) +:+
      dump_seq (dumps_at (S level)) ("," +:+ break (S level)) items +:+
      break level +:+ "]"
  | JObject [] => "{}"
  | JObject members =>
      "{" +:+ break (S level) +:+
      dump_seq (λ kv, quote kv.1 +:+ ": " +:+ dumps_at (S level) kv.2)
        ("," +:+ break (S level)) members +:+
      break level +:+ "}"
  end.

Definition dumps (v : json) : string := dumps_at 0 v.

(** ** Parsing *)

(** [s] without its prefix [p], if it starts with it. *)
Fixpoint strip (p s : string) : option string :=
  match p, s with
  | EmptyString, _ => Some s
  | String a p', String b s' => if Ascii.eqb a b then strip p' s' else None
  | String _ _, EmptyString => None
  end.

Definition const_value (v : json) (r : option string) : option (json * string) :=
  match r with
  | Some rest => Some (v, rest)
  | None => None
  end.

(** What follows a value in an array or an object: the separator and more, or
    the closing bracket. *)
Definition after_item {A} (close : ascii) (more : string → option (list A * string))
    (a : A) (s : string) : option (list A * string) :=
  match skip_ws s with
  | String c r =>
      if Ascii.eqb c "," then tagged (cons a) (more r)
      else if Ascii.eqb c close then Some ([a], r)
      else None
  | EmptyString => None
  end.

(** An array or an object after its opening bracket: empty, or its items. *)
Definition bracketed {A} (close : ascii) (items : string → option (list A * string))
    (s : string) : option (list A * string) :=
  match skip_ws s with
  | String c r => if Ascii.eqb c close then Some ([], r) else items s
  | EmptyString => None
  end.

(** One value: what it is shows on its first character.  The parsers of the
    items of an array and of the members of an object are parameters. *)
Definition value_step (items : string → option (list json * string))
    (members : string → option (list (string * json) * string))
    (s : string) : option (json * string) :=
  match skip_ws s with
  | EmptyString => None
  | String c r =>
      if Ascii.eqb c "n" then const_value JNull (strip "ull" r)
      else if Ascii.eqb c "t" then const_value (JBool true) (strip "rue" r)
      else if Ascii.eqb c "f" then const_value (JBool false) (strip "alse" r)
      else if Ascii.eqb c quote_char then tagged JString (parse_chars r)
      else if Ascii.eqb c "[" then tagged JArray (bracketed "]" items r)
      else if Ascii.eqb c "{" then tagged JObject (bracketed "}" members r)
      else tagged JNumber (parse_int (String c r))
  end.

(** The items of an array from one of them on: a value, then more items or
    the closing bracket. *)
Definition items_step (value : string → option (json * string))
    (items : string → option (list json * string))
    (s : string) : option (list json * string) :=
  match value s with
  | Some (v, r) => after_item "]" items v r
  | None => None
  end.

(** The members of an object from one of them on: a key, a colon, a value,
    then more members or the closing bracket. *)
Definition members_step (value : string → option (json * string))
    (members : string → option (list (string * json) * string))
    (s : string) : option (list (string * json) * string) :=
  match skip_ws s with
  | String c r =>
      if Ascii.eqb c quote_char then
        match parse_chars r with
        | Some (k, r1) =>
            match skip_ws r1 with
            | String c1 r2 =>
                if Ascii.eqb c1 ":" then
                  match value r2 with
                  | Some (v, r3) => after_item "}" members (k, v) r3
                  | None => None
                  end
                else None
            | EmptyString => None
            end
        | None => None
        end
      else None
  | EmptyString => None
  end.

(** The parsers, by recursion on the fuel. *)
Fixpoint parse_value (fuel : nat) (s : string) : option (json * string) :=
  match fuel with
  | 0 => None
  | S fuel' => value_step (parse_items fuel') (parse_members fuel') s
  end
with parse_items (fuel : nat) (s : string) : option (list json * string) :=
  match fuel with
  | 0 => None
  | S fuel' => items_step (parse_value fuel') (parse_items fuel') s
  end
with parse_members (fuel : nat) (s : string) : option (list (string * json) * string) :=
  match fuel with
  | 0 => None
  | S fuel' => members_step (parse_value fuel') (parse_members fuel') s
  end.

(** [json.loads(s)]: one value, and nothing but white space after it. *)
Definition loads (s : string) : option json :=
  match parse_value (String.length s) s with
  | Some (v, rest) =>
      match skip_ws rest with
      | EmptyString => Some v
      | String _ _ => None
      end
  | None => None
  end.

(** The fuel a value needs to be parsed. *)
Fixpoint need (v : json) : nat :=
  match v with
  | JArray items => S (list_sum ((λ x, S (need x)) <$> items))
  | JObject members => S (list_sum ((λ kv, S (need kv.2)) <$> members))
  | _ => 1
  end.

(** ** Sessions as JSON *)

(** [session.model_dump(mode="json")]: the fields in the order of their
    declaration. *)
Definition session_to_json (s : HubSession) : json :=
  JObject [("access_token", JString (access_token s));
           ("refresh_token", JString (refresh_token s));
           ("token_type", JString (token_type s));
           ("expiry", JNumber (expiry s))].

(** The value of a key in the dictionary [json.load] builds from an object:
    of two members with the same key the last one counts. *)
Fixpoint member (k : string) (ms : list (string * json)) : option json :=
  match ms with
  | [] => None
  | kv :: ms' =>
      match member k ms' with
      | Some v => Some v
      | None => if decide (kv.1 = k) then Some kv.2 else None
      end
  end.

(** [HubSession( **session_dict)]: the argument must be a dictionary, and
    hold the four fields with values of their types. *)
Definition session_of_json (v : json) : outcome exn HubSession :=
  match v with
  | JObject ms =>
      match member "access_token" ms, member "refresh_token" ms,
            member "token_type" ms, member "expiry" ms with
      | Some (JString a), Some (JString r), Some (JString t), Some (JNumber e) =>
          Returned {| access_token := a; refresh_token := r; token_type := t; expiry := e |}
      | _, _, _, _ => Raised ValidationError
      end
  | _ => Raised TypeError
  end.

Definition json_dump (s : HubSession) : string := dumps (session_to_json s).

Definition json_load (text : string) : outcome exn HubSession :=
  match loads text with
  | Some v => session_of_json v
  | None => Raised JSONDecodeError
  end.

#[export] Instance json_codec : SessionCodec := {|
  session_dump := json_dump;
  session_load := json_load;
|}.

(** ** Auxiliary notions of the theorems *)

(** The characters [ensure_ascii] leaves in a text. *)
Definition printable (c : ascii) : bool :=
  Ascii.eqb c newline || ((32 <=? nat_of_ascii c)%nat && (nat_of_ascii c <=? 126)%nat).

Fixpoint all_chars (p : ascii → bool) (s : string) : bool :=
  match s with
  | EmptyString => true
  | String c s' => p c && all_chars p s'
  end.

(** The characters a written value can start with. *)
Definition starts_value (c : ascii) : bool :=
  is_digit c || Ascii.eqb c "-" || Ascii.eqb c "n" || Ascii.eqb c "t" || Ascii.eqb c "f" ||
  Ascii.eqb c quote_char || Ascii.eqb c "[" || Ascii.eqb c "{".

(** What it is for a value to be read back: at any depth, with enough fuel,
    before any text that cannot continue a number. *)
Definition reads_back (v : json) : Prop :=
  ∀ level fuel rest,
    need v ≤ fuel → continues_number rest = false →
    parse_value fuel (dumps_at level v +:+ rest) = Some (v, rest).

Definition items_need (l : list json) : nat := list_sum ((λ x, S (need x)) <$> l).

Definition members_need (l : list (string * json)) : nat :=
  list_sum ((λ kv, S (need kv.2)) <$> l).

Definition item_sep (level : nat) : string := "," +:+ break level.

Definition dump_member (level : nat) (kv : string * json) : string :=
  quote kv.1 +:+ ": " +:+ dumps_at level kv.2.

(** A parser with fuel is settled at [f]: what it returns at [f] it returns
    with any fuel that is at least the number of characters it read, and it
    read at least one. *)
Definition settled {A} (g : nat → string → option (A * string)) (f : nat) : Prop :=
  ∀ s a r, g f s = Some (a, r) →
    String.length r < String.length s ∧
    ∀ f', String.length s - String.length r ≤ f' → g f' s = Some (a, r).

(** * Theorems *)

(** ** Strings *)

Section StringLemmas.
Implicit Types (c : ascii) (s t rest : string).


(** One written character is read back as itself. *)
Lemma parse_chars_escape_char c t :
  parse_chars (escape_char c +:+ t) = cons_char c (parse_chars t).
Proof. by_cases_on c. Qed.

(** A written string is read back, up to its closing quote. *)
Lemma parse_chars_escape s rest :
  parse_chars (escape s +:+ String quote_char rest) = Some (s, rest).
Proof.
  induction s as [|c s IH]; simpl; [done|].
  by rewrite string_app_assoc, parse_chars_escape_char, IH.
Qed.

Lemma parse_chars_quote s rest :
  parse_chars (escape s +:+ String quote_char "" +:+ rest) = Some (s, rest).
Proof. apply parse_chars_escape. Qed.

(** What is written holds printable ASCII only. *)
Lemma escape_char_printable c :
  Forall (λ a, (32 <=? nat_of_ascii a)%nat && (nat_of_ascii a <=? 126)%nat = true)
    (String.list_ascii_of_string (escape_char c)).
Proof. by_cases_on c; by repeat constructor. Qed.

Lemma skip_ws_spaces n s : skip_ws (spaces n +:+ s) = skip_ws s.
Proof. induction n as [|n IH]; simpl; [done|]. apply IH. Qed.

Lemma skip_ws_break level s : skip_ws (break level +:+ s) = skip_ws s.
Proof. unfold break. simpl. apply skip_ws_spaces. Qed.

Lemma skip_ws_idemp s : skip_ws (skip_ws s) = skip_ws s.
Proof.
  induction s as [|c s IH]; simpl; [done|].
  destruct (is_space c) eqn:Hc; [done|]. simpl. by rewrite Hc.
Qed.

Lemma strip_app p rest : strip p (p +:+ rest) = Some rest.
Proof. induction p as [|a p IH]; simpl; [done|]. by rewrite Ascii.eqb_refl. Qed.

End StringLemmas.

(** ** Numbers *)

Section NumberLemmas.
Implicit Types (c : ascii) (u : Decimal.uint) (z : Z) (s rest : string).


Lemma digit_of_not_digit c u : is_digit c = false → digit_of c u = None.
Proof. by_cases_on c; discriminate. Qed.

Lemma continues_number_digit c rest :
  continues_number (String c rest) = false → is_digit c = false.
Proof. simpl. by intros [[[? _]%orb_false_iff _]%orb_false_iff _]%orb_false_iff. Qed.

Lemma parse_digits_not_digit rest :
  continues_number rest = false → parse_digits rest = (Decimal.Nil, rest).
Proof.
  destruct rest as [|c r]; [done|]. intros Hc%continues_number_digit. simpl.
  destruct (parse_digits r) as [u rest']. by rewrite digit_of_not_digit.
Qed.

(** Written digits are read back. *)
Lemma parse_digits_print u rest :
  continues_number rest = false →
  parse_digits (NilEmpty.string_of_uint u +:+ rest) = (u, rest).
Proof.
  intros Hr. induction u as [|u IH|u IH|u IH|u IH|u IH|u IH|u IH|u IH|u IH|u IH];
    simpl; [by apply parse_digits_not_digit|by rewrite IH..].
Qed.

(** The digits of a positive number have no leading zero. *)
Lemma unorm_to_uint p : Decimal.unorm (Pos.to_uint p) = Pos.to_uint p.
Proof.
  rewrite <-DecimalPos.Unsigned.to_of, DecimalPos.Unsigned.of_to. reflexivity.
Qed.

Lemma parse_nat_print u rest :
  Decimal.unorm u = u → continues_number rest = false →
  parse_nat (NilEmpty.string_of_uint u +:+ rest) = Some (u, rest).
Proof.
  intros Hu Hr. unfold parse_nat. rewrite parse_digits_print by done.
  by rewrite bool_decide_true, Hr.
Qed.

Lemma string_of_uint_head u :
  u ≠ Decimal.Nil →
  ∃ c r, NilEmpty.string_of_uint u = String c r ∧ is_digit c = true.
Proof. destruct u; [done|simpl; eauto..]. Qed.

(** A written integer is read back. *)
Lemma parse_int_print z rest :
  continues_number rest = false → parse_int (print_int z +:+ rest) = Some (z, rest).
Proof.
  intros Hr. unfold print_int. rewrite <-(DecimalZ.of_to z) at 2.
  assert (∀ u, Decimal.unorm u = u →
            parse_int (NilEmpty.string_of_uint u +:+ rest)
            = Some (Z.of_int (Decimal.Pos u), rest)) as Hpos.
  { intros u Hu. pose proof (parse_nat_print u rest Hu Hr) as Hn.
    destruct (string_of_uint_head u) as (c & r & Hs & Hc).
    { intros ->. by vm_compute in Hu. }
    rewrite Hs in *. simpl in *. unfold parse_int.
    destruct c as [[] [] [] [] [] [] [] []]; try discriminate Hc; by rewrite Hn. }
  destruct z as [|p|p]; simpl.
  - by apply (Hpos (Decimal.D0 Decimal.Nil)).
  - apply Hpos, unorm_to_uint.
  - by rewrite parse_nat_print by (done || apply unorm_to_uint).
Qed.

(** An integer is written with a digit or a minus sign first. *)
Lemma print_int_head z :
  ∃ c r, print_int z = String c r ∧ (is_digit c || Ascii.eqb c "-") = true.
Proof.
  unfold print_int. destruct z as [|p|p]; simpl; [by eexists _, _|..].
  - destruct (string_of_uint_head (Pos.to_uint p)) as (c & r & -> & Hc);
      [apply Unsigned.to_uint_nonnil|]. exists c, r. by rewrite Hc.
  - by eexists _, _.
Qed.

End NumberLemmas.

(** ** Values *)

Section ValueLemmas.
Implicit Types (c : ascii) (v : json) (s rest : string) (fuel level : nat).


Lemma dumps_at_head level v :
  ∃ c r, dumps_at level v = String c r ∧ starts_value c = true.
Proof.
  destruct v as [|[]|z|s|[|x l]|[|kv l]]; try by eexists _, _.
  destruct (print_int_head z) as (c & r & Hz & Hc). exists c, r. split; [done|].
  unfold starts_value. by rewrite Hc.
Qed.

Lemma skip_ws_value c s : starts_value c = true → skip_ws (String c s) = String c s.
Proof. by_cases_on c; discriminate. Qed.

Lemma starts_value_not_close c :
  starts_value c = true → Ascii.eqb c "]" = false ∧ Ascii.eqb c "}" = false.
Proof. by_cases_on c; (discriminate || done). Qed.

Lemma skip_ws_dumps level v rest :
  skip_ws (dumps_at level v +:+ rest) = dumps_at level v +:+ rest.
Proof.
  destruct (dumps_at_head level v) as (c & r & -> & Hc).
  rewrite string_app_cons. by apply skip_ws_value.
Qed.

Lemma parse_value_skip_ws fuel s : parse_value fuel (skip_ws s) = parse_value fuel s.
Proof. destruct fuel; simpl; [done|]. unfold value_step. by rewrite skip_ws_idemp. Qed.

Lemma parse_value_break fuel level s :
  parse_value fuel (break level +:+ s) = parse_value fuel s.
Proof. by rewrite <-parse_value_skip_ws, skip_ws_break, parse_value_skip_ws. Qed.

Lemma parse_value_space fuel s : parse_value fuel (String " " s) = parse_value fuel s.
Proof. by rewrite <-parse_value_skip_ws, <-(parse_value_skip_ws _ s). Qed.

(** A text that starts like a number is parsed as a number. *)
Lemma parse_value_number fuel c s :
  (is_digit c || Ascii.eqb c "-") = true →
  parse_value (S fuel) (String c s) = tagged JNumber (parse_int (String c s)).
Proof. by_cases_on c; discriminate. Qed.

Lemma parse_value_print_int fuel z rest :
  continues_number rest = false →
  parse_value (S fuel) (print_int z +:+ rest) = Some (JNumber z, rest).
Proof.
  intros Hr. pose proof (parse_int_print z rest Hr) as Hp.
  destruct (print_int_head z) as (c & r & Hz & Hc). rewrite Hz in *.
  rewrite string_app_cons in *. by rewrite (parse_value_number _ _ _ Hc), Hp.
Qed.

Lemma parse_value_quote fuel s rest :
  parse_value (S fuel) (quote s +:+ rest) = Some (JString s, rest).
Proof.
  unfold quote. autorewrite with string.
  change (tagged JString (parse_chars (escape s +:+ String quote_char rest))
          = Some (JString s, rest)).
  by rewrite parse_chars_escape.
Qed.

(** After the opening bracket of a collection that is not empty come its
    items. *)
Lemma bracketed_items {A} close (items : string → option (list A * string)) level lv v s :
  close = "]"%char ∨ close = "}"%char →
  bracketed close items (break level +:+ dumps_at lv v +:+ s)
  = items (break level +:+ dumps_at lv v +:+ s).
Proof.
  intros Hclose. unfold bracketed. rewrite skip_ws_break, skip_ws_dumps.
  destruct (dumps_at_head lv v) as (c & r & -> & [? ?]%starts_value_not_close).
  rewrite string_app_cons. by destruct Hclose as [-> | ->]; simplify_eq/=; case_match.
Qed.

Lemma continues_number_break level s : continues_number (break level +:+ s) = false.
Proof. reflexivity. Qed.

Lemma after_item_more {A} close (more : string → option (list A * string)) (a : A) s :
  after_item close more a (String "," s) = tagged (cons a) (more s).
Proof. reflexivity. Qed.

Lemma after_item_close {A} close (more : string → option (list A * string)) (a : A)
    level s :
  close = "]"%char ∨ close = "}"%char →
  after_item close more a (break level +:+ String close s) = Some ([a], s).
Proof.
  intros Hclose. unfold after_item. rewrite skip_ws_break.
  by destruct Hclose as [-> | ->].
Qed.

Lemma parse_value_array fuel s :
  parse_value (S fuel) (String "[" s) = tagged JArray (bracketed "]" (parse_items fuel) s).
Proof. reflexivity. Qed.

Lemma parse_value_object fuel s :
  parse_value (S fuel) (String "{" s) = tagged JObject (bracketed "}" (parse_members fuel) s).
Proof. reflexivity. Qed.

Lemma parse_items_S fuel s :
  parse_items (S fuel) s =
  match parse_value fuel s with
  | Some (v, r) => after_item "]" (parse_items fuel) v r
  | None => None
  end.
Proof. reflexivity. Qed.

(** A member: its key between quotes, a colon, its value. *)
Lemma parse_members_S fuel k s :
  parse_members (S fuel) (String quote_char (escape k +:+ String quote_char (String ":" s))) =
  match parse_value fuel s with
  | Some (v, r) => after_item "}" (parse_members fuel) (k, v) r
  | None => None
  end.
Proof.
  change (match parse_chars (escape k +:+ String quote_char (String ":" s)) with
          | Some (k, r1) =>
              match skip_ws r1 with
              | String c1 r2 =>
                  if Ascii.eqb c1 ":" then
                    match parse_value fuel r2 with
                    | Some (v, r3) => after_item "}" (parse_members fuel) (k, v) r3
                    | None => None
                    end
                  else None
              | EmptyString => None
              end
          | None => None
          end = match parse_value fuel s with
                | Some (v, r) => after_item "}" (parse_members fuel) (k, v) r
                | None => None
                end).
  by rewrite parse_chars_escape.
Qed.

Lemma parse_members_skip_ws fuel s : parse_members fuel (skip_ws s) = parse_members fuel s.
Proof. destruct fuel; simpl; [done|]. unfold members_step. by rewrite skip_ws_idemp. Qed.

Lemma parse_members_break fuel level s :
  parse_members fuel (break level +:+ s) = parse_members fuel s.
Proof. by rewrite <-parse_members_skip_ws, skip_ws_break, parse_members_skip_ws. Qed.

End ValueLemmas.

(** ** Reading back what was written *)

Section RoundTrip.
Implicit Types (v : json) (s rest : string) (fuel level : nat).

(** The items of an array, from the first to the closing bracket. *)
Lemma parse_items_dumps l : ∀ x fuel level rest,
  Forall reads_back (x :: l) → items_need (x :: l) ≤ fuel →
  parse_items fuel
    (break (S level) +:+ dumps_at (S level) x +:+
     dump_tail (dumps_at (S level)) (item_sep (S level)) l +:+ break level +:+ "]" +:+ rest)
  = Some (x :: l, rest).
Proof.
  induction l as [|y l IH]; intros x fuel level rest [Hx Hl]%Forall_cons Hfuel;
    (destruct fuel as [|fuel]; [by inversion Hfuel|]);
    unfold items_need in Hfuel; simpl in Hfuel; rewrite parse_items_S, parse_value_break.
  - simpl dump_tail. rewrite string_app_nil_l.
    rewrite Hx by (lia || apply continues_number_break).
    apply after_item_close. by left.
  - simpl dump_tail. unfold item_sep at 1. autorewrite with string.
    rewrite Hx by (lia || done). rewrite after_item_more.
    pose proof (IH y fuel level rest Hl) as Hy. autorewrite with string in Hy.
    rewrite Hy; [done|]. unfold items_need. simpl. lia.
Qed.

(** The members of an object, from the first to the closing bracket. *)
Lemma parse_members_dumps l : ∀ kv fuel level rest,
  Forall (λ kv, reads_back kv.2) (kv :: l) → members_need (kv :: l) ≤ fuel →
  parse_members fuel
    (break (S level) +:+ dump_member (S level) kv +:+
     dump_tail (dump_member (S level)) (item_sep (S level)) l +:+ break level +:+ "}" +:+ rest)
  = Some (kv :: l, rest).
Proof.
  assert (∀ kv fuel level s,
    parse_members (S fuel) (break (S level) +:+ dump_member (S level) kv +:+ s)
    = match parse_value fuel (dumps_at (S level) kv.2 +:+ s) with
      | Some (v, r) => after_item "}" (parse_members fuel) (kv.1, v) r
      | None => None
      end) as Hstep.
  { intros [k v] fuel level s. rewrite parse_members_break.
    unfold dump_member, quote. simpl fst. simpl snd. autorewrite with string.
    by rewrite parse_members_S, parse_value_space. }
  induction l as [|kv' l IH]; intros [k v] fuel level rest [Hx Hl]%Forall_cons Hfuel;
    (destruct fuel as [|fuel]; [by inversion Hfuel|]);
    unfold members_need in Hfuel; simpl in Hfuel, Hx;
    rewrite Hstep; simpl fst; simpl snd.
  - simpl dump_tail. rewrite string_app_nil_l.
    rewrite Hx by (lia || apply continues_number_break).
    apply after_item_close. by right.
  - simpl dump_tail. unfold item_sep at 1. autorewrite with string.
    rewrite Hx by (lia || done). rewrite after_item_more.
    pose proof (IH kv' fuel level rest Hl) as Hy. autorewrite with string in Hy.
    rewrite Hy; [done|]. unfold members_need. simpl. lia.
Qed.

(** Every value is read back. *)
Lemma parse_value_dumps v : reads_back v.
Proof.
  induction v as [|b|z|s|items IH|members IH] using json_ind;
    intros level fuel rest Hfuel Hrest;
    (destruct fuel as [|fuel]; [by inversion Hfuel|]).
  - reflexivity.
  - by destruct b.
  - by apply parse_value_print_int.
  - apply parse_value_quote.
  - destruct items as [|x l]; [reflexivity|].
    simpl dumps_at. unfold dump_seq. autorewrite with string.
    rewrite parse_value_array, bracketed_items by (by left).
    change (String "," (break (S level))) with (item_sep (S level)).
    change (String "]" rest) with ("]" +:+ rest).
    rewrite parse_items_dumps; [done..|]. simpl in Hfuel. unfold items_need. simpl. lia.
  - destruct members as [|kv l]; [reflexivity|].
    simpl dumps_at. unfold dump_seq. autorewrite with string.
    rewrite parse_value_object.
    rewrite (bracketed_items "}" _ (S level) 0 (JString kv.1)) by (by right).
    change (dumps_at 0 (JString kv.1)) with (quote kv.1).
    change (λ kv0 : string * json, quote kv0.1 +:+ ": " +:+ dumps_at (S level) kv0.2)
      with (dump_member (S level)).
    change (String "," (break (S level))) with (item_sep (S level)).
    pose proof (parse_members_dumps l kv fuel level rest IH) as Hm.
    unfold dump_member at 1 in Hm. autorewrite with string in Hm.
    rewrite Hm; [done|]. simpl in Hfuel. unfold members_need. simpl. lia.
Qed.

End RoundTrip.

(** ** The fuel of [loads] *)

Section Fuel.
Implicit Types (v : json) (s rest : string) (fuel level : nat).

Lemma dump_tail_length {A} (pr : A → string) sep (w : A → nat) (l : list A) :
  1 ≤ String.length sep → Forall (λ x, w x ≤ String.length (pr x)) l →
  list_sum ((λ x, S (w x)) <$> l) ≤ String.length (dump_tail pr sep l).
Proof.
  intros Hsep. induction 1 as [|x l Hx _ IH]; [done|].
  rewrite fmap_cons. simpl list_sum. simpl dump_tail. rewrite !string_app_length. lia.
Qed.

Lemma dump_seq_length {A} (pr : A → string) sep (w : A → nat) (l : list A) :
  1 ≤ String.length sep → Forall (λ x, w x ≤ String.length (pr x)) l →
  list_sum ((λ x, S (w x)) <$> l) ≤ S (String.length (dump_seq pr sep l)).
Proof.
  intros Hsep Hl. destruct Hl as [|x l Hx Hl]; [simpl; lia|].
  pose proof (dump_tail_length pr sep w l Hsep Hl).
  rewrite fmap_cons. simpl list_sum. simpl dump_seq. rewrite string_app_length. lia.
Qed.

Lemma break_length level : 1 ≤ String.length (break level).
Proof. unfold break. simpl. lia. Qed.

(** A value needs no more fuel than its text has characters. *)
Lemma need_le_length v : ∀ level, need v ≤ String.length (dumps_at level v).
Proof.
  induction v as [|b|z|s|items IH|members IH] using json_ind; intros level.
  - simpl. lia.
  - destruct b; simpl; lia.
  - destruct (print_int_head z) as (c & r & Hz & _). simpl. rewrite Hz. simpl. lia.
  - simpl. lia.
  - destruct items as [|x l]; [simpl; lia|].
    assert (list_sum ((λ x, S (need x)) <$> x :: l)
            ≤ S (String.length
                   (dump_seq (dumps_at (S level)) ("," +:+ break (S level)) (x :: l))))
      as Hlen.
    { apply dump_seq_length; [rewrite string_app_length; simpl; lia|].
      eapply Forall_impl; [exact IH|]. intros y Hy. apply Hy. }
    pose proof (break_length (S level)).
    change (need (JArray (x :: l))) with (S (list_sum ((λ x, S (need x)) <$> x :: l))).
    simpl dumps_at. simpl dump_seq in Hlen. rewrite !string_app_length in Hlen.
    rewrite !string_app_length. simpl String.length at 1. lia.
  - destruct members as [|kv l]; [simpl; lia|].
    assert (list_sum ((λ kv, S (need kv.2)) <$> kv :: l)
            ≤ S (String.length
                   (dump_seq (λ kv, quote kv.1 +:+ ": " +:+ dumps_at (S level) kv.2)
                      ("," +:+ break (S level)) (kv :: l))))
      as Hlen.
    { apply (dump_seq_length _ _ (λ kv, need kv.2));
        [rewrite string_app_length; simpl; lia|].
      eapply Forall_impl; [exact IH|]. intros y Hy. simpl.
      rewrite !string_app_length. specialize (Hy (S level)). lia. }
    pose proof (break_length (S level)).
    change (need (JObject (kv :: l)))
      with (S (list_sum ((λ kv, S (need kv.2)) <$> kv :: l))).
    simpl dumps_at. simpl dump_seq in Hlen. rewrite !string_app_length in Hlen.
    rewrite !string_app_length. simpl String.length at 1. lia.
Qed.

End Fuel.

(** ** The session file *)

Section SessionFile.
Implicit Types (v : json) (s : HubSession) (text : string).

(** A value that was written is loaded, with the length of its text as
    fuel. *)
Lemma loads_dumps_at level v : loads (dumps_at level v) = Some v.
Proof.
  unfold loads. rewrite <-(string_app_nil_r (dumps_at level v)) at 2.
  rewrite parse_value_dumps; [done|apply need_le_length|done].
Qed.

Lemma session_of_to_json s : session_of_json (session_to_json s) = Returned s.
Proof. by destruct s. Qed.

Lemma session_of_json_raises v e : session_of_json v = Raised e → corrupt_session e.
Proof.
  unfold session_of_json, corrupt_session. repeat case_match; intros; simplify_eq; eauto.
Qed.

#[export] Instance json_codec_laws : SessionCodecLaws json_codec.
Proof.
  split.
  - intros s. unfold session_load, session_dump; simpl. unfold json_load, json_dump, dumps.
    by rewrite loads_dumps_at, session_of_to_json.
  - intros text e. unfold session_load; simpl. unfold json_load.
    destruct (loads text) as [v|]; [apply session_of_json_raises|].
    intros [= <-]. by left.
Qed.

End SessionFile.

(** ** Enough fuel, for any text *)

Section EnoughFuel.
Implicit Types (c : ascii) (s r rest : string) (fuel f : nat).

Lemma skip_ws_length s : String.length (skip_ws s) ≤ String.length s.
Proof. induction s as [|c s IH]; simpl; [done|]. destruct (is_space c); simpl; lia. Qed.

Lemma strip_length p s r : strip p s = Some r → String.length r ≤ String.length s.
Proof.
  revert s. induction p as [|a p IH]; intros [|b s]; simpl; try done;
    try by intros [= <-].
  destruct (Ascii.eqb a b); [|done]. intros H%IH. lia.
Qed.

Lemma cons_char_length c (o : option (string * string)) k r n :
  (∀ k' r', o = Some (k', r') → String.length r' < n) →
  cons_char c o = Some (k, r) → String.length r < n.
Proof. destruct o as [[k' r']|]; [|done]. intros H [= _ <-]. eauto. Qed.

(** A string that is read ends before the text does. *)
Lemma parse_chars_length_below n : ∀ s k r,
  String.length s < n →
  parse_chars s = Some (k, r) → String.length r < String.length s.
Proof.
  induction n as [|n IH]; intros s k r Hn; [lia|].
  destruct s as [|c s]; [done|]. simpl.
  destruct (Ascii.eqb c quote_char); [intros [= _ <-]; lia|].
  destruct (Ascii.eqb c backslash).
  - destruct s as [|e s]; [done|]. destruct (Ascii.eqb e "u").
    + destruct s as [|h1 [|h2 [|h3 [|h4 s]]]]; try done.
      destruct (unescape_u h1 h2 h3 h4); [|done].
      apply cons_char_length. intros k' r' H%IH; simpl in *; lia.
    + destruct (unescape e); [|done].
      apply cons_char_length. intros k' r' H%IH; simpl in *; lia.
  - destruct (nat_of_ascii c <? 32)%nat; [done|].
    apply cons_char_length. intros k' r' H%IH; simpl in *; lia.
Qed.

Lemma parse_chars_length s k r :
  parse_chars s = Some (k, r) → String.length r < String.length s.
Proof. apply (parse_chars_length_below (S (String.length s))). lia. Qed.

Lemma parse_digits_length s u rest :
  parse_digits s = (u, rest) →
  String.length rest ≤ String.length s ∧
  (u ≠ Decimal.Nil → String.length rest < String.length s).
Proof.
  revert u rest. induction s as [|c s IH]; intros u rest; simpl.
  - by intros [= <- <-].
  - destruct (parse_digits s) as [u' rest']. destruct (IH u' rest' eq_refl) as [Hle _].
    destruct (digit_of c u'); intros [= <- <-]; simpl; [lia|]. split; [lia|done].
Qed.

Lemma parse_nat_length s u rest :
  parse_nat s = Some (u, rest) → String.length rest < String.length s.
Proof.
  unfold parse_nat. destruct (parse_digits s) as [u' rest'] eqn:Hd.
  destruct (bool_decide _ && _) eqn:Hc; [|done]. intros [= <- <-].
  apply andb_true_iff in Hc as [Hu%bool_decide_eq_true _].
  apply (parse_digits_length _ _ _ Hd). intros ->. by vm_compute in Hu.
Qed.

Lemma parse_int_length s z rest :
  parse_int s = Some (z, rest) → String.length rest < String.length s.
Proof.
  destruct s as [|c s]; [done|]. simpl. destruct (Ascii.eqb c "-").
  - destruct (parse_nat s) as [[u r]|] eqn:Hn; [|done]. intros [= _ <-].
    apply parse_nat_length in Hn. simpl. lia.
  - destruct (parse_nat (String c s)) as [[u r]|] eqn:Hn; [|done]. intros [= _ <-].
    by apply parse_nat_length in Hn.
Qed.

Lemma after_item_settled {A} close (g : nat → string → option (list A * string)) f a s l r :
  settled g f →
  after_item close (g f) a s = Some (l, r) →
  String.length r < String.length s ∧
  ∀ f', String.length s - String.length r ≤ f' → after_item close (g f') a s = Some (l, r).
Proof.
  intros Hg. unfold after_item. pose proof (skip_ws_length s) as Hs.
  destruct (skip_ws s) as [|c r0]; [done|]. simpl in Hs.
  destruct (Ascii.eqb c ",").
  - destruct (g f r0) as [[l' r']|] eqn:Hm; [|done]. intros [= <- <-].
    destruct (Hg _ _ _ Hm) as [Hlt Hf]. split; [lia|].
    intros f' Hf'. rewrite Hf by lia. done.
  - destruct (Ascii.eqb c close); [|done]. intros [= <- <-]. split; [lia|done].
Qed.

Lemma bracketed_settled {A} close (g : nat → string → option (list A * string)) f s l r :
  settled g f →
  bracketed close (g f) s = Some (l, r) →
  String.length r < String.length s ∧
  ∀ f', String.length s - String.length r ≤ f' → bracketed close (g f') s = Some (l, r).
Proof.
  intros Hg. unfold bracketed. pose proof (skip_ws_length s) as Hs.
  destruct (skip_ws s) as [|c r0]; [done|]. simpl in Hs.
  destruct (Ascii.eqb c close); [intros [= <- <-]; split; [lia|done]|].
  apply Hg.
Qed.

Lemma value_step_settled f :
  settled parse_items f → settled parse_members f → settled parse_value (S f).
Proof.
  intros Hi Hm s v r. simpl. unfold value_step.
  pose proof (skip_ws_length s) as Hs. destruct (skip_ws s) as [|c r0] eqn:Hskip; [done|].
  simpl in Hs. intros H.
  assert (String.length r < String.length s ∧
          ∀ f0, String.length s - String.length r ≤ S f0 →
                value_step (parse_items f0) (parse_members f0) s = Some (v, r)) as [Hlt Hf].
  { unfold value_step. rewrite Hskip. revert H.
    repeat (destruct (Ascii.eqb c _); [
      first
        [ destruct (strip _ r0) as [r1|] eqn:Hp; [|done]; intros [= <- <-];
          apply strip_length in Hp; split; [lia|done]
        | destruct (parse_chars r0) as [[k r1]|] eqn:Hp; [|done]; intros [= <- <-];
          apply parse_chars_length in Hp; split; [lia|done]
        | destruct (bracketed _ _ r0) as [[l r1]|] eqn:Hp; [|done]; intros [= <- <-];
          first [ apply (bracketed_settled _ _ _ _ _ _ Hi) in Hp as [Hlt Hf]
                | apply (bracketed_settled _ _ _ _ _ _ Hm) in Hp as [Hlt Hf] ];
          split; [lia|]; intros f0 Hf0; rewrite Hf by lia; done ]|]).
    destruct (parse_int (String c r0)) as [[z r1]|] eqn:Hp; [|done]. intros [= <- <-].
    apply parse_int_length in Hp. simpl in Hp. split; [lia|done]. }
  split; [done|]. intros [|f0] Hf0; [lia|]. by apply Hf.
Qed.

Lemma items_step_settled f :
  settled parse_value f → settled parse_items f → settled parse_items (S f).
Proof.
  intros Hv Hi s l r. simpl. unfold items_step.
  destruct (parse_value f s) as [[v r1]|] eqn:Hp; [|done].
  destruct (Hv _ _ _ Hp) as [Hlt1 Hf1].
  intros [Hlt Hf]%(after_item_settled _ _ _ _ _ _ _ Hi). split; [lia|].
  intros [|f0] Hf0; [lia|]. simpl. unfold items_step. rewrite Hf1 by lia. apply Hf. lia.
Qed.

Lemma members_step_settled f :
  settled parse_value f → settled parse_members f → settled parse_members (S f).
Proof.
  intros Hv Hm s l r. simpl. unfold members_step.
  pose proof (skip_ws_length s) as Hs. destruct (skip_ws s) as [|c r0] eqn:Hskip; [done|].
  simpl in Hs. destruct (Ascii.eqb c quote_char) eqn:Hq; [|done].
  destruct (parse_chars r0) as [[k r1]|] eqn:Hk; [|done].
  pose proof (parse_chars_length _ _ _ Hk) as Hlk. pose proof (skip_ws_length r1) as Hs1.
  destruct (skip_ws r1) as [|c1 r2] eqn:Hskip1; [done|]. simpl in Hs1.
  destruct (Ascii.eqb c1 ":") eqn:Hcolon; [|done].
  destruct (parse_value f r2) as [[v r3]|] eqn:Hp; [|done].
  destruct (Hv _ _ _ Hp) as [Hlt1 Hf1].
  intros [Hlt Hf]%(after_item_settled _ _ _ _ _ _ _ Hm). split; [lia|].
  intros [|f0] Hf0; [lia|]. simpl. unfold members_step.
  rewrite Hskip, Hq, Hk, Hskip1, Hcolon, Hf1 by lia. apply Hf. lia.
Qed.

(** The three parsers are settled at every fuel. *)
Lemma parse_settled f :
  settled parse_value f ∧ settled parse_items f ∧ settled parse_members f.
Proof.
  induction f as [|f (Hv & Hi & Hm)]; [by split_and!|].
  split_and!; auto using value_step_settled, items_step_settled, members_step_settled.
Qed.

End EnoughFuel.

(** ** The text is ASCII *)

Section Ascii.
Implicit Types (c : ascii) (v : json) (s t : string) (level : nat).


Lemma all_chars_app p s t : all_chars p (s +:+ t) = all_chars p s && all_chars p t.
Proof.
  induction s as [|c s IH]; [done|]. rewrite string_app_cons. simpl.
  by rewrite IH, andb_assoc.
Qed.

Lemma escape_char_ascii c : all_chars printable (escape_char c) = true.
Proof. by_cases_on c. Qed.

Lemma escape_ascii s : all_chars printable (escape s) = true.
Proof.
  induction s as [|c s IH]; [done|]. simpl. by rewrite all_chars_app, escape_char_ascii, IH.
Qed.

Lemma quote_ascii s : all_chars printable (quote s) = true.
Proof. unfold quote. simpl. by rewrite all_chars_app, escape_ascii. Qed.

Lemma string_of_uint_ascii u : all_chars printable (NilEmpty.string_of_uint u) = true.
Proof. induction u; simpl; by rewrite ?IHu. Qed.

Lemma print_int_ascii z : all_chars printable (print_int z) = true.
Proof. unfold print_int. destruct (Z.to_int z); simpl; apply string_of_uint_ascii. Qed.

Lemma spaces_ascii n : all_chars printable (spaces n) = true.
Proof. induction n as [|n IH]; [done|]. simpl. by rewrite IH. Qed.

Lemma break_ascii level : all_chars printable (break level) = true.
Proof. unfold break. simpl. apply spaces_ascii. Qed.

Lemma dump_tail_ascii {A} (pr : A → string) sep (l : list A) :
  all_chars printable sep = true →
  Forall (λ x, all_chars printable (pr x) = true) l →
  all_chars printable (dump_tail pr sep l) = true.
Proof.
  intros Hsep. induction 1 as [|x l Hx _ IH]; [done|]. simpl.
  by rewrite !all_chars_app, Hsep, Hx, IH.
Qed.

Lemma item_sep_ascii level : all_chars printable ("," +:+ break level) = true.
Proof. rewrite all_chars_app, break_ascii. done. Qed.

Lemma dumps_at_ascii v : ∀ level, all_chars printable (dumps_at level v) = true.
Proof.
  induction v as [|b|z|s|items IH|members IH] using json_ind; intros level.
  - done.
  - by destruct b.
  - apply print_int_ascii.
  - apply quote_ascii.
  - destruct items as [|x l]; [done|]. apply Forall_cons in IH as [Hx Hl].
    simpl dumps_at. rewrite !all_chars_app, !break_ascii, Hx, dump_tail_ascii;
      [done|apply item_sep_ascii|].
    eapply Forall_impl; [exact Hl|]. intros y Hy. apply Hy.
  - destruct members as [|kv l]; [done|]. apply Forall_cons in IH as [Hx Hl].
    simpl dumps_at.
    rewrite !all_chars_app, !break_ascii, (quote_ascii kv.1), Hx, dump_tail_ascii;
      [done|apply item_sep_ascii|].
    eapply Forall_impl; [exact Hl|]. intros y Hy. cbv beta.
    by rewrite !all_chars_app, (quote_ascii y.1), Hy.
Qed.

End Ascii.

(** ** What [json.dump] and [json.load] promise *)

Section Promises.
Implicit Types (v : json) (f : nat).

(** C30. The session file round trip.  The text [login] writes for a
    session (line 132) is read back by [_create_hub_service] (lines 83 to 85)
    as that session, whatever characters its tokens hold and whatever the
    sign and size of its expiry. *)
Theorem json_load_dump (s : HubSession) : json_load (json_dump s) = Returned s.
Proof. unfold json_load, json_dump, dumps. by rewrite loads_dumps_at, session_of_to_json. Qed.

(** C33. Round trip.  Any value written by [json.dumps] with [indent=4] is
    loaded back by [json.loads] as the same value, the length of the text
    being fuel enough. *)
Theorem loads_dumps v : loads (dumps v) = Some v.
Proof. apply loads_dumps_at. Qed.

(** C32. The fuel of [loads] is enough for every text, written by [dumps] or
    not: [loads] returns a value exactly when the parser returns it with some
    fuel and leaves nothing but white space.  No text is rejected for lack of
    fuel. *)
Theorem loads_enough_fuel s v :
  loads s = Some v ↔ ∃ f r, parse_value f s = Some (v, r) ∧ skip_ws r = EmptyString.
Proof.
  unfold loads. split.
  - destruct (parse_value (String.length s) s) as [[v' r]|] eqn:Hp; [|done].
    destruct (skip_ws r) eqn:Hr; [|done]. intros [= <-]. eauto.
  - intros (f & r & Hp & Hr). destruct (parse_settled f) as [Hv _].
    destruct (Hv _ _ _ Hp) as [_ Hf]. rewrite Hf by lia. by rewrite Hr.
Qed.

(** With [ensure_ascii], the text holds new lines and printable ASCII
    characters only, whatever characters the strings of the value hold. *)
Theorem dumps_ascii v : all_chars printable (dumps v) = true.
Proof. apply dumps_at_ascii. Qed.

(** A document validates as a session exactly when it is an object whose
    members (the last one of each key) give the three tokens as strings and
    the expiry as a number; the session is made of these. *)
Lemma session_of_json_returned v (s : HubSession) :
  session_of_json v = Returned s ↔
  ∃ ms, v = JObject ms ∧
    member "access_token" ms = Some (JString (access_token s)) ∧
    member "refresh_token" ms = Some (JString (refresh_token s)) ∧
    member "token_type" ms = Some (JString (token_type s)) ∧
    member "expiry" ms = Some (JNumber (expiry s)).
Proof.
  split.
  - unfold session_of_json. repeat case_match; intros; simplify_eq/=; eauto 10.
  - intros (ms & -> & Ha & Hr & Ht & He). unfold session_of_json.
    rewrite Ha, Hr, Ht, He. by destruct s.
Qed.

End Promises.
