(* ===== verification/Doubles.v ===== *)
(** * Concrete collaborators

    Instances of the two interfaces of collaborators that are not in the
    sources: an in-memory hub ([ref_hub]) and a settings store that keeps one
    settings record ([ref_store]).  They stand for the remote service and the
    settings file when the model is run on concrete worlds, and they show
    that the laws the theorems assume can be met.  They are not translations
    of code.  The third interface, the text of the session file, has its
    instance in [Json]. *)

From stdpp Require Import gmap numbers pretty.
From S2P Require Import Prelude Exn FileSystem Settings Hub SessionStore.

(** ** A settings store *)

(** Fields of [incoming], then the fields of [defaults] that [incoming]
    does not set. *)
Definition merge_fields (incoming defaults : list (string * string)) :
    list (string * string) :=
  incoming ++ filter (λ kv, kv.1 ∉ incoming.*1) defaults.

#[export] Instance ref_store : UserService := {|
  defaults_store := UserSettings;
  read_default_user_settings d := set_hub_session None d;
  write_default_user_settings us _ := us;
  update_default us d :=
    {| id := id us; profile := profile us;
       credentials := merge_fields (credentials us) (credentials d);
       preferences := merge_fields (preferences us) (preferences d) |};
|}.

(** ** A hub *)

Record hub_account : Type := mkHubAccount {
  acc_email : string;
  acc_password : string;
  acc_pat : string;
  acc_doc : UserSettings;
}.

(** The service is reachable or not, knows some accounts, and remembers
    which sessions it issued to whom. *)
Record ref_hub_state : Type := mkRefHub {
  online : bool;
  accounts : list hub_account;
  live : list (HubSession * string);
  issued : nat;
}.

Definition accepts (a : auth_request) (acc : hub_account) : bool :=
  match a with
  | ByCredentials e p => bool_decide (e = acc_email acc ∧ p = acc_password acc)
  | ByToken t => bool_decide (t = acc_pat acc)
  end.

Definition fresh_session (k : nat) : HubSession :=
  {| access_token := "access-" +:+ pretty k; refresh_token := "refresh-" +:+ pretty k;
     token_type := "bearer"; expiry := 3600 |}.

Definition owner (s : HubSession) (h : ref_hub_state) : option hub_account :=
  match list_find (λ se, se.1 = s) (live h) with
  | Some (_, (_, e)) => snd <$> list_find (λ acc, acc_email acc = e) (accounts h)
  | None => None
  end.

Definition ref_authenticate (a : auth_request) : action ref_hub_state hub_error HubSession :=
  λ h, if negb (online h) then (Raised TransportError, h)
       else match list_find (λ acc, accepts a acc = true) (accounts h) with
            | Some (_, acc) =>
                let s := fresh_session (issued h) in
                (Returned s,
                 {| online := online h; accounts := accounts h;
                    live := (s, acc_email acc) :: live h; issued := S (issued h) |})
            | None => (Raised AuthenticationError, h)
            end.

Definition ref_pull (s : HubSession) : action ref_hub_state hub_error UserSettings :=
  λ h, if negb (online h) then (Raised HubUnavailableError, h)
       else match owner s h with
            | Some acc => (Returned (acc_doc acc), h)
            | None => (Raised AuthenticationError, h)
            end.

Definition ref_push (s : HubSession) (doc : UserSettings) :
    action ref_hub_state hub_error unit :=
  λ h, if negb (online h) then (Raised HubUnavailableError, h)
       else match owner s h with
            | Some acc =>
                (Returned tt,
                 {| online := online h;
                    accounts :=
                      (λ a, if bool_decide (acc_email a = acc_email acc)
                            then {| acc_email := acc_email a; acc_password := acc_password a;
                                    acc_pat := acc_pat a;
                                    acc_doc := set_hub_session None doc |}
                            else a) <$> accounts h;
                    live := live h; issued := issued h |})
            | None => (Raised AuthenticationError, h)
            end.

Definition ref_invalidate (s : HubSession) : action ref_hub_state hub_error unit :=
  λ h, if negb (online h) then (Raised TransportError, h)
       else (Returned tt,
             {| online := online h; accounts := accounts h;
                live := filter (λ se, se.1 ≠ s) (live h); issued := issued h |}).

#[export] Instance ref_hub : HubRemote := {|
  hub_state := ref_hub_state;
  authenticate := ref_authenticate;
  pull_settings := ref_pull;
  push_settings := ref_push;
  invalidate := ref_invalidate;
|}.

(** ** A concrete world *)

Definition alice_doc : UserSettings :=
  {| id := "remote-7"; profile := {| hub_session := None |};
     credentials := [("fmp_api_key", "k-123")];
     preferences := [("output_type", "dataframe")] |}.

Definition alice : hub_account :=
  {| acc_email := "alice@example.org"; acc_password := "hunter2"; acc_pat := "pat-alice";
     acc_doc := alice_doc |}.

Definition hub0 : ref_hub_state :=
  {| online := true; accounts := [alice]; live := []; issued := 0 |}.

Definition local_defaults : UserSettings :=
  {| id := "local-1"; profile := {| hub_session := None |};
     credentials := [("fmp_api_key", "")];
     preferences := [("output_type", "OBBject"); ("plot_enable_pywry", "True")] |}.

Definition home : path := ["home"; "alice"].
Definition platform_dir : path := ["home"; "alice"; ".openbb_platform"].

(** The home directory exists; the platform directory does not yet. *)
Definition disk0 : fs := <[home := Dir]> (<[ ["home"] := Dir]> {[ [] := Dir ]}).

(** The same disk once the platform directory is there. *)
Definition disk1 : fs := <[platform_dir := Dir]> disk0.

(** * The laws hold *)

#[export] Instance ref_store_laws : UserServiceLaws ref_store.
Proof. by split. Qed.

Lemma disk0_wf : fs_wf disk0.
Proof. compute_done. Qed.

Lemma disk1_wf : fs_wf disk1.
Proof. compute_done. Qed.
