(* ===== verification/Account.v ===== *)
(** * The account commands

    The class [Account] of [account.py], statement by statement: its
    constructor, the decorator [_log_account_command], the helper
    [_create_hub_service] and the four commands [login], [save], [refresh]
    and [logout].  A command is an action on [World], the state the class
    reaches through [self._base_app._command_runner], the disk, the settings
    store, the hub and the log.  The undecorated function of a command [c] is
    [c_body]; [c] itself is the decorated one, as in the class. *)

From stdpp Require Import gmap.
From S2P Require Import Prelude Exn FileSystem Settings Hub SessionStore.

(** The decorated functions, by name ([func.__name__]). *)
Inductive command : Type := Login | Save | Refresh | Logout.

#[global] Instance command_eq_dec : EqDecision command.
Proof. solve_decision. Defined.

Definition func_name (c : command) : string :=
  match c with
  | Login => "login"
  | Save => "save"
  | Refresh => "refresh"
  | Logout => "logout"
  end.

(** One record of the logging service: the arguments of [ls.log] at lines 57
    to 64. *)
Record LogEntry : Type := mkLogEntry {
  log_user_settings : UserSettings;
  log_system_settings : SystemSettings;
  route : string;
  func : command;
  kwargs : list (string * string);
  exec_info : option exn;
}.

#[global] Instance LogEntry_eq_dec : EqDecision LogEntry.
Proof. solve_decision. Defined.

Section World.
Context {US : UserService} {HR : HubRemote} {SC : SessionCodec}.

(** Everything a command reads or changes. *)
Record World : Type := mkWorld {
  user_settings : UserSettings;
  system_settings : SystemSettings;
  disk : fs;
  store : defaults_store;
  net : Net;
  log : list LogEntry;
}.

Definition set_user_settings (us : UserSettings) (w : World) : World :=
  {| user_settings := us; system_settings := system_settings w; disk := disk w;
     store := store w; net := net w; log := log w |}.

Definition set_disk (σ : fs) (w : World) : World :=
  {| user_settings := user_settings w; system_settings := system_settings w; disk := σ;
     store := store w; net := net w; log := log w |}.

Definition set_store (d : defaults_store) (w : World) : World :=
  {| user_settings := user_settings w; system_settings := system_settings w;
     disk := disk w; store := d; net := net w; log := log w |}.

Definition set_net (n : Net) (w : World) : World :=
  {| user_settings := user_settings w; system_settings := system_settings w;
     disk := disk w; store := store w; net := n; log := log w |}.

Definition set_log (l : list LogEntry) (w : World) : World :=
  {| user_settings := user_settings w; system_settings := system_settings w;
     disk := disk w; store := store w; net := net w; log := l |}.

(** Calls on the disk and on the hub, as actions on the world. *)
Definition on_disk {A} (m : action fs exn A) : action World exn A := zoom disk set_disk m.
Definition on_net {A} (m : action Net exn A) : action World exn A := zoom net set_net m.

(** [LoggingService(...).log(...)]: one record is appended. *)
Definition logging_service_log (e : LogEntry) : action World exn unit :=
  modify (λ w, set_log (log w ++ [e]) w).

End World.

Arguments World : clear implicits.
Arguments World {US HR}.

Module Account.
Section Account.
Context {US : UserService} {HR : HubRemote} {SC : SessionCodec}.

(** The object: [__init__] keeps the platform directory of the system
    settings it is built with. *)
Record t : Type := mk {
  _openbb_directory : path;
}.

Definition init (w : World) : t :=
  {| _openbb_directory := openbb_directory (system_settings w) |}.

(** The documentation string of the class, as the source has it between the
    quotes; [None] when the interpreter drops documentation strings. *)
Definition __doc__ : option string :=
  Some (String.concat (String (Ascii.ascii_of_nat 10) "")
          ["/account"; "    login"; "    logout"; "    save"; "    refresh"; "    "]).

(** [__repr__]: [self.__doc__ or ""], the documentation string unless it is
    absent or empty. *)
Definition __repr__ (doc : option string) (self : t) : string :=
  match doc with
  | Some (String c d) => String c d
  | Some EmptyString | None => ""
  end.

(** The record the decorator writes, from the world the function left and the
    exception in flight. *)
Definition log_entry (c : command) (info : option exn) (w : World) : LogEntry :=
  {| log_user_settings := user_settings w;
     log_system_settings := system_settings w;
     route := "/account/" +:+ func_name c;
     func := c;
     kwargs := [];
     exec_info := info |}.

(** The decorator: [try] the function, wrap what it raises in an
    [OpenBBError], and in the [finally] block log the call with the settings
    as they are then. *)
Definition _log_account_command {A} (c : command) (f : action World exn A) :
    action World exn A :=
  try_finally
    (try_except f (λ e, raise (OpenBBErrorFrom e)))
    (λ info, let* w := gets (λ w, w) in logging_service_log (log_entry c info w))%act.

(** [_create_hub_service]: with no credential at all the client is resumed
    from the session file, which must exist; otherwise a fresh client
    connects. *)
Definition _create_hub_service (self : t) (email password pat : option string) :
    action World exn HubService.t :=
  match email, password, pat with
  | None, None, None =>
      let file := session_file (_openbb_directory self) in
      let* present := on_disk (path_exists file) in
      if negb present then raise session_not_found
      else
        let* hub_session := on_disk (read_session file) in
        ret (HubService.init (Some hub_session))
  | _, _, _ => on_net (HubService.connect email password pat (HubService.init None))
  end%act.

(** The end of every command: the current settings, if asked for. *)
Definition return_settings_if (return_settings : bool) :
    action World exn (option UserSettings) :=
  if return_settings then gets (λ w, Some (user_settings w)) else ret None.

Definition login_body (self : t) (email password pat : option string)
    (remember_me return_settings : bool) : action World exn (option UserSettings) :=
  (let* hs := _create_hub_service self email password pat in
   let* incoming := on_net (HubService.pull hs) in
   let* updated := gets (λ w, update_default incoming (store w)) in
   modify (set_user_settings updated) ;;
   (if remember_me
    then on_disk (save_session (_openbb_directory self) (HubService.session hs))
    else ret tt) ;;
   return_settings_if return_settings)%act.

Definition save_body (self : t) (return_settings : bool) :
    action World exn (option UserSettings) :=
  (let* hub_session := gets (λ w, session_of (user_settings w)) in
   match hub_session with
   | None =>
       modify (λ w, set_store (write_default_user_settings (user_settings w) (store w)) w)
   | Some s =>
       let* current := gets user_settings in
       on_net (HubService.push (HubService.init (Some s)) current)
   end ;;
   return_settings_if return_settings)%act.

Definition refresh_body (self : t) (return_settings : bool) :
    action World exn (option UserSettings) :=
  (let* hub_session := gets (λ w, session_of (user_settings w)) in
   match hub_session with
   | None =>
       modify (λ w, set_user_settings (read_default_user_settings (store w)) w)
   | Some s =>
       let* incoming := on_net (HubService.pull (HubService.init (Some s))) in
       let* updated := gets (λ w, update_default incoming (store w)) in
       let* current := gets user_settings in
       modify (set_user_settings (set_id (id current) updated))
   end ;;
   return_settings_if return_settings)%act.

Definition logout_body (self : t) (return_settings : bool) :
    action World exn (option UserSettings) :=
  (let* hub_session := gets (λ w, session_of (user_settings w)) in
   match hub_session with
   | None => raise not_connected
   | Some s =>
       on_net (HubService.disconnect (HubService.init (Some s))) ;;
       on_disk (remove_session (_openbb_directory self)) ;;
       modify (λ w, set_user_settings (read_default_user_settings (store w)) w) ;;
       return_settings_if return_settings
   end)%act.

Definition login (self : t) (email password pat : option string)
    (remember_me return_settings : bool) : action World exn (option UserSettings) :=
  _log_account_command Login (login_body self email password pat remember_me return_settings).

Definition save (self : t) (return_settings : bool) :
    action World exn (option UserSettings) :=
  _log_account_command Save (save_body self return_settings).

Definition refresh (self : t) (return_settings : bool) :
    action World exn (option UserSettings) :=
  _log_account_command Refresh (refresh_body self return_settings).

Definition logout (self : t) (return_settings : bool) :
    action World exn (option UserSettings) :=
  _log_account_command Logout (logout_body self return_settings).

End Account.
End Account.

(** ** Requests

    The calls a client of the class can make, as data, so that sequences of
    commands can be stated and run. *)

Inductive request : Type :=
| ReqLogin (email password pat : option string) (remember_me return_settings : bool)
| ReqSave (return_settings : bool)
| ReqRefresh (return_settings : bool)
| ReqLogout (return_settings : bool).

Definition command_of (q : request) : command :=
  match q with
  | ReqLogin _ _ _ _ _ => Login
  | ReqSave _ => Save
  | ReqRefresh _ => Refresh
  | ReqLogout _ => Logout
  end.

Definition is_login (q : request) : bool :=
  match q with
  | ReqLogin _ _ _ _ _ => true
  | _ => false
  end.

(** A [login] that is asked to remember the session. *)
Definition remembers (q : request) : bool :=
  match q with
  | ReqLogin _ _ _ rm _ => rm
  | _ => false
  end.

Section Requests.
Context {US : UserService} {HR : HubRemote} {SC : SessionCodec}.

(** The undecorated and the decorated function a request calls. *)
Definition body_of (self : Account.t) (q : request) : action World exn (option UserSettings) :=
  match q with
  | ReqLogin e p t rm rs => Account.login_body self e p t rm rs
  | ReqSave rs => Account.save_body self rs
  | ReqRefresh rs => Account.refresh_body self rs
  | ReqLogout rs => Account.logout_body self rs
  end.

Definition dispatch (self : Account.t) (q : request) : action World exn (option UserSettings) :=
  match q with
  | ReqLogin e p t rm rs => Account.login self e p t rm rs
  | ReqSave rs => Account.save self rs
  | ReqRefresh rs => Account.refresh self rs
  | ReqLogout rs => Account.logout self rs
  end.

(** A session of use: the requests are served one after the other, whatever
    their outcomes; the world after the last one is returned. *)
Fixpoint serve (self : Account.t) (qs : list request) (w : World) : World :=
  match qs with
  | [] => w
  | q :: qs' => serve self qs' (dispatch self q w).2
  end.

(** What the caller of a decorated function sees of an outcome: a value as
    it is, an exception inside an [OpenBBError]. *)
Definition wrapped {A} (r : outcome exn A) : outcome exn A :=
  match r with
  | Returned a => Returned a
  | Raised e => Raised (OpenBBErrorFrom e)
  end.

(** The world after the [finally] block of a function that raised [cause],
    or returned: one more record in the log, holding the wrapped cause. *)
Definition logged (c : command) (cause : option exn) (w : World) : World :=
  set_log (log w ++ [Account.log_entry c (OpenBBErrorFrom <$> cause) w]) w.

(** The world once the client built from [s] has disconnected: one call on
    the wire, whatever the remote service answered. *)
Definition disconnected (s : HubSession) (w : World) : World :=
  set_net (after_call (RpcDisconnect s) (invalidate s (remote (net w))).2 (net w)) w.

(** A record as the decorator writes it: the route names the function, no
    argument of the call is kept, and the exception, if any, is one
    [OpenBBError] around a cause that is not wrapped itself. *)
Definition record_wf (e : LogEntry) : Prop :=
  route e = "/account/" +:+ func_name (func e) ∧
  kwargs e = [] ∧
  match exec_info e with
  | None => True
  | Some (OpenBBErrorFrom cause) => unwrapped cause
  | Some _ => False
  end.

(** A well-formed world: the disk is a tree and every record of the log is
    one the decorator writes. *)
Definition world_wf (w : World) : Prop :=
  fs_wf (disk w) ∧ Forall record_wf (log w).

(** The action makes at most [k] remote calls, after those already made. *)
Definition sends {A} (k : nat) (m : action World exn A) : Prop :=
  grows (λ w, wire (net w)) k m.

(** The remote calls a command can make: two for [login] (to connect and to
    pull), one for the others. *)
Definition calls_budget (q : request) : nat := if is_login q then 2 else 1.

End Requests.

(** * Theorems *)

(** ** The world and its parts *)

Section WorldLemmas.
Context {US : UserService} {HR : HubRemote}.
Implicit Types (w : World).

Lemma on_disk_run {A} (m : action fs exn A) w :
  on_disk m w = ((m (disk w)).1, set_disk (m (disk w)).2 w).
Proof. apply run_zoom. Qed.

Lemma on_net_run {A} (m : action Net exn A) w :
  on_net m w = ((m (net w)).1, set_net (m (net w)).2 w).
Proof. apply run_zoom. Qed.

Lemma on_disk_eq {A} (m : action fs exn A) w r σ :
  m (disk w) = (r, σ) → on_disk m w = (r, set_disk σ w).
Proof. intros H. by rewrite on_disk_run, H. Qed.

Lemma on_net_eq {A} (m : action Net exn A) w r n :
  m (net w) = (r, n) → on_net m w = (r, set_net n w).
Proof. intros H. by rewrite on_net_run, H. Qed.

Lemma set_disk_same w : set_disk (disk w) w = w.
Proof. by destruct w. Qed.

Lemma set_net_same w : set_net (net w) w = w.
Proof. by destruct w. Qed.

End WorldLemmas.

#[export] Hint Rewrite @set_disk_same @set_net_same : action.

(** ** The decorator *)

Section Decorator.
Context {US : UserService} {HR : HubRemote}.
Implicit Types (w : World) (c : command).

(** The decorator, as an equation: the function runs once; its outcome is
    wrapped; one record is logged, with the settings the function left. *)
Lemma log_account_command_run {A} c (f : action World exn A) w :
  Account._log_account_command c f w =
  (wrapped (f w).1, logged c (exc_info (f w).1) (f w).2).
Proof.
  unfold Account._log_account_command, try_finally, try_except, logged.
  by destruct (f w) as [[a|e] w'].
Qed.

Lemma user_settings_logged c (o : option exn) w : user_settings (logged c o w) = user_settings w.
Proof. reflexivity. Qed.

Lemma disk_logged c (o : option exn) w : disk (logged c o w) = disk w.
Proof. reflexivity. Qed.

Lemma net_logged c (o : option exn) w : net (logged c o w) = net w.
Proof. reflexivity. Qed.

Lemma store_logged c (o : option exn) w : store (logged c o w) = store w.
Proof. reflexivity. Qed.

Lemma log_logged c (o : option exn) w :
  log (logged c o w) = log w ++ [Account.log_entry c (OpenBBErrorFrom <$> o) w].
Proof. reflexivity. Qed.

Lemma exc_info_wrapped {A} (r : outcome exn A) :
  exc_info (wrapped r) = OpenBBErrorFrom <$> exc_info r.
Proof. by destruct r. Qed.

Lemma wrapped_returned_inv {A} (r : outcome exn A) a :
  wrapped r = Returned a → r = Returned a.
Proof. by destruct r. Qed.

Lemma wrapped_raised_inv {A} (r : outcome exn A) e :
  wrapped r = Raised e → ∃ e0, r = Raised e0 ∧ e = OpenBBErrorFrom e0.
Proof. destruct r; naive_solver. Qed.

End Decorator.

#[export] Hint Rewrite @user_settings_logged @disk_logged @net_logged @store_logged
  @log_logged : action.

(** ** What the functions leave alone *)

Section Frames.
Context {US : UserService} {HR : HubRemote} {SC : SessionCodec}.
Implicit Types (w : World) (self : Account.t) (q : request).

Lemma preserves_on_disk {A} (P : World → Prop) (m : action fs exn A) :
  (∀ w σ, P w → P (set_disk σ w)) → preserves P (on_disk m).
Proof. intros H. apply preserves_zoom_frame. eauto. Qed.

Lemma preserves_on_net {A} (P : World → Prop) (m : action Net exn A) :
  (∀ w n, P w → P (set_net n w)) → preserves P (on_net m).
Proof. intros H. apply preserves_zoom_frame. eauto. Qed.

(** What a disk call preserves of the disk, it preserves of the disk of the
    world. *)
Lemma preserves_disk_on_disk {A : Type} (Q : fs → Prop) (m : action fs exn A) :
  preserves Q m → preserves (λ w, Q (disk w)) (on_disk m).
Proof. intros H. by apply (preserves_zoom _ Q). Qed.

End Frames.

Ltac unfold_account :=
  unfold dispatch, body_of, Account.login, Account.save, Account.refresh, Account.logout,
    Account.login_body, Account.save_body, Account.refresh_body, Account.logout_body,
    Account._create_hub_service, Account.return_settings_if,
    Account._log_account_command, logging_service_log.

(** Preservation by a command: split it, then the primitives are [on_disk],
    [on_net] and [modify], whose setters do not touch the part in question. *)
Ltac frame_step :=
  first
    [ preserves_step
    | apply preserves_on_disk; by intros
    | apply preserves_on_net; by intros
    | apply preserves_modify; by intros ].

Ltac solve_frame := unfold_account; repeat frame_step.

Section FrameLemmas.
Context {US : UserService} {HR : HubRemote} {SC : SessionCodec}.
Implicit Types (w : World) (self : Account.t) (q : request).

(** No function writes the log: only the decorator does. *)
Lemma body_keeps_log self q : keeps log (body_of self q).
Proof. apply keeps_preserves. intros v. destruct q; solve_frame. Qed.

(** The system settings are never written. *)
Lemma dispatch_keeps_system_settings self q : keeps system_settings (dispatch self q).
Proof. apply keeps_preserves. intros v. destruct q; solve_frame. Qed.

(** [save] does not change the current settings. *)
Lemma save_body_keeps_user_settings self rs : keeps user_settings (Account.save_body self rs).
Proof. apply keeps_preserves. intros v. solve_frame. Qed.

(** Only [login] and [logout] touch the disk. *)
Lemma save_body_keeps_disk self rs : keeps disk (Account.save_body self rs).
Proof. apply keeps_preserves. intros v. solve_frame. Qed.

Lemma refresh_body_keeps_disk self rs : keeps disk (Account.refresh_body self rs).
Proof. apply keeps_preserves. intros v. solve_frame. Qed.

(** Only [save] writes the settings store. *)
Lemma login_body_keeps_store self e p t rm rs :
  keeps store (Account.login_body self e p t rm rs).
Proof. apply keeps_preserves. intros v. solve_frame. Qed.

Lemma refresh_body_keeps_store self rs : keeps store (Account.refresh_body self rs).
Proof. apply keeps_preserves. intros v. solve_frame. Qed.

Lemma logout_body_keeps_store self rs : keeps store (Account.logout_body self rs).
Proof. apply keeps_preserves. intros v. solve_frame. Qed.

End FrameLemmas.

(** ** The contract of the decorator, for every command *)

Section Decorated.
Context {US : UserService} {HR : HubRemote} {SC : SessionCodec}.
Implicit Types (w : World) (self : Account.t) (q : request).

Lemma dispatch_decorated self q :
  dispatch self q = Account._log_account_command (command_of q) (body_of self q).
Proof. by destruct q. Qed.

(** A command is its function, wrapped and logged. *)
Lemma dispatch_run self q w :
  dispatch self q w =
  (wrapped (body_of self q w).1,
   logged (command_of q) (exc_info (body_of self q w).1) (body_of self q w).2).
Proof. by rewrite dispatch_decorated, log_account_command_run. Qed.

(** The log after a command: the log before it and the record of the
    decorator, made in the world the command ends in. *)
Lemma dispatch_log self q w :
  log (dispatch self q w).2 =
  log w ++ [Account.log_entry (command_of q) (exc_info (dispatch self q w).1)
              (dispatch self q w).2].
Proof.
  rewrite dispatch_run. simpl. autorewrite with action.
  by rewrite (body_keeps_log self q w), exc_info_wrapped.
Qed.

(** C4. Every command, whether it returns or raises, appends exactly one
    record to the log: its route is [/account/] followed by the name of the
    command, it carries no argument of the call (so no credential), it holds
    the exception the caller receives, if any, and the user settings as the
    command left them. *)
Theorem dispatch_logs_once self q w :
  log (dispatch self q w).2 =
  log w ++ [ {| log_user_settings := user_settings (dispatch self q w).2;
                log_system_settings := system_settings w;
                route := "/account/" +:+ func_name (command_of q);
                func := command_of q;
                kwargs := [];
                exec_info := exc_info (dispatch self q w).1 |} ].
Proof.
  rewrite dispatch_log. unfold Account.log_entry.
  by rewrite (dispatch_keeps_system_settings self q w).
Qed.

(** Functions raise exceptions that are not wrapped yet. *)
Lemma body_raises_unwrapped `{!SessionCodecLaws SC} self q :
  raises unwrapped (body_of self q).
Proof.
  destruct q; unfold_account; unfold on_disk, on_net;
    repeat first
      [ raises_step
      | done
      | eapply raises_weaken;
        [|first [apply read_session_raises | apply save_session_raises
                 | apply remove_session_raises | apply connect_raises | apply pull_raises
                 | apply push_raises | apply disconnect_raises | apply path_exists_raises]];
        simpl; intros ? ?; destruct_or?; simplify_eq; eauto with action ].
Qed.

(** C17. What a command raises is one [OpenBBError] around the exception its
    function raised, which is itself not an [OpenBBError] made by the
    decorator: the caller sees one error per failed command, with the cause
    one level down. *)
Theorem dispatch_wraps_once `{!SessionCodecLaws SC} self q w e w' :
  dispatch self q w = (Raised e, w') →
  ∃ cause, e = OpenBBErrorFrom cause ∧ unwrapped cause ∧
           (body_of self q w).1 = Raised cause.
Proof.
  rewrite dispatch_run. intros [= (cause & Hr & ->)%wrapped_raised_inv _].
  exists cause. split_and!; [done| |done].
  destruct (body_of self q w) as [r w1] eqn:Hb. simpl in Hr. subst r.
  by eapply body_raises_unwrapped.
Qed.

(** A command returns exactly what its function returns. *)
Lemma dispatch_returned self q w v w' :
  dispatch self q w = (Returned v, w') →
  ∃ w1, body_of self q w = (Returned v, w1) ∧
        w' = logged (command_of q) None w1.
Proof.
  rewrite dispatch_run. intros [= Hr%wrapped_returned_inv <-].
  destruct (body_of self q w) as [r w1]. simpl in *. subst r. eauto.
Qed.

Lemma dispatch_raised self q w e w' :
  dispatch self q w = (Raised e, w') →
  ∃ cause w1, e = OpenBBErrorFrom cause ∧ body_of self q w = (Raised cause, w1) ∧
    w' = logged (command_of q) (Some cause) w1.
Proof.
  rewrite dispatch_run. intros [= (cause & Hr & ->)%wrapped_raised_inv <-].
  exists cause. destruct (body_of self q w) as [r w1]. simpl in *. subst r. eauto.
Qed.

End Decorated.

(** ** Resolving the client *)

Section CreateHubService.
Context {US : UserService} {HR : HubRemote} {SC : SessionCodec}.
Implicit Types (w : World) (self : Account.t) (hs : HubService.t).

Lemma on_disk_path_exists p w :
  on_disk (path_exists p) w = (Returned (bool_decide (is_Some (disk w !! p))), w).
Proof. rewrite on_disk_run, path_exists_run. simpl. by rewrite set_disk_same. Qed.

Lemma on_disk_read_session file w :
  on_disk (read_session file) w = ((read_session file (disk w)).1, w).
Proof. by rewrite on_disk_run, read_session_state, set_disk_same. Qed.

(** With no credential, the outcome is decided by the session file alone, and
    nothing changes: no file, a directory in its place, a file that parses or
    one that does not. *)
Lemma create_hub_service_stored self w :
  Account._create_hub_service self None None None w =
  (match disk w !! session_file (Account._openbb_directory self) with
   | None => Raised session_not_found
   | Some Dir => Raised IsADirectoryError
   | Some (File text) =>
       match session_load text with
       | Returned s => Returned (HubService.init (Some s))
       | Raised e => Raised e
       end
   end, w).
Proof.
  unfold Account._create_hub_service, bind.
  rewrite on_disk_path_exists, is_Some_bool_decide.
  destruct (disk w !! _) as [[|text]|] eqn:Hf; simpl; [| |done].
  - by rewrite on_disk_read_session, (read_session_dir _ _ Hf).
  - rewrite on_disk_read_session, (read_session_file _ _ _ Hf). simpl.
    by destruct (session_load text).
Qed.

(** With a credential, the client connects; the session file is not looked
    at. *)
Lemma create_hub_service_connect self e p t w :
  (e, p, t) ≠ (None, None, None) →
  Account._create_hub_service self e p t w =
  on_net (HubService.connect e p t (HubService.init None)) w.
Proof. by destruct e, p, t. Qed.

(** The client that comes back holds a session, and only the network may
    have changed. *)
Lemma create_hub_service_returned self e p t w hs w' :
  Account._create_hub_service self e p t w = (Returned hs, w') →
  is_Some (HubService.session hs) ∧ ∃ n, w' = set_net n w.
Proof.
  destruct (decide ((e, p, t) = (None, None, None))) as [[= -> -> ->]|Hne].
  - rewrite create_hub_service_stored. intros [= Hr <-].
    split; [|exists (net w); by rewrite set_net_same].
    repeat case_match; simplify_eq; eauto.
  - rewrite create_hub_service_connect by done. unfold on_net. intros H. inv_run.
    eauto using connect_returned.
Qed.

Lemma create_hub_service_raised self e p t w c w' :
  Account._create_hub_service self e p t w = (Raised c, w') → ∃ n, w' = set_net n w.
Proof.
  destruct (decide ((e, p, t) = (None, None, None))) as [[= -> -> ->]|Hne].
  - rewrite create_hub_service_stored. intros [= Hr <-].
    exists (net w); by rewrite set_net_same.
  - rewrite create_hub_service_connect by done. unfold on_net. intros H. inv_run. eauto.
Qed.

End CreateHubService.

(** ** [login] *)

Section Login.
Context {US : UserService} {HR : HubRemote} {SC : SessionCodec}.
Implicit Types (w : World) (self : Account.t) (hs : HubService.t) (s : HubSession).

(** What a [login] that returned has done: resolved a client holding a
    session [s], pulled a document [doc] with it (the last call on the wire),
    installed the merge of that document as the current settings, and, when
    asked to remember, left the JSON form of [s] in the session file. *)
Lemma login_body_returned self e p t rm rs w v w' :
  Account.login_body self e p t rm rs w = (Returned v, w') →
  ∃ hs s doc n1,
    Account._create_hub_service self e p t w = (Returned hs, set_net n1 w) ∧
    HubService.session hs = Some s ∧
    pull_settings s (remote n1) = (Returned doc, remote (net w')) ∧
    wire (net w') = wire n1 ++ [RpcPull s] ∧
    user_settings w' = update_default (set_hub_session (Some s) doc) (store w) ∧
    v = (if rs then Some (user_settings w') else None) ∧
    (if rm
     then disk w' !! session_file (Account._openbb_directory self)
          = Some (File (session_dump s))
     else disk w' = disk w).
Proof.
  unfold Account.login_body, Account.return_settings_if. intros H.
  apply bind_returned_inv in H as (hs & w1 & Hc & H).
  destruct (create_hub_service_returned _ _ _ _ _ _ _ Hc) as [_ [n1 ->]].
  unfold on_disk, on_net in H. inv_run.
  match goal with H : HubService.pull _ _ = _ |- _ =>
    apply pull_returned in H as (s & doc & Hs & -> & Hpull & Hwire) end.
  exists hs, s, doc, n1.
  destruct rm, rs; inv_run;
    try match goal with H : save_session _ _ _ = _ |- _ =>
      apply save_session_returned in H as (s' & Hs' & Hfile & _) end;
    simpl in *; split_and!; try done; congruence.
Qed.

(** C2. A [login] that returned has resolved a client [hs] holding a session
    [s], and the hub, in the state [n1] that resolving the client left it in,
    answered the pull made with [s] by the document [doc]; the current
    settings are the merge of that very document over the defaults: their
    session is [s] and their identity is the one the hub sent, not the one the
    process had before. The pull is the last call on the wire. *)
Theorem login_installs_remote `{!UserServiceLaws US} self e p t rm rs w v w' :
  Account.login self e p t rm rs w = (Returned v, w') →
  ∃ hs s doc n1,
    Account._create_hub_service self e p t w = (Returned hs, set_net n1 w) ∧
    HubService.session hs = Some s ∧
    pull_settings s (remote n1) = (Returned doc, remote (net w')) ∧
    user_settings w' = update_default (set_hub_session (Some s) doc) (store w) ∧
    session_of (user_settings w') = Some s ∧
    id (user_settings w') = id doc ∧
    last (wire (net w')) = Some (RpcPull s) ∧
    v = (if rs then Some (user_settings w') else None).
Proof.
  intros (w1 & Hb & ->)%(dispatch_returned self (ReqLogin e p t rm rs)).
  apply login_body_returned in Hb as (hs & s & doc & n1 & Hc & Hs & Hp & Hw & Hus & -> & _).
  exists hs, s, doc, n1. autorewrite with action. rewrite Hus at 2 3.
  rewrite update_default_session, update_default_id, Hw, last_snoc. done.
Qed.

(** C10. With no credential and no session file, [login] fails with "Session
    not found." and changes nothing but the log. *)
Theorem login_without_session_file self rm rs w :
  disk w !! session_file (Account._openbb_directory self) = None →
  Account.login self None None None rm rs w =
  (Raised (OpenBBErrorFrom session_not_found),
   logged Login (Some session_not_found) w).
Proof.
  intros Hf. unfold Account.login. rewrite log_account_command_run.
  unfold Account.login_body, bind. by rewrite create_hub_service_stored, Hf.
Qed.

(** What resolving the client can raise. *)
Lemma create_hub_service_raises `{!SessionCodecLaws SC} self e p t :
  raises (λ c, c = session_not_found ∨ os_error c ∨ corrupt_session c ∨ hub_failure c)
    (Account._create_hub_service self e p t).
Proof.
  intros w c w'. destruct (decide ((e, p, t) = (None, None, None))) as [[= -> -> ->]|Hne].
  - rewrite create_hub_service_stored. intros [= Hr _]. revert Hr.
    destruct (disk w !! _) as [[|text]|]; [naive_solver| |naive_solver].
    destruct (session_load text) eqn:Hl; [done|]. intros [= ->].
    right; right; left. by eapply load_raises.
  - rewrite create_hub_service_connect by done. unfold on_net. intros H. inv_run.
    do 3 right. by eapply connect_raises.
Qed.

(** A [login] that raises either failed before it installed anything (the
    settings and the disk are as before), or had installed the pulled
    settings and failed on the disk while remembering the session, which
    happens on a disk that is not ready for the session file only. *)
Lemma login_body_raised `{!SessionCodecLaws SC} self e p t rm rs w c w' :
  Account.login_body self e p t rm rs w = (Raised c, w') →
  c ≠ not_connected ∧
  ((user_settings w' = user_settings w ∧ disk w' = disk w) ∨
   (rm = true ∧ os_error c ∧
    session_dir_ready (Account._openbb_directory self) (disk w) = false ∧
    ∃ s doc, user_settings w' = update_default (set_hub_session (Some s) doc) (store w))).
Proof.
  unfold Account.login_body, Account.return_settings_if. intros H.
  apply bind_raised_inv in H as [Hc|(hs & w1 & Hc & H)].
  { destruct (create_hub_service_raised _ _ _ _ _ _ _ Hc) as [n ->].
    apply create_hub_service_raises in Hc. split; [|by left].
    intros ->. destruct Hc as [|[|[[|[|]]|]]]; done. }
  destruct (create_hub_service_returned _ _ _ _ _ _ _ Hc) as [_ [n1 ->]].
  unfold on_net, on_disk in H. apply bind_raised_inv in H as [H|(us & w2 & Hp & H)].
  { inv_run. apply pull_raises in H. split; [by intros ->|by left]. }
  apply zoom_returned_inv in Hp as (n2 & Hp & ->).
  apply pull_returned in Hp as (s & doc & Hs & -> & _).
  destruct rm, rs; inv_run;
    match goal with H : save_session _ _ _ = _ |- _ =>
      rewrite Hs in H; pose proof (save_session_some_raises _ _ _ _ _ H) as Hos;
      apply (f_equal fst) in H; simpl in H
    end;
    (split; [by intros ->|]); right; split_and!; simpl; eauto;
    apply not_true_is_false; intros Hr%(save_session_ready _ s); congruence.
Qed.

(** C8. A [login] that fails leaves the current settings and the disk as
    they were, except when it was asked to remember the session on a disk
    that is not ready for the session file: it then fails on the disk with
    the pulled settings already installed.  It never fails with "Not
    connected to hub.": the test of line 129 cannot be true after a [pull]
    that returned. *)
Theorem login_failure `{!SessionCodecLaws SC} self e p t rm rs w c w' :
  Account.login self e p t rm rs w = (Raised c, w') →
  c ≠ OpenBBErrorFrom not_connected ∧
  ((user_settings w' = user_settings w ∧ disk w' = disk w) ∨
   (rm = true ∧
    session_dir_ready (Account._openbb_directory self) (disk w) = false ∧
    ∃ s doc, user_settings w' = update_default (set_hub_session (Some s) doc) (store w))).
Proof.
  intros (cause & w1 & -> & Hb & ->)%(dispatch_raised self (ReqLogin e p t rm rs)).
  apply login_body_raised in Hb as [Hne Hb]. split; [congruence|].
  destruct Hb as [[? ?]|(? & _ & ? & ?)]; [left|right]; eauto.
Qed.

(** An error of the decoding of the session file is none of the errors the
    hub, the disk or the commands themselves raise. *)
Lemma corrupt_session_only c :
  corrupt_session c →
  ¬ hub_failure c ∧ ¬ os_error c ∧ c ≠ not_connected ∧ c ≠ session_not_found.
Proof. intros [-> | [-> | ->]]; split_and!; first [done | by intros []]. Qed.

(** With no credential, on a session file whose text does not load, [login]
    fails with what the loading raised and changes nothing but the log. *)
Lemma login_stored_raises self rm rs w text c :
  disk w !! session_file (Account._openbb_directory self) = Some (File text) →
  session_load text = Raised c →
  Account.login self None None None rm rs w =
  (Raised (OpenBBErrorFrom c), logged Login (Some c) w).
Proof.
  intros Hf Hl. unfold Account.login. rewrite log_account_command_run.
  unfold Account.login_body, bind. by rewrite create_hub_service_stored, Hf, Hl.
Qed.

(** The function of [login] raises an error of the decoding only when it
    was given no credential and the session file is there with a text that
    does not load. *)
Lemma login_body_raised_corrupt `{!SessionCodecLaws SC} self e p t rm rs w c w' :
  Account.login_body self e p t rm rs w = (Raised c, w') → corrupt_session c →
  (e, p, t) = (None, None, None) ∧
  ∃ text, disk w !! session_file (Account._openbb_directory self) = Some (File text) ∧
          session_load text = Raised c.
Proof.
  intros H (Hh & Ho & Hn & Hf)%corrupt_session_only.
  unfold Account.login_body, Account.return_settings_if in H.
  apply bind_raised_inv in H as [Hc|(hs & w1 & Hc & H)].
  - destruct (decide ((e, p, t) = (None, None, None))) as [[= -> -> ->]|Hne].
    + split; [done|]. rewrite create_hub_service_stored in Hc.
      destruct (disk w !! _) as [[|text]|]; [naive_solver| |naive_solver].
      exists text. split; [done|]. destruct (session_load text); naive_solver.
    + rewrite create_hub_service_connect in Hc by done. unfold on_net in Hc. inv_run.
      destruct Hh. by eapply connect_raises.
  - unfold on_net, on_disk in H. apply bind_raised_inv in H as [H|(us & w2 & _ & H)].
    { inv_run. destruct Hh. by eapply pull_raises. }
    destruct rm, rs; inv_run;
      match goal with H : save_session _ _ _ = _ |- _ =>
        apply save_session_raises in H as [?| ->]; done end.
Qed.

(** The same of the decorated command. *)
Lemma login_raised_corrupt `{!SessionCodecLaws SC} self e p t rm rs w c :
  corrupt_session c →
  (Account.login self e p t rm rs w).1 = Raised (OpenBBErrorFrom c) →
  (e, p, t) = (None, None, None) ∧
  ∃ text, disk w !! session_file (Account._openbb_directory self) = Some (File text) ∧
          session_load text = Raised c.
Proof.
  intros Hc. destruct (Account.login self e p t rm rs w) as [r w'] eqn:Hl. simpl. intros ->.
  apply (dispatch_raised self (ReqLogin e p t rm rs)) in Hl
    as (cause & w1 & [= <-] & Hb & _).
  by eapply login_body_raised_corrupt.
Qed.

(** On a disk that is ready for the session file, a [login] leaves the file
    absent or with a text that loads, if it found it so. *)
Lemma login_keeps_loadable `{!SessionCodecLaws SC} self e p t rm rs w :
  session_dir_ready (Account._openbb_directory self) (disk w) = true →
  (∀ text, disk w !! session_file (Account._openbb_directory self) = Some (File text) →
           is_Some (returned (session_load text))) →
  ∀ text, disk (Account.login self e p t rm rs w).2
            !! session_file (Account._openbb_directory self) = Some (File text) →
          is_Some (returned (session_load text)).
Proof.
  intros Hr Hw text. destruct (Account.login self e p t rm rs w) as [[v|c] w'] eqn:Hl.
  - apply (dispatch_returned self (ReqLogin e p t rm rs)) in Hl as (w1 & Hb & ->).
    apply login_body_returned in Hb as (hs & s & doc & n1 & _ & _ & _ & _ & _ & _ & Hf).
    cbn [snd]. autorewrite with action. destruct rm; [|rewrite Hf; apply Hw].
    rewrite Hf. intros [= <-]. by rewrite load_dump.
  - apply (dispatch_raised self (ReqLogin e p t rm rs)) in Hl as (cause & w1 & _ & Hb & ->).
    apply login_body_raised in Hb as [_ [[_ Hd]|(_ & _ & ? & _)]]; [|congruence].
    cbn [snd]. autorewrite with action. rewrite Hd. apply Hw.
Qed.

(** C21. Where a decoding error comes from.  A [login] fails with an error
    of the decoding of the session file ([JSONDecodeError], [ValidationError]
    or [TypeError], inside the [OpenBBError] of the decorator) exactly when it
    was given no credential and the session file is there with a text that
    does not load; it has then made no call and changed nothing but the log.
    With a credential the file is never read. *)
Theorem login_corrupt_session `{!SessionCodecLaws SC} self e p t rm rs w c :
  corrupt_session c →
  let stored text :=
    disk w !! session_file (Account._openbb_directory self) = Some (File text) ∧
    session_load text = Raised c in
  ((Account.login self e p t rm rs w).1 = Raised (OpenBBErrorFrom c) ↔
   (e, p, t) = (None, None, None) ∧ ∃ text, stored text) ∧
  ((Account.login self e p t rm rs w).1 = Raised (OpenBBErrorFrom c) →
   (Account.login self e p t rm rs w).2 = logged Login (Some c) w).
Proof.
  intros Hc stored. pose proof (login_raised_corrupt self e p t rm rs w c Hc) as Honly.
  split; [split; [done|]|]; intros H; [|apply Honly in H];
    destruct H as ([= -> -> ->] & text & Hf & Hl);
    by rewrite (login_stored_raises _ _ _ _ text c).
Qed.

End Login.

(** ** [refresh] *)

Section Refresh.
Context {US : UserService} {HR : HubRemote} {SC : SessionCodec}.
Implicit Types (w : World) (self : Account.t) (s : HubSession).

Lemma on_net_pull s w :
  on_net (HubService.pull (HubService.init (Some s))) w =
  match pull_settings s (remote (net w)) with
  | (Returned doc, h) =>
      (Returned (set_hub_session (Some s) doc), set_net (after_call (RpcPull s) h (net w)) w)
  | (Raised k, h) => (Raised (HubError k), set_net (after_call (RpcPull s) h (net w)) w)
  end.
Proof.
  rewrite on_net_run. unfold HubService.pull, bind, call. simpl.
  by destruct (pull_settings s (remote (net w))) as [[doc|k] h].
Qed.

(** Without a session, [refresh] installs the default settings. *)
Lemma refresh_body_anonymous self rs w :
  session_of (user_settings w) = None →
  Account.refresh_body self rs w =
  (Returned (if rs then Some (read_default_user_settings (store w)) else None),
   set_user_settings (read_default_user_settings (store w)) w).
Proof.
  intros Hs. unfold Account.refresh_body, Account.return_settings_if, bind.
  rewrite run_gets, Hs. by destruct rs.
Qed.

(** With a session [s], [refresh] pulls with it; the merged document is
    installed under the identity the settings had, or the failure of the
    hub comes back and nothing is installed. *)
Lemma refresh_body_connected self rs w s :
  session_of (user_settings w) = Some s →
  Account.refresh_body self rs w =
  match pull_settings s (remote (net w)) with
  | (Returned doc, h) =>
      let us := set_id (id (user_settings w))
                  (update_default (set_hub_session (Some s) doc) (store w)) in
      (Returned (if rs then Some us else None),
       set_user_settings us (set_net (after_call (RpcPull s) h (net w)) w))
  | (Raised k, h) =>
      (Raised (HubError k), set_net (after_call (RpcPull s) h (net w)) w)
  end.
Proof.
  intros Hs. unfold Account.refresh_body, Account.return_settings_if.
  unfold bind at 1. rewrite run_gets, Hs. unfold bind at 1 2. rewrite on_net_pull.
  destruct (pull_settings s (remote (net w))) as [[doc|k] h]; [|done].
  by destruct rs.
Qed.

(** C1. A [refresh] of a connected session that returned has pulled once
    with the current session, and the settings it installed are the merged
    document under the identity the settings had before: the pull changes the
    contents, not who the session is. *)
Theorem refresh_keeps_identity self rs w s v w' :
  session_of (user_settings w) = Some s →
  Account.refresh self rs w = (Returned v, w') →
  ∃ doc,
    pull_settings s (remote (net w)) = (Returned doc, remote (net w')) ∧
    wire (net w') = wire (net w) ++ [RpcPull s] ∧
    id (user_settings w') = id (user_settings w) ∧
    same_but_id (user_settings w') (update_default (set_hub_session (Some s) doc) (store w)) ∧
    v = (if rs then Some (user_settings w') else None).
Proof.
  intros Hs (w1 & Hb & ->)%(dispatch_returned self (ReqRefresh rs)). revert Hb. simpl.
  rewrite (refresh_body_connected _ _ _ _ Hs).
  destruct (pull_settings s (remote (net w))) as [[doc|k] h]; [|done].
  intros [= <- <-]. exists doc. split_and!; [done..|apply same_but_id_set_id|done].
Qed.

(** C18. A [refresh] that fails leaves the current settings, the disk and the
    settings store as they were: the pulled settings replace the current ones
    entirely or not at all. *)
Theorem refresh_failure self rs w c w' :
  Account.refresh self rs w = (Raised c, w') →
  user_settings w' = user_settings w ∧ disk w' = disk w ∧ store w' = store w ∧
  ∃ s k, session_of (user_settings w) = Some s ∧ c = OpenBBErrorFrom (HubError k) ∧
         wire (net w') = wire (net w) ++ [RpcPull s].
Proof.
  intros (cause & w1 & -> & Hb & ->)%(dispatch_raised self (ReqRefresh rs)).
  revert Hb. simpl. destruct (session_of (user_settings w)) as [s|] eqn:Hs.
  - rewrite (refresh_body_connected _ _ _ _ Hs).
    destruct (pull_settings s (remote (net w))) as [[doc|k] h]; [done|].
    intros [= <- <-]. split_and!; try done. by exists s, k.
  - by rewrite (refresh_body_anonymous _ _ _ Hs).
Qed.

End Refresh.

(** ** [save] *)

Section Save.
Context {US : UserService} {HR : HubRemote} {SC : SessionCodec}.
Implicit Types (w : World) (self : Account.t) (s : HubSession).

Lemma on_net_push s us w :
  on_net (HubService.push (HubService.init (Some s)) us) w =
  match push_settings s us (remote (net w)) with
  | (Returned u, h) => (Returned u, set_net (after_call (RpcPush s us) h (net w)) w)
  | (Raised k, h) => (Raised (HubError k), set_net (after_call (RpcPush s us) h (net w)) w)
  end.
Proof.
  rewrite on_net_run. unfold HubService.push, call. simpl.
  by destruct (push_settings s us (remote (net w))) as [[u|k] h].
Qed.

(** Without a session, [save] writes the current settings to the settings
    store and cannot fail. *)
Lemma save_body_anonymous self rs w :
  session_of (user_settings w) = None →
  Account.save_body self rs w =
  (Returned (if rs then Some (user_settings w) else None),
   set_store (write_default_user_settings (user_settings w) (store w)) w).
Proof.
  intros Hs. unfold Account.save_body, Account.return_settings_if, bind.
  rewrite run_gets, Hs. by destruct rs.
Qed.

(** With a session, [save] pushes the current settings with it. *)
Lemma save_body_connected self rs w s :
  session_of (user_settings w) = Some s →
  Account.save_body self rs w =
  match push_settings s (user_settings w) (remote (net w)) with
  | (Returned _, h) =>
      (Returned (if rs then Some (user_settings w) else None),
       set_net (after_call (RpcPush s (user_settings w)) h (net w)) w)
  | (Raised k, h) =>
      (Raised (HubError k), set_net (after_call (RpcPush s (user_settings w)) h (net w)) w)
  end.
Proof.
  intros Hs. unfold Account.save_body, Account.return_settings_if.
  unfold bind at 1. rewrite run_gets, Hs. unfold bind at 1 2. rewrite run_gets, on_net_push.
  destruct (push_settings s (user_settings w) (remote (net w))) as [[u|k] h]; [|done].
  by destruct rs.
Qed.

(** C19. [save] never changes the current settings nor the disk, whether it
    returns or fails; connected, it makes exactly one call, a push of the
    current settings under the current session, and leaves the settings
    store alone. *)
Theorem save_connected self rs w s :
  session_of (user_settings w) = Some s →
  let w' := (Account.save self rs w).2 in
  user_settings w' = user_settings w ∧ disk w' = disk w ∧ store w' = store w ∧
  wire (net w') = wire (net w) ++ [RpcPush s (user_settings w)].
Proof.
  intros Hs. unfold Account.save. rewrite log_account_command_run. simpl.
  rewrite (save_body_connected _ _ _ _ Hs).
  by destruct (push_settings s (user_settings w) (remote (net w))) as [[u|k] h].
Qed.

End Save.

(** ** Without a session *)

Section Anonymous.
Context {US : UserService} {HR : HubRemote} {SC : SessionCodec}.
Implicit Types (w : World) (self : Account.t).

(** C6. Without a session, [save] and [refresh] return and never reach the
    hub: the network (the remote state and the calls on the wire) is as
    before.  [save] stores the current settings and keeps them; [refresh]
    replaces them by the default settings. *)
Theorem anonymous_stays_local self rs w :
  session_of (user_settings w) = None →
  Account.save self rs w =
    (Returned (if rs then Some (user_settings w) else None),
     logged Save None
       (set_store (write_default_user_settings (user_settings w) (store w)) w)) ∧
  Account.refresh self rs w =
    (Returned (if rs then Some (read_default_user_settings (store w)) else None),
     logged Refresh None
       (set_user_settings (read_default_user_settings (store w)) w)) ∧
  net (Account.save self rs w).2 = net w ∧
  net (Account.refresh self rs w).2 = net w.
Proof.
  intros Hs. unfold Account.save, Account.refresh. rewrite !log_account_command_run.
  by rewrite (save_body_anonymous _ _ _ Hs), (refresh_body_anonymous _ _ _ Hs).
Qed.

End Anonymous.

(** ** [logout] *)

Section Logout.
Context {US : UserService} {HR : HubRemote} {SC : SessionCodec}.
Implicit Types (w : World) (self : Account.t) (s : HubSession).

Lemma on_net_disconnect s w :
  on_net (HubService.disconnect (HubService.init (Some s))) w =
  (Returned (HubService.init None), disconnected s w).
Proof.
  rewrite on_net_run. unfold HubService.disconnect, bind, try_except, call, disconnected.
  simpl. by destruct (invalidate s (remote (net w))) as [[[]|k] h].
Qed.

(** With a session [s], [logout] disconnects, then looks at the session file:
    a directory in its place stops the command there; otherwise the file is
    removed if present and the default settings are installed. *)
Lemma logout_body_connected self rs w s :
  session_of (user_settings w) = Some s →
  Account.logout_body self rs w =
  let d := read_default_user_settings (store w) in
  let file := session_file (Account._openbb_directory self) in
  match disk w !! file with
  | Some Dir => (Raised IsADirectoryError, disconnected s w)
  | Some (File _) =>
      (Returned (if rs then Some d else None),
       set_user_settings d (set_disk (delete file (disk w)) (disconnected s w)))
  | None =>
      (Returned (if rs then Some d else None), set_user_settings d (disconnected s w))
  end.
Proof.
  intros Hs. unfold Account.logout_body, Account.return_settings_if.
  unfold bind at 1. rewrite run_gets, Hs. unfold bind at 1. rewrite on_net_disconnect.
  unfold bind at 1. rewrite on_disk_run. simpl.
  destruct (disk w !! _) as [[|text]|] eqn:Hf.
  - by rewrite (remove_session_dir _ _ Hf).
  - rewrite (remove_session_file _ _ _ Hf). simpl. by destruct rs.
  - rewrite (remove_session_absent _ _ Hf). simpl. by destruct rs.
Qed.

(** Without a session, [logout] stops at its first test. *)
Lemma logout_body_anonymous self rs w :
  session_of (user_settings w) = None →
  Account.logout_body self rs w = (Raised not_connected, w).
Proof. intros Hs. unfold Account.logout_body, bind. by rewrite run_gets, Hs. Qed.

(** A [logout] that returns ends without a session. *)
Lemma logout_returned_anonymous `{!UserServiceLaws US} self rs w v w' :
  Account.logout self rs w = (Returned v, w') → session_of (user_settings w') = None.
Proof.
  intros (w1 & Hb & ->)%(dispatch_returned self (ReqLogout rs)). revert Hb. simpl.
  destruct (session_of (user_settings w)) as [s|] eqn:Hs.
  - rewrite (logout_body_connected _ _ _ _ Hs). simpl.
    destruct (disk w !! _) as [[|text]|]; [done|..]; intros [= <- <-];
      apply read_default_anonymous.
  - by rewrite (logout_body_anonymous _ _ _ Hs).
Qed.

(** C16. Without a session, [logout] fails with "Not connected to hub." and
    changes nothing but the log; in particular no call is made. *)
Theorem logout_anonymous self rs w :
  session_of (user_settings w) = None →
  Account.logout self rs w =
  (Raised (OpenBBErrorFrom not_connected),
   logged Logout (Some not_connected) w).
Proof.
  intros Hs. unfold Account.logout.
  by rewrite log_account_command_run, (logout_body_anonymous _ _ _ Hs).
Qed.

(** C3. A [logout] that returned has made one call, the disconnection of
    the current session; the session file is absent, whether it existed or
    not; every other path of the disk is as before; the current settings are
    the default ones, which hold no session. *)
Theorem logout_returned `{!UserServiceLaws US} self rs w s v w' :
  session_of (user_settings w) = Some s →
  Account.logout self rs w = (Returned v, w') →
  wire (net w') = wire (net w) ++ [RpcDisconnect s] ∧
  disk w' !! session_file (Account._openbb_directory self) = None ∧
  (∀ p, p ≠ session_file (Account._openbb_directory self) → disk w' !! p = disk w !! p) ∧
  user_settings w' = read_default_user_settings (store w) ∧
  anonymous (user_settings w') ∧
  v = (if rs then Some (user_settings w') else None).
Proof.
  intros Hs (w1 & Hb & ->)%(dispatch_returned self (ReqLogout rs)). revert Hb. simpl.
  rewrite (logout_body_connected _ _ _ _ Hs). simpl.
  destruct (disk w !! _) as [[|text]|] eqn:Hf; [done|..]; intros [= <- <-]; simpl.
  - split_and!; try done; [apply lookup_delete_eq| |apply read_default_anonymous].
    intros p Hp. by rewrite lookup_delete_ne.
  - split_and!; try done. apply read_default_anonymous.
Qed.

(** C9. After a [logout] that returned, a second [logout] fails with "Not
    connected to hub." and makes no call. *)
Theorem logout_twice `{!UserServiceLaws US} self rs rs' w v w' :
  Account.logout self rs w = (Returned v, w') →
  Account.logout self rs' w' =
  (Raised (OpenBBErrorFrom not_connected),
   logged Logout (Some not_connected) w').
Proof.
  intros Ha%logout_returned_anonymous. unfold Account.logout.
  by rewrite log_account_command_run, (logout_body_anonymous _ _ _ Ha).
Qed.

(** C20. The one failure of a connected [logout]: a directory stands where
    the session file should be.  The session has then been disconnected on
    the remote side, and the current settings still hold it. *)
Theorem logout_failure self rs w s c w' :
  session_of (user_settings w) = Some s →
  Account.logout self rs w = (Raised c, w') →
  c = OpenBBErrorFrom IsADirectoryError ∧
  disk w !! session_file (Account._openbb_directory self) = Some Dir ∧
  wire (net w') = wire (net w) ++ [RpcDisconnect s] ∧
  session_of (user_settings w') = Some s ∧ disk w' = disk w.
Proof.
  intros Hs (cause & w1 & -> & Hb & ->)%(dispatch_raised self (ReqLogout rs)).
  revert Hb. simpl. rewrite (logout_body_connected _ _ _ _ Hs). simpl.
  destruct (disk w !! _) as [[|text]|] eqn:Hf; [|done..]. by intros [= <- <-].
Qed.

End Logout.

(** ** Remembered sessions *)

Section Remember.
Context {US : UserService} {HR : HubRemote} {SC : SessionCodec}.
Implicit Types (w : World) (self : Account.t) (s : HubSession).

(** [login] with no credential, on a session file that holds the session
    [s]: one pull with [s] and no other call. *)
Lemma login_body_stored self rs w text s :
  disk w !! session_file (Account._openbb_directory self) = Some (File text) →
  session_load text = Returned s →
  Account.login_body self None None None false rs w =
  match pull_settings s (remote (net w)) with
  | (Returned doc, h) =>
      let us := update_default (set_hub_session (Some s) doc) (store w) in
      (Returned (if rs then Some us else None),
       set_user_settings us (set_net (after_call (RpcPull s) h (net w)) w))
  | (Raised k, h) => (Raised (HubError k), set_net (after_call (RpcPull s) h (net w)) w)
  end.
Proof.
  intros Hf Hl. unfold Account.login_body, Account.return_settings_if.
  unfold bind at 1. rewrite create_hub_service_stored, Hf, Hl.
  unfold bind at 1 2. rewrite on_net_pull.
  destruct (pull_settings s (remote (net w))) as [[doc|k] h]; [|done].
  by destruct rs.
Qed.

(** C5. Remember-me round trip.  After a [login] that was asked to
    remember and returned, take any later world with the same disk (another
    process: other settings, another state of the hub).  There a [login] with
    no credential resolves its client from the file, with the very session
    the first [login] obtained, and makes a single call, a pull with that
    session: no authentication is sent.  If the hub answers, the command
    returns with that session installed. *)
Theorem remember_me_round_trip `{!SessionCodecLaws SC, !UserServiceLaws US}
    self e p t rs w v w1 :
  Account.login self e p t true rs w = (Returned v, w1) →
  ∃ s, session_of (user_settings w1) = Some s ∧
    ∀ w2 rs2, disk w2 = disk w1 →
      let r := Account.login self None None None false rs2 w2 in
      wire (net r.2) = wire (net w2) ++ [RpcPull s] ∧
      ∀ doc h, pull_settings s (remote (net w2)) = (Returned doc, h) →
        session_of (user_settings r.2) = Some s ∧
        r.1 = Returned (if rs2 then Some (user_settings r.2) else None).
Proof.
  intros (w0 & Hb & ->)%(dispatch_returned self (ReqLogin e p t true rs)).
  apply login_body_returned in Hb as (hs & s & doc & n1 & _ & _ & _ & _ & Hus & _ & Hf).
  exists s. split.
  { simpl. rewrite Hus. apply update_default_session. }
  intros w2 rs2 Hd. simpl in Hd. rewrite <-Hd in Hf. unfold Account.login.
  rewrite log_account_command_run. simpl.
  rewrite (login_body_stored _ _ _ _ s Hf) by apply load_dump.
  split.
  - by destruct (pull_settings s (remote (net w2))) as [[d|k] h].
  - intros d h ->. simpl. split; [apply update_default_session|done].
Qed.

End Remember.

(** ** Commands that return *)

Section Returns.
Context {US : UserService} {HR : HubRemote} {SC : SessionCodec}.
Implicit Types (w : World) (self : Account.t) (s : HubSession).

Lemma on_net_connect e p t w s h :
  authenticate (ByCredentials e p) (remote (net w)) = (Returned s, h) →
  on_net (HubService.connect (Some e) (Some p) t (HubService.init None)) w =
  (Returned (HubService.init (Some s)),
   set_net (after_call (RpcAuthenticate (ByCredentials e p)) h (net w)) w).
Proof.
  intros Ha. rewrite on_net_run. unfold HubService.connect, bind, call. by rewrite Ha.
Qed.

(** The function of [login], by credentials, when the hub accepts them and
    answers the pull: the merged settings are installed, then the session is
    saved if that was asked for. *)
Lemma login_body_accepted self e p t rm rs w s h1 doc h2 :
  authenticate (ByCredentials e p) (remote (net w)) = (Returned s, h1) →
  pull_settings s h1 = (Returned doc, h2) →
  let n2 := after_call (RpcPull s) h2
              (after_call (RpcAuthenticate (ByCredentials e p)) h1 (net w)) in
  let w2 := set_user_settings (update_default (set_hub_session (Some s) doc) (store w))
              (set_net n2 w) in
  Account.login_body self (Some e) (Some p) t rm rs w =
  if rm
  then (let* _ := on_disk (save_session (Account._openbb_directory self) (Some s)) in
        Account.return_settings_if rs)%act w2
  else Account.return_settings_if rs w2.
Proof.
  intros Ha Hp. simpl. unfold Account.login_body.
  unfold bind at 1. rewrite create_hub_service_connect, (on_net_connect _ _ _ _ _ _ Ha) by done.
  unfold bind at 1. rewrite on_net_pull. simpl. rewrite Hp.
  unfold bind at 1 2. rewrite run_gets, run_modify. simpl. by destruct rm.
Qed.

(** C14. [login] returns.  When the hub accepts the credentials and answers
    the pull, and the session is not to be remembered or the disk is ready
    for the session file, [login] returns: two calls were made, the
    authentication and the pull; the merged document is installed; the
    session file, if asked for, holds the session. *)
Theorem login_returns self e p t rm rs w s h1 doc h2 :
  authenticate (ByCredentials e p) (remote (net w)) = (Returned s, h1) →
  pull_settings s h1 = (Returned doc, h2) →
  rm = false ∨ session_dir_ready (Account._openbb_directory self) (disk w) = true →
  let us := update_default (set_hub_session (Some s) doc) (store w) in
  let r := Account.login self (Some e) (Some p) t rm rs w in
  r.1 = Returned (if rs then Some us else None) ∧
  user_settings r.2 = us ∧
  wire (net r.2) = wire (net w) ++ [RpcAuthenticate (ByCredentials e p); RpcPull s] ∧
  remote (net r.2) = h2 ∧
  (if rm
   then disk r.2 !! session_file (Account._openbb_directory self)
        = Some (File (session_dump s))
   else disk r.2 = disk w).
Proof.
  intros Ha Hp Hr. simpl. unfold Account.login. rewrite log_account_command_run.
  rewrite (login_body_accepted _ _ _ _ _ _ _ _ _ _ _ Ha Hp). autorewrite with action.
  destruct rm; [destruct Hr as [|Hr]; [done|]|].
  - unfold bind. rewrite on_disk_run. simpl.
    pose proof (save_session_ready _ s _ Hr) as Hs.
    destruct (save_session _ _ (disk w)) as [[[]|c] σ] eqn:Hsave; [|done].
    apply save_session_returned in Hsave as (s' & [= <-] & Hf & _).
    destruct rs; simpl; by rewrite <-app_assoc.
  - destruct rs; simpl; by rewrite <-app_assoc.
Qed.

(** C40. [logout] returns.  With a session, and unless a directory stands in
    the place of the session file, [logout] returns whatever the hub answers
    to the disconnection. *)
Theorem logout_returns self rs w s :
  session_of (user_settings w) = Some s →
  disk w !! session_file (Account._openbb_directory self) ≠ Some Dir →
  (Account.logout self rs w).1 =
  Returned (if rs then Some (read_default_user_settings (store w)) else None).
Proof.
  intros Hs Hf. unfold Account.logout.
  rewrite log_account_command_run, (logout_body_connected _ _ _ _ Hs). simpl.
  by destruct (disk w !! _) as [[|text]|].
Qed.

End Returns.

(** ** Failures *)

Section Failures.
Context {US : UserService} {HR : HubRemote} {SC : SessionCodec}.
Implicit Types (w : World) (self : Account.t) (q : request).

(** A function that raises leaves the current settings as they were, unless
    it is a [login] that was to remember the session on a disk that is not
    ready for it. *)
Lemma body_raised_settings `{!SessionCodecLaws SC} self q w c w' :
  body_of self q w = (Raised c, w') →
  user_settings w' = user_settings w ∨
  (remembers q = true ∧
   session_dir_ready (Account._openbb_directory self) (disk w) = false).
Proof.
  destruct q as [e p t rm rs|rs|rs|rs]; simpl.
  - intros [_ [[? _]|(? & _ & ? & _)]]%login_body_raised; eauto.
  - destruct (session_of (user_settings w)) as [s|] eqn:Hs.
    + rewrite (save_body_connected _ _ _ _ Hs).
      destruct (push_settings _ _ _) as [[u|k] h]; [done|]. intros [= _ <-]. by left.
    + by rewrite (save_body_anonymous _ _ _ Hs).
  - destruct (session_of (user_settings w)) as [s|] eqn:Hs.
    + rewrite (refresh_body_connected _ _ _ _ Hs).
      destruct (pull_settings _ _) as [[doc|k] h]; [done|]. intros [= _ <-]. by left.
    + by rewrite (refresh_body_anonymous _ _ _ Hs).
  - destruct (session_of (user_settings w)) as [s|] eqn:Hs.
    + rewrite (logout_body_connected _ _ _ _ Hs). simpl.
      destruct (disk w !! _) as [[|text]|]; [|done..]. intros [= _ <-]. by left.
    + rewrite (logout_body_anonymous _ _ _ Hs). intros [= _ <-]. by left.
Qed.

(** C7. A command that fails leaves the current settings untouched: the
    failure of a command installs nothing.  The one exception is a [login]
    that was asked to remember the session, on a disk that is not ready for
    the session file (the platform directory is missing together with its
    parent, or is a file, or a directory stands in the place of the session
    file). *)
Theorem failed_command_keeps_settings `{!SessionCodecLaws SC} self q w c w' :
  remembers q = false ∨
    session_dir_ready (Account._openbb_directory self) (disk w) = true →
  dispatch self q w = (Raised c, w') →
  user_settings w' = user_settings w.
Proof.
  intros Hq (cause & w1 & -> & Hb & ->)%dispatch_raised. autorewrite with action.
  apply body_raised_settings in Hb as [?|[? ?]]; [done|]. destruct Hq; congruence.
Qed.

End Failures.

(** ** The representation of the object *)

Section Repr.
Context {US : UserService} {HR : HubRemote}.

(** [__repr__] is the documentation string when there is one, and the empty
    string otherwise: it never fails and never shows the state. *)
Lemma repr_doc doc self :
  Account.__repr__ doc self = default "" doc.
Proof. by destruct doc as [[|c d]|]. Qed.

Lemma repr_account self :
  Account.__repr__ Account.__doc__ self =
  String.concat (String (Ascii.ascii_of_nat 10) "")
    ["/account"; "    login"; "    logout"; "    save"; "    refresh"; "    "].
Proof. reflexivity. Qed.

End Repr.

(** ** Remote calls *)

Section Calls.
Context {US : UserService} {HR : HubRemote} {SC : SessionCodec}.
Implicit Types (w : World) (self : Account.t) (q : request).

Lemma sends_on_net {A : Type} (k : nat) (m : action Net exn A) : grows wire k m → sends k (on_net m).
Proof. intros H. by apply (grows_zoom _ wire). Qed.

(** What keeps the network makes no call. *)
Lemma sends_keeps {A : Type} (k : nat) (m : action World exn A) : keeps net m → sends k m.
Proof. intros H. apply grows_keeps. intros w. by rewrite (H w). Qed.

Lemma sends_on_disk {A : Type} (k : nat) (m : action fs exn A) : sends k (on_disk m).
Proof. apply sends_keeps. intros w. by rewrite on_disk_run. Qed.

Lemma create_hub_service_sends self e p t :
  sends 1 (Account._create_hub_service self e p t).
Proof.
  destruct (decide ((e, p, t) = (None, None, None))) as [[= -> -> ->]|Hne].
  - apply sends_keeps. intros w. rewrite create_hub_service_stored.
    by repeat case_match.
  - intros w. rewrite create_hub_service_connect by done.
    apply sends_on_net, connect_grows.
Qed.

(** The end of [login]: the merge, the assignment, the session file and the
    return make no call. *)
Lemma return_settings_sends rs k : sends k (Account.return_settings_if rs).
Proof. apply sends_keeps. by destruct rs. Qed.

(** The statements that keep the network. *)
Ltac no_call :=
  apply sends_keeps, keeps_preserves; intros ?; unfold Account.return_settings_if;
  repeat frame_step.

Lemma body_sends self q : sends (calls_budget q) (body_of self q).
Proof.
  destruct q as [e p t rm rs|rs|rs|rs]; simpl; unfold calls_budget; simpl.
  - apply (grows_bind _ 1 1); [apply create_hub_service_sends|intros hs].
    apply (grows_bind _ 1 0); [apply sends_on_net, pull_grows|intros incoming].
    no_call.
  - apply (grows_bind _ 0 1); [by apply sends_keeps|intros [s|]].
    + apply (grows_bind _ 1 0); [|intros; apply return_settings_sends].
      apply (grows_bind _ 0 1); [by apply sends_keeps|intros us].
      apply sends_on_net, push_grows.
    + no_call.
  - apply (grows_bind _ 0 1); [by apply sends_keeps|intros [s|]].
    + apply (grows_bind _ 1 0); [|intros; apply return_settings_sends].
      apply (grows_bind _ 1 0); [apply sends_on_net, pull_grows|intros incoming].
      no_call.
    + no_call.
  - apply (grows_bind _ 0 1); [by apply sends_keeps|intros [s|]]; [|by apply sends_keeps].
    apply (grows_bind _ 1 0); [apply sends_on_net, disconnect_grows|intros _].
    no_call.
Qed.

(** C23. A bound on the remote calls.  Whatever its arguments and the state
    it runs in, and whether it returns or raises, a command adds at most two
    calls to the wire if it is a [login] and at most one otherwise; the calls
    made before it stay where they were. *)
Theorem dispatch_calls_bound self q w :
  ∃ calls, wire (net (dispatch self q w).2) = wire (net w) ++ calls ∧
           length calls ≤ calls_budget q.
Proof. rewrite dispatch_run. simpl. apply (body_sends self q w). Qed.

End Calls.

(** ** Sequences of commands *)

Section Serve.
Context {US : UserService} {HR : HubRemote} {SC : SessionCodec}.
Implicit Types (w : World) (self : Account.t) (q : request) (qs : list request).

Lemma serve_app self qs1 qs2 w :
  serve self (qs1 ++ qs2) w = serve self qs2 (serve self qs1 w).
Proof. revert w. induction qs1 as [|q qs1 IH]; intros w; simpl; [done|]. apply IH. Qed.

(** Every command keeps a well-formed disk well formed. *)
Lemma dispatch_disk_wf self q : preserves (λ w, fs_wf (disk w)) (dispatch self q).
Proof.
  destruct q; unfold_account;
    repeat first
      [ preserves_step
      | apply (preserves_disk_on_disk fs_wf); intros σ Hσ; eauto with action
      | apply preserves_on_net; by intros
      | apply preserves_modify; by intros ].
Qed.

(** The record of a command is one the decorator writes. *)
Lemma dispatch_record_wf `{!SessionCodecLaws SC} self q w :
  record_wf (Account.log_entry (command_of q) (exc_info (dispatch self q w).1)
               (dispatch self q w).2).
Proof.
  split_and!; [done..|]. simpl. rewrite dispatch_run. simpl.
  destruct (body_of self q w) as [[v|cause] w1] eqn:Hb; simpl; [done|].
  by eapply body_raises_unwrapped.
Qed.

(** C22. Well-formed worlds.  Every command, with whatever arguments and
    whatever its outcome, takes a well-formed world to a well-formed world:
    the disk is still a tree, and the log still holds nothing but records
    whose route names their function, that keep no argument of the call, and
    whose exception is wrapped exactly once. *)
Theorem dispatch_keeps_world_wf `{!SessionCodecLaws SC} self q w :
  world_wf w → world_wf (dispatch self q w).2.
Proof.
  intros [Hd Hl]. split; [by apply dispatch_disk_wf|].
  rewrite dispatch_log. apply Forall_app. split; [done|].
  apply Forall_singleton, dispatch_record_wf.
Qed.

(** C24. Whatever commands are served, in whatever order and with whatever
    outcomes, a well-formed disk stays well formed, the system settings are
    never written, and the log grows by exactly one record per command, whose
    routes are those of the commands in the order they were made. *)
Theorem serve_invariant self qs w :
  fs_wf (disk w) →
  let w' := serve self qs w in
  fs_wf (disk w') ∧
  system_settings w' = system_settings w ∧
  route <$> log w' =
    (route <$> log w) ++ ((λ q, "/account/" +:+ func_name (command_of q)) <$> qs).
Proof.
  revert w. induction qs as [|q qs IH]; intros w Hwf; simpl.
  { by rewrite app_nil_r. }
  destruct (IH (dispatch self q w).2) as (Hwf' & Hss & Hlog).
  { by apply dispatch_disk_wf. }
  split_and!; [done| |].
  - by rewrite Hss, (dispatch_keeps_system_settings self q w).
  - rewrite Hlog, dispatch_log, fmap_app, <-app_assoc. done.
Qed.

End Serve.
