(* ===== verification/Interleave.v ===== *)
(** * Commands in steps, and callers that interleave

    [account.py] has no lock: two callers of the same [Account] object run
    their commands statement by statement against the same settings, the same
    session file and the same hub.  This file cuts each command at its
    statements and runs several of them under a schedule.

    A command in steps is a [prog]: a tree whose nodes are the statements of
    the function (each one an action on the world that runs without
    interruption) and whose leaves are its [return]s and [raise]s.  The module
    [Steps] gives the four commands and [_create_hub_service] in this form,
    with the three fragments on the session file cut at each call on the disk.
    Executed with nothing in between ([exec], [finish]), the steps of a
    command are the command of [Account] ([of_request_agrees],
    [finish_of_request]): the two are written from the same lines, and these
    lemmas keep them in step.  A [thread] is a command on its way; its
    last step is the decorator's ([except] and [finally] of
    [_log_account_command]).  A [schedule] names, turn after turn, the thread
    that makes its next step.

    Three things are shown of schedules: an invariant of all of them
    ([schedule_invariant]), that every call ends once its caller has had ten
    turns ([schedule_fair_finishes]), and what one of them does that no serial
    order does ([refresh_logout_race]).

    The cut is at statements and collaborator calls.  The interpreter can
    switch threads more often than that, so the interleavings here are some
    of the real ones: what is shown to happen under a schedule does happen;
    what is shown of every schedule is shown of these. *)

From stdpp Require Import gmap.
From S2P Require Import Prelude Exn FileSystem Settings Hub SessionStore Account.

Declare Scope prog_scope.
Delimit Scope prog_scope with prog.

(** ** Programs in steps *)

Inductive prog (St E A : Type) : Type :=
| Done (a : A)
| Throw (e : E)
| Atom {X : Type} (m : action St E X) (k : X → prog St E A).

Arguments Done {St E A} a.
Arguments Throw {St E A} e.
Arguments Atom {St E A X} m k.

(** One statement. *)
Definition atom {St E X} (m : action St E X) : prog St E X := Atom m Done.

(** One program after the other. *)
Fixpoint pbind {St E A B} (p : prog St E A) (f : A → prog St E B) : prog St E B :=
  match p with
  | Done a => f a
  | Throw e => Throw e
  | Atom m k => Atom m (λ x, pbind (k x) f)
  end.

Notation "'let*' x := p 'in' q" := (pbind p (λ x, q))
  (at level 10, x name, p at level 100, q at level 200) : prog_scope.
Notation "p ;; q" := (pbind p (λ _, q))
  (at level 100, q at level 200, right associativity) : prog_scope.

(** The steps run one after the other, with nothing in between. *)
Fixpoint exec {St E A} (p : prog St E A) : action St E A :=
  match p with
  | Done a => ret a
  | Throw e => raise e
  | Atom m k => bind m (λ x, exec (k x))
  end.

(** The program is the action, cut in steps. *)
Definition agrees {St E A} (p : prog St E A) (m : action St E A) : Prop :=
  ∀ s, exec p s = m s.

(** No path of the program has more than [n] statements. *)
Fixpoint within {St E A} (n : nat) (p : prog St E A) {struct p} : Prop :=
  match p with
  | Done _ | Throw _ => True
  | Atom m k =>
      match n with
      | 0 => False
      | S n' => ∀ x, within n' (k x)
      end
  end.

(** Every statement of the program has the property [P], and every
    exception it raises by itself the property [Q]. *)
Fixpoint all_atoms {St E A} (P : ∀ X, action St E X → Prop) (Q : E → Prop)
    (p : prog St E A) : Prop :=
  match p with
  | Done _ => True
  | Throw e => Q e
  | Atom m k => P _ m ∧ ∀ x, all_atoms P Q (k x)
  end.

(** ** The commands in steps *)

Module Steps.
Section Steps.
Context {US : UserService} {HR : HubRemote} {SC : SessionCodec}.

(** Lines 126 to 132, one step per call: [mkdir], [open], the test of the
    session, the write. *)
Definition save_session (dir : path) (session : option HubSession) : prog World exn unit :=
  (atom (on_disk (mkdir dir)) ;;
   atom (on_disk (open_w (session_file dir))) ;;
   match session with
   | None => Throw not_connected
   | Some s => atom (on_disk (write (session_file dir) (session_dump s)))
   end)%prog.

(** Lines 216 to 218: the test [exists()] and the [unlink()] are two steps. *)
Definition remove_session (dir : path) : prog World exn unit :=
  (let* present := atom (on_disk (path_exists (session_file dir))) in
   if present then atom (on_disk (unlink (session_file dir))) else Done tt)%prog.

Definition _create_hub_service (self : Account.t) (email password pat : option string) :
    prog World exn HubService.t :=
  match email, password, pat with
  | None, None, None =>
      let file := session_file (Account._openbb_directory self) in
      let* present := atom (on_disk (path_exists file)) in
      if negb present then Throw session_not_found
      else
        let* hub_session := atom (on_disk (read_session file)) in
        Done (HubService.init (Some hub_session))
  | _, _, _ => atom (on_net (HubService.connect email password pat (HubService.init None)))
  end%prog.

Definition return_settings_if (return_settings : bool) :
    prog World exn (option UserSettings) :=
  if return_settings then atom (gets (λ w, Some (user_settings w))) else Done None.

Definition login (self : Account.t) (email password pat : option string)
    (remember_me return_settings : bool) : prog World exn (option UserSettings) :=
  (let* hs := _create_hub_service self email password pat in
   let* incoming := atom (on_net (HubService.pull hs)) in
   let* updated := atom (gets (λ w, update_default incoming (store w))) in
   atom (modify (set_user_settings updated)) ;;
   (if remember_me
    then save_session (Account._openbb_directory self) (HubService.session hs)
    else Done tt) ;;
   return_settings_if return_settings)%prog.

Definition save (self : Account.t) (return_settings : bool) :
    prog World exn (option UserSettings) :=
  (let* hub_session := atom (gets (λ w, session_of (user_settings w))) in
   match hub_session with
   | None =>
       atom (modify (λ w, set_store (write_default_user_settings (user_settings w) (store w)) w))
   | Some s =>
       let* current := atom (gets user_settings) in
       atom (on_net (HubService.push (HubService.init (Some s)) current))
   end ;;
   return_settings_if return_settings)%prog.

Definition refresh (self : Account.t) (return_settings : bool) :
    prog World exn (option UserSettings) :=
  (let* hub_session := atom (gets (λ w, session_of (user_settings w))) in
   match hub_session with
   | None =>
       atom (modify (λ w, set_user_settings (read_default_user_settings (store w)) w))
   | Some s =>
       let* incoming := atom (on_net (HubService.pull (HubService.init (Some s)))) in
       let* updated := atom (gets (λ w, update_default incoming (store w))) in
       let* current := atom (gets user_settings) in
       atom (modify (set_user_settings (set_id (id current) updated)))
   end ;;
   return_settings_if return_settings)%prog.

Definition logout (self : Account.t) (return_settings : bool) :
    prog World exn (option UserSettings) :=
  (let* hub_session := atom (gets (λ w, session_of (user_settings w))) in
   match hub_session with
   | None => Throw not_connected
   | Some s =>
       atom (on_net (HubService.disconnect (HubService.init (Some s)))) ;;
       remove_session (Account._openbb_directory self) ;;
       atom (modify (λ w, set_user_settings (read_default_user_settings (store w)) w)) ;;
       return_settings_if return_settings
   end)%prog.

(** The steps of the function a request calls. *)
Definition of_request (self : Account.t) (q : request) : prog World exn (option UserSettings) :=
  match q with
  | ReqLogin e p t rm rs => login self e p t rm rs
  | ReqSave rs => save self rs
  | ReqRefresh rs => refresh self rs
  | ReqLogout rs => logout self rs
  end.

End Steps.
End Steps.

(** ** Threads and schedules *)

Section Threads.
Context {US : UserService} {HR : HubRemote} {SC : SessionCodec}.

(** A call of a decorated command, on its way or over. *)
Inductive thread : Type :=
| Running (c : command) (p : prog World exn (option UserSettings))
| Finished (r : outcome exn (option UserSettings)).

(** One step of a thread.  A statement that raises takes the thread to the
    [except] clause; a thread at a [return] or in the [except] clause makes
    the step of the decorator: the exception is wrapped, the record is logged
    with the settings as they are at that moment, and the call is over. *)
Definition step (t : thread) (w : World) : thread * World :=
  match t with
  | Running c (Atom m k) =>
      match m w with
      | (Returned x, w') => (Running c (k x), w')
      | (Raised e, w') => (Running c (Throw e), w')
      end
  | Running c (Done a) => (Finished (Returned a), logged c None w)
  | Running c (Throw e) => (Finished (Raised (OpenBBErrorFrom e)), logged c (Some e) w)
  | Finished r => (Finished r, w)
  end.

(** A thread left alone until its call is over. *)
Fixpoint finish (c : command) (p : prog World exn (option UserSettings)) (w : World) :
    outcome exn (option UserSettings) * World :=
  match p with
  | Done a => (Returned a, logged c None w)
  | Throw e => (Raised (OpenBBErrorFrom e), logged c (Some e) w)
  | Atom m k =>
      match m w with
      | (Returned x, w') => finish c (k x) w'
      | (Raised e, w') => (Raised (OpenBBErrorFrom e), logged c (Some e) w')
      end
  end.

Definition is_finished (t : thread) : bool :=
  match t with
  | Finished _ => true
  | Running _ _ => false
  end.

(** The number of calls that are over. *)
Definition finished (ts : list thread) : nat :=
  list_sum ((λ t, if is_finished t then 1 else 0) <$> ts).

Definition has_returned (t : thread) : bool :=
  match t with
  | Finished (Returned _) => true
  | _ => false
  end.

(** The callers: one thread per request, none of them started. *)
Definition spawn (self : Account.t) (qs : list request) : list thread :=
  (λ q, Running (command_of q) (Steps.of_request self q)) <$> qs.

(** The thread [i] makes a step; a turn given to no thread is lost. *)
Definition turn (i : nat) (ts : list thread) (w : World) : list thread * World :=
  match ts !! i with
  | Some t => (<[i := (step t w).1]> ts, (step t w).2)
  | None => (ts, w)
  end.

Fixpoint run_schedule (sch : list nat) (ts : list thread) (w : World) :
    list thread * World :=
  match sch with
  | [] => (ts, w)
  | i :: sch' => run_schedule sch' (turn i ts w).1 (turn i ts w).2
  end.

(** No command has more than nine statements on a path ([login] with
    [remember_me]: two to resolve the client, the pull, the merge, the
    assignment, three on the session file, the return). *)
Definition steps_bound : nat := 9.

(** The schedule of callers that wait for each other: the first thread until
    it is over, then the second, and so on. *)
Definition serial (k : nat) : list nat :=
  flat_map (replicate (S steps_bound)) (seq 0 k).

(** What the callers of a sequence of commands get back. *)
Fixpoint answers (self : Account.t) (qs : list request) (w : World) :
    list (outcome exn (option UserSettings)) :=
  match qs with
  | [] => []
  | q :: qs' => (dispatch self q w).1 :: answers self qs' (dispatch self q w).2
  end.

(** A [refresh] (thread 0) and a [logout] (thread 1): the [refresh] reads the
    session and pulls; the [logout] runs from its first statement to its log
    record; the [refresh] goes on with what it pulled. *)
Definition race : list nat :=
  [0; 0] ++ replicate (S steps_bound) 1 ++ replicate (S steps_bound) 0.

(** The call of the thread is over after [k] more turns of it, whatever its
    statements return or raise. *)
Definition over_in (k : nat) (t : thread) : Prop :=
  match t, k with
  | Finished _, _ => True
  | Running _ _, 0 => False
  | Running _ p, S k' => within k' p
  end.

(** What no statement of a command does: it leaves the log and the system
    settings alone and a well-formed disk well formed, and it raises nothing
    that the decorator has wrapped already. *)
Definition quiet {X} (m : action World exn X) : Prop :=
  ∀ w, log (m w).2 = log w ∧ system_settings (m w).2 = system_settings w ∧
       (fs_wf (disk w) → fs_wf (disk (m w).2)) ∧
       (∀ e, (m w).1 = Raised e → unwrapped e).

Definition quiet_thread (t : thread) : Prop :=
  match t with
  | Running _ p => all_atoms (λ X m, quiet m) unwrapped p
  | Finished _ => True
  end.

(** What every schedule keeps of a pool of threads and the world they share:
    the threads are quiet, the system settings are [ss], the world is well
    formed, and the log holds [base] records and one per call that is over. *)
Definition pool_inv (ss : SystemSettings) (base : nat) (ts : list thread) (w : World) : Prop :=
  Forall quiet_thread ts ∧ system_settings w = ss ∧ world_wf w ∧
  length (log w) = base + finished ts.

End Threads.

(** * Theorems *)

(** ** Programs *)

Section ProgLemmas.
Context {St E : Type}.

Lemma agrees_atom {X} (m : action St E X) : agrees (atom m) m.
Proof. intros s. simpl. apply bind_ret_r. Qed.

Lemma agrees_done {A} (a : A) : agrees (St:=St) (E:=E) (Done a) (ret a).
Proof. by intros s. Qed.

Lemma agrees_throw {A} (e : E) : agrees (St:=St) (A:=A) (Throw e) (raise e).
Proof. by intros s. Qed.

Lemma exec_pbind {A B} (p : prog St E A) (f : A → prog St E B) s :
  exec (pbind p f) s = bind (exec p) (λ a, exec (f a)) s.
Proof.
  revert s. induction p as [a|e|X m k IH]; intros s; simpl; [done..|].
  unfold bind at 1 2 3. destruct (m s) as [[x|e] s']; [exact (IH x s')|done].
Qed.

Lemma agrees_pbind {A B} (p : prog St E A) (f : A → prog St E B) m k :
  agrees p m → (∀ a, agrees (f a) (k a)) → agrees (pbind p f) (bind m k).
Proof.
  intros Hp Hf s. rewrite exec_pbind. unfold bind. rewrite (Hp s).
  destruct (m s) as [[a|e] s']; [apply Hf|done].
Qed.

Lemma within_mono {A} n n' (p : prog St E A) : n ≤ n' → within n p → within n' p.
Proof.
  revert n n'. induction p as [| |X m k IH]; intros n n' Hle; simpl; [done..|].
  destruct n as [|n]; [done|]. destruct n' as [|n']; [lia|].
  intros H x. apply (IH x n); [lia|done].
Qed.

Lemma within_atom {X} (m : action St E X) n : within (S n) (atom m).
Proof. by intros x. Qed.

Lemma within_pbind {A B} n n' (p : prog St E A) (f : A → prog St E B) :
  within n p → (∀ a, within n' (f a)) → within (n + n') (pbind p f).
Proof.
  revert n. induction p as [a|e|X m k IH]; intros n Hp Hf; simpl.
  - apply (within_mono n'); [lia|done].
  - done.
  - destruct n as [|n]; [done|]. intros x. by apply IH.
Qed.

Lemma all_atoms_atom (P : ∀ X, action St E X → Prop) (Q : E → Prop) {X}
    (m : action St E X) :
  P X m → all_atoms P Q (atom m).
Proof. by split. Qed.

Lemma all_atoms_pbind (P : ∀ X, action St E X → Prop) (Q : E → Prop) {A B}
    (p : prog St E A) (f : A → prog St E B) :
  all_atoms P Q p → (∀ a, all_atoms P Q (f a)) → all_atoms P Q (pbind p f).
Proof.
  intros Hp Hf. induction p as [a|e|X m k IH]; simpl; [done..|].
  destruct Hp as [Hm Hk]. split; [done|]. intros x. by apply IH.
Qed.

End ProgLemmas.

(** ** The steps of a command are the command *)

Section StepsAgree.
Context {US : UserService} {HR : HubRemote} {SC : SessionCodec}.
Implicit Types (w : World) (self : Account.t) (q : request) (c : command).

Lemma on_disk_bind {A B : Type} (m : action fs exn A) (k : A → action fs exn B) w :
  on_disk (bind m k) w = bind (on_disk m) (λ a, on_disk (k a)) w.
Proof.
  unfold on_disk, zoom, bind. destruct (m (disk w)) as [[a|e] σ]; simpl; [|done].
  by destruct (k a σ) as [r σ'].
Qed.

Lemma agrees_on_disk_bind {A B : Type} (p : prog World exn A) (f : A → prog World exn B)
    (m : action fs exn A) (k : A → action fs exn B) :
  agrees p (on_disk m) → (∀ a, agrees (f a) (on_disk (k a))) →
  agrees (pbind p f) (on_disk (bind m k)).
Proof. intros Hp Hf w. by rewrite on_disk_bind, (agrees_pbind _ _ _ _ Hp Hf). Qed.

Lemma agrees_on_disk_ret {A : Type} (a : A) : agrees (Done a) (on_disk (ret a)).
Proof. intros w. rewrite on_disk_run. simpl. by rewrite set_disk_same. Qed.

Lemma agrees_on_disk_raise {A : Type} (e : exn) : agrees (A:=A) (Throw e) (on_disk (raise e)).
Proof. intros w. rewrite on_disk_run. simpl. by rewrite set_disk_same. Qed.

Create HintDb agrees discriminated.

(** One step of a proof that a program is an action cut in steps: the two
    are built alike, so the proof follows their structure. *)
Ltac agrees_step :=
  match goal with
  | |- ∀ _, _ => intros ?
  | |- agrees (match ?x with _ => _ end) _ => destruct x
  | |- agrees (atom _) _ => apply agrees_atom
  | |- agrees (Done _) (ret _) => apply agrees_done
  | |- agrees (Throw _) (raise _) => apply agrees_throw
  | |- agrees (Done _) (on_disk _) => apply agrees_on_disk_ret
  | |- agrees (Throw _) (on_disk _) => apply agrees_on_disk_raise
  | |- agrees (pbind _ _) (bind _ _) => apply agrees_pbind
  | |- agrees (pbind _ _) (on_disk _) => apply agrees_on_disk_bind
  | |- agrees _ _ => solve [eauto with agrees]
  end.

Ltac solve_agrees := repeat agrees_step.

Lemma save_session_agrees dir o :
  agrees (Steps.save_session dir o) (on_disk (save_session dir o)).
Proof. unfold Steps.save_session, save_session. solve_agrees. Qed.

Lemma remove_session_agrees dir :
  agrees (Steps.remove_session dir) (on_disk (remove_session dir)).
Proof. unfold Steps.remove_session, remove_session. solve_agrees. Qed.

Lemma create_hub_service_agrees self e p t :
  agrees (Steps._create_hub_service self e p t) (Account._create_hub_service self e p t).
Proof.
  unfold Steps._create_hub_service, Account._create_hub_service.
  destruct e, p, t; solve_agrees.
Qed.

Lemma return_settings_agrees rs :
  agrees (Steps.return_settings_if rs) (Account.return_settings_if rs).
Proof. unfold Steps.return_settings_if, Account.return_settings_if. solve_agrees. Qed.

#[local] Hint Resolve save_session_agrees remove_session_agrees create_hub_service_agrees
  return_settings_agrees : agrees.

Lemma of_request_agrees self q : agrees (Steps.of_request self q) (body_of self q).
Proof.
  destruct q; simpl;
    unfold Steps.login, Steps.save, Steps.refresh, Steps.logout, Account.login_body,
      Account.save_body, Account.refresh_body, Account.logout_body;
    solve_agrees.
Qed.

(** A thread left alone is the decorated function. *)
Lemma finish_exec c p w : finish c p w = Account._log_account_command c (exec p) w.
Proof.
  rewrite log_account_command_run. revert w.
  induction p as [a|e|X m k IH]; intros w; simpl; [done..|].
  unfold bind. destruct (m w) as [[x|e] w']; [apply IH|done].
Qed.

End StepsAgree.

(** ** Schedules *)

Section Schedules.
Context {US : UserService} {HR : HubRemote} {SC : SessionCodec}.
Implicit Types (w : World) (self : Account.t) (q : request) (c : command).
Implicit Types (t : thread) (ts : list thread) (sch : list nat).

Lemma turn_lookup i ts w t :
  ts !! i = Some t → turn i ts w = (<[i := (step t w).1]> ts, (step t w).2).
Proof. intros H. unfold turn. by rewrite H. Qed.

Lemma run_schedule_cons i sch ts w :
  run_schedule (i :: sch) ts w = run_schedule sch (turn i ts w).1 (turn i ts w).2.
Proof. reflexivity. Qed.

Lemma run_schedule_app sch sch' ts w :
  run_schedule (sch ++ sch') ts w =
  run_schedule sch' (run_schedule sch ts w).1 (run_schedule sch ts w).2.
Proof. revert ts w. induction sch as [|i sch IH]; intros ts w; simpl; [done|apply IH]. Qed.

(** Turns given to a thread whose call is over change nothing. *)
Lemma run_finished n i ts w r :
  ts !! i = Some (Finished r) → run_schedule (replicate n i) ts w = (ts, w).
Proof.
  intros H. induction n as [|n IH]; simpl; [done|].
  rewrite (turn_lookup _ _ _ _ H). simpl. by rewrite list_insert_id.
Qed.

(** A thread that gets as many turns as its program can take, and one more,
    is left alone until its call is over. *)
Lemma run_alone n i ts w c p :
  ts !! i = Some (Running c p) → within n p →
  run_schedule (replicate (S n) i) ts w =
  (<[i := Finished (finish c p w).1]> ts, (finish c p w).2).
Proof.
  revert ts w p. induction n as [|n IH]; intros ts w p Hi Hp.
  - simpl. rewrite (turn_lookup _ _ _ _ Hi). by destruct p; simpl in *.
  - rewrite (replicate_S (S n)), run_schedule_cons, (turn_lookup _ _ _ _ Hi). pose proof (lookup_lt_Some _ _ _ Hi) as Hlt.
    destruct p as [a|e|X m k]; cbn [step finish fst snd].
    + rewrite run_finished with (r := Returned a); [done|by apply list_lookup_insert_eq].
    + rewrite run_finished with (r := Raised (OpenBBErrorFrom e));
        [done|by apply list_lookup_insert_eq].
    + destruct (m w) as [[x|e] w']; cbn [fst snd].
      * rewrite (IH _ _ (k x)); [|by apply list_lookup_insert_eq|apply Hp].
        by rewrite list_insert_insert_eq.
      * rewrite (IH _ _ (Throw e)); [|by apply list_lookup_insert_eq|done].
        by rewrite list_insert_insert_eq.
Qed.

(** The commands are short: no path of a command has more statements than
    [steps_bound]. *)
Lemma within_of_request self q : within steps_bound (Steps.of_request self q).
Proof.
  unfold steps_bound. destruct q as [e p t rm rs|rs|rs|rs]; simpl;
    unfold Steps.login, Steps.save, Steps.refresh, Steps.logout,
      Steps._create_hub_service, Steps.save_session, Steps.remove_session,
      Steps.return_settings_if;
    repeat first
      [ exact I | intros ? | progress simpl
      | match goal with |- context [match ?x with _ => _ end] => destruct x end ].
Qed.

End Schedules.

(** ** What no statement does *)

Section Quiet.
Context {US : UserService} {HR : HubRemote} {SC : SessionCodec}.
Implicit Types (w : World) (self : Account.t) (q : request) (c : command).
Implicit Types (t : thread) (ts : list thread) (sch : list nat).

Lemma quiet_on_net {A : Type} (m : action Net exn A) :
  raises unwrapped m → quiet (on_net m).
Proof.
  intros H w. rewrite on_net_run. simpl. split_and!; [done..|].
  intros e He. destruct (m (net w)) as [r n] eqn:Hm. simpl in He. subst r. eauto.
Qed.

Lemma quiet_on_disk {A : Type} (m : action fs exn A) :
  (∀ σ, fs_wf σ → fs_wf (m σ).2) → raises unwrapped m → quiet (on_disk m).
Proof.
  intros Hwf H w. rewrite on_disk_run. simpl. split_and!; [done..|auto|].
  intros e He. destruct (m (disk w)) as [r σ] eqn:Hm. simpl in He. subst r. eauto.
Qed.

(** The calls on the disk and on the hub raise exceptions of the operating
    system, of the hub and of the decoding, none of them wrapped. *)
Ltac solve_unwrapped :=
  eapply raises_weaken;
  [|first [ apply read_session_raises | apply connect_raises | apply pull_raises
          | apply push_raises | apply disconnect_raises | apply mkdir_raises
          | apply open_w_raises | apply unlink_raises | apply path_exists_raises
          | apply write_raises ]];
  simpl; intros ? ?; destruct_or?; eauto with action.

Ltac quiet_step :=
  match goal with
  | |- ∀ _, _ => intros ?
  | |- all_atoms _ _ (match ?x with _ => _ end) => destruct x
  | |- all_atoms _ _ (pbind _ _) => apply all_atoms_pbind
  | |- all_atoms _ _ (atom _) => apply all_atoms_atom
  | |- all_atoms _ _ (Atom _ _) => split
  | |- all_atoms _ _ (Done _) => exact I
  | |- all_atoms _ _ (Throw _) => reflexivity
  | |- quiet (on_net _) => apply quiet_on_net; solve_unwrapped
  | |- quiet (on_disk _) =>
      apply quiet_on_disk;
      [eauto using mkdir_wf, open_w_wf, write_wf, unlink_wf, path_exists_wf, read_session_wf
      |solve_unwrapped]
  | |- quiet _ => by intros w
  end.

(** Every statement of every command is quiet, and the two exceptions the
    commands raise by themselves are not wrapped. *)
Lemma quiet_of_request `{!SessionCodecLaws SC} self q :
  all_atoms (λ X m, quiet m) unwrapped (Steps.of_request self q).
Proof.
  destruct q as [e p t rm rs|rs|rs|rs]; cbn [Steps.of_request];
    unfold Steps.login, Steps.save, Steps.refresh, Steps.logout,
      Steps._create_hub_service, Steps.save_session, Steps.remove_session,
      Steps.return_settings_if;
    repeat quiet_step.
Qed.

Lemma list_sum_insert (l : list nat) i x y :
  l !! i = Some x → list_sum (<[i := y]> l) + x = list_sum l + y.
Proof.
  revert i. induction l as [|z l IH]; intros [|i]; simpl; try done.
  - intros [= ->]. lia.
  - intros H. specialize (IH i H). lia.
Qed.

Lemma finished_insert i ts t t' :
  ts !! i = Some t →
  finished (<[i := t']> ts) + (if is_finished t then 1 else 0) =
  finished ts + (if is_finished t' then 1 else 0).
Proof.
  intros H. unfold finished. rewrite list_fmap_insert. apply list_sum_insert.
  by rewrite list_lookup_fmap, H.
Qed.

(** The record of a call that is over is one the decorator writes. *)
Lemma logged_world_wf c (cause : option exn) w :
  world_wf w → from_option unwrapped True cause → world_wf (logged c cause w).
Proof.
  intros [Hd Hl] Hc. split; [done|]. simpl. apply Forall_app. split; [done|].
  apply Forall_singleton. by destruct cause.
Qed.

(** One step of a quiet thread in a well-formed world: the thread stays
    quiet, the system settings are kept, the world stays well formed, and the
    log grows by one record exactly when the call ends. *)
Lemma step_quiet t w :
  quiet_thread t → world_wf w →
  quiet_thread (step t w).1 ∧
  system_settings (step t w).2 = system_settings w ∧
  world_wf (step t w).2 ∧
  length (log (step t w).2) + (if is_finished t then 1 else 0) =
  length (log w) + (if is_finished (step t w).1 then 1 else 0).
Proof.
  destruct t as [c [a|e|X m k]|r]; cbn [step quiet_thread all_atoms]; intros Hq Hw.
  - split_and!; [done..|by apply logged_world_wf|]. simpl. rewrite length_app. simpl. lia.
  - split_and!; [done..|by apply logged_world_wf|]. simpl. rewrite length_app. simpl. lia.
  - destruct Hq as [Hm Hk]. destruct (Hm w) as (Hl & Hs & Hd & He). destruct Hw as [Hwd Hwl].
    destruct (m w) as [[x|e] w']; simpl in *; rewrite Hl;
      (split_and!; [auto|done|split; [auto|by rewrite Hl]|done]).
  - by split_and!.
Qed.

Lemma turn_inv ss base i ts w :
  pool_inv ss base ts w →
  pool_inv ss base (turn i ts w).1 (turn i ts w).2 ∧ length (turn i ts w).1 = length ts.
Proof.
  intros (Hq & Hs & Hw & Hl). unfold turn. destruct (ts !! i) as [t|] eqn:Hi; [|done].
  destruct (step_quiet t w) as (Ht & Hs' & Hw' & Hl'); [by eapply Forall_lookup_1|done|].
  pose proof (finished_insert i ts t (step t w).1 Hi). simpl.
  rewrite length_insert. split; [|done].
  split_and!; [by apply Forall_insert|congruence|done|lia].
Qed.

Lemma run_schedule_inv ss base sch ts w :
  pool_inv ss base ts w →
  pool_inv ss base (run_schedule sch ts w).1 (run_schedule sch ts w).2 ∧
  length (run_schedule sch ts w).1 = length ts.
Proof.
  revert ts w. induction sch as [|i sch IH]; intros ts w H; [done|].
  rewrite run_schedule_cons. destruct (turn_inv ss base i ts w H) as [H' Hn].
  destruct (IH _ _ H') as [H'' Hn']. split; [done|congruence].
Qed.

Lemma finished_spawn self qs : finished (spawn self qs) = 0.
Proof. unfold finished, spawn. induction qs as [|q qs IH]; [done|exact IH]. Qed.

(** Callers that have not started, in a well-formed world. *)
Lemma spawn_inv `{!SessionCodecLaws SC} self qs w :
  world_wf w → pool_inv (system_settings w) (length (log w)) (spawn self qs) w.
Proof.
  intros Hw. split_and!; [|done|done|by rewrite finished_spawn].
  apply Forall_fmap, Forall_true. intros q. apply quiet_of_request.
Qed.

End Quiet.

(** ** Callers that wait, callers that do not *)

Section Callers.
Context {US : UserService} {HR : HubRemote} {SC : SessionCodec}.
Implicit Types (w : World) (self : Account.t) (q : request) (c : command).
Implicit Types (t : thread) (ts : list thread) (sch : list nat).

Lemma finish_of_request self q w :
  finish (command_of q) (Steps.of_request self q) w = dispatch self q w.
Proof.
  by rewrite finish_exec, log_account_command_run, of_request_agrees, dispatch_run.
Qed.

(** The callers from the position [length past] on wait for each other; the
    calls before them are over. *)
Lemma serial_from self qs past w :
  run_schedule (flat_map (replicate (S steps_bound)) (seq (length past) (length qs)))
    (past ++ spawn self qs) w =
  (past ++ (Finished <$> answers self qs w), serve self qs w).
Proof.
  revert past w. induction qs as [|q qs IH]; intros past w; [done|].
  cbn [length seq flat_map]. rewrite run_schedule_app.
  rewrite (run_alone _ _ _ _ (command_of q) (Steps.of_request self q));
    [|apply list_lookup_middle; done|apply within_of_request].
  rewrite finish_of_request. cbn [fst snd].
  rewrite insert_app_r_alt, Nat.sub_diag by done. simpl.
  specialize (IH (past ++ [Finished (dispatch self q w).1]) (dispatch self q w).2).
  rewrite length_app, Nat.add_1_r, <-!app_assoc in IH. exact IH.
Qed.

(** Callers that wait for each other.  Under the serial schedule every call
    is over at the end, the callers have the answers of the commands served
    one after the other, and the world is the one [serve] ends in. *)
Lemma serial_schedule self qs w :
  run_schedule (serial (length qs)) (spawn self qs) w =
  (Finished <$> answers self qs w, serve self qs w).
Proof. apply (serial_from self qs []). Qed.

(** C25. Whatever the schedule.  However the steps of the callers interleave,
    the world stays well formed (the disk is a tree, and every record of the
    log is one the decorator writes), the system settings are never written,
    no caller is lost, and the log holds exactly one more record for each
    call that is over. *)
Theorem schedule_invariant `{!SessionCodecLaws SC} self qs sch w :
  world_wf w →
  world_wf (run_schedule sch (spawn self qs) w).2 ∧
  system_settings (run_schedule sch (spawn self qs) w).2 = system_settings w ∧
  length (log (run_schedule sch (spawn self qs) w).2) =
    length (log w) + finished (run_schedule sch (spawn self qs) w).1 ∧
  length (run_schedule sch (spawn self qs) w).1 = length qs.
Proof.
  intros Hw.
  destruct (run_schedule_inv _ _ sch _ w (spawn_inv self qs w Hw))
    as [(_ & Hs & Hw' & Hl) Hn].
  unfold spawn in Hn. by rewrite length_fmap in Hn.
Qed.

(** Callers that wait: in either order, a [refresh] and a [logout] that both
    return leave the process without a session. *)
Lemma refresh_logout_serial `{!UserServiceLaws US} self rs rs' qs w :
  qs = [ReqRefresh rs; ReqLogout rs'] ∨ qs = [ReqLogout rs'; ReqRefresh rs] →
  Forall (λ r, is_Some (returned r)) (answers self qs w) →
  session_of (user_settings (serve self qs w)) = None.
Proof.
  intros [-> | ->]; simpl; intros Hall.
  - apply Forall_cons_1 in Hall as [_ [Hr _]%Forall_cons_1].
    destruct (Account.logout self rs' _) as [[v|e] w2] eqn:Hl; [|by destruct Hr].
    by apply logout_returned_anonymous in Hl.
  - apply Forall_cons_1 in Hall as [Hr _].
    destruct (Account.logout self rs' w) as [[v|e] w1] eqn:Hl; [|by destruct Hr].
    apply logout_returned_anonymous in Hl. simpl.
    change (Account.refresh self rs w1) with (dispatch self (ReqRefresh rs) w1).
    rewrite dispatch_run. simpl.
    rewrite (refresh_body_anonymous _ _ _ Hl). simpl. apply read_default_anonymous.
Qed.

(** The first two turns of a [refresh] with a session: it has read the
    session and pulled with it. *)
Lemma refresh_two_turns self rs ts w s doc h :
  session_of (user_settings w) = Some s →
  pull_settings s (remote (net w)) = (Returned doc, h) →
  ∃ p, within 4 p ∧
    run_schedule [0; 0] (Running Refresh (Steps.refresh self rs) :: ts) w =
    (Running Refresh p :: ts, set_net (after_call (RpcPull s) h (net w)) w) ∧
    ∀ w', finish Refresh p w' =
      let us := set_id (id (user_settings w'))
                  (update_default (set_hub_session (Some s) doc) (store w')) in
      (Returned (if rs then Some us else None),
       logged Refresh None (set_user_settings us w')).
Proof.
  intros Hs Hp. eexists. split_and!; [| |].
  2:{ rewrite !run_schedule_cons. unfold turn, Steps.refresh. cbn [lookup list_lookup].
      cbn [pbind atom step gets fst snd insert list_insert]. rewrite Hs.
      cbn [pbind atom step fst snd lookup list_lookup insert list_insert].
      rewrite on_net_pull, Hp. cbn [fst snd run_schedule pbind]. reflexivity. }
  - destruct rs; simpl; done.
  - intros w'. by destruct rs.
Qed.

(** C12. Callers that do not wait.  A [refresh] and a [logout] on a
    connected process, when the [logout] runs while the [refresh] waits for
    the hub: both return, and the process is left connected with the session
    the [logout] has disconnected and whose file it has removed.  No order of
    the two commands, one after the other, ends like that: callers that wait
    are left without a session. *)
Theorem refresh_logout_race `{!UserServiceLaws US} self rs rs' w s doc h :
  session_of (user_settings w) = Some s →
  pull_settings s (remote (net w)) = (Returned doc, h) →
  disk w !! session_file (Account._openbb_directory self) ≠ Some Dir →
  let final := run_schedule race (spawn self [ReqRefresh rs; ReqLogout rs']) w in
  (length final.1 = 2 ∧ Forall (λ t, has_returned t = true) final.1) ∧
  session_of (user_settings final.2) = Some s ∧
  wire (net final.2) = wire (net w) ++ [RpcPull s; RpcDisconnect s] ∧
  disk final.2 !! session_file (Account._openbb_directory self) = None ∧
  ∀ qs, qs = [ReqRefresh rs; ReqLogout rs'] ∨ qs = [ReqLogout rs'; ReqRefresh rs] →
        Forall (λ r, is_Some (returned r)) (answers self qs w) →
        session_of (user_settings (serve self qs w)) = None.
Proof.
  intros Hs Hp Hdir final. subst final. unfold race, spawn. simpl fmap.
  destruct (refresh_two_turns self rs [Running Logout (Steps.logout self rs')] w s doc h Hs Hp)
    as (p & Hp4 & Hrun & Hfin).
  rewrite !run_schedule_app, Hrun. cbn [fst snd].
  rewrite (run_alone _ 1 _ _ Logout (Steps.logout self rs'));
    [|done|apply (within_of_request self (ReqLogout rs'))].
  rewrite (finish_of_request self (ReqLogout rs')), dispatch_run. cbn [body_of fst snd].
  rewrite (logout_body_connected _ _ _ s) by done.
  cbv zeta. change (disk (set_net ?n w)) with (disk w).
  destruct (disk w !! _) as [[|text]|] eqn:Hf; [done|..]; cbn [fst snd wrapped exc_info];
    (rewrite (run_alone steps_bound 0 _ _ Refresh p);
       [|done|by apply (within_mono 4); [unfold steps_bound; lia|]]);
    rewrite Hfin; cbn [fst snd list_insert insert]; split_and!;
    try (by repeat constructor); try (intros; by eapply refresh_logout_serial); simpl.
  all: try by rewrite session_of_set_id, update_default_session.
  all: try by rewrite <-app_assoc.
  by apply lookup_delete_eq.
Qed.

End Callers.

(** ** Every call ends *)

Section Fair.
Context {US : UserService} {HR : HubRemote} {SC : SessionCodec}.
Implicit Types (w : World) (self : Account.t) (q : request) (c : command).
Implicit Types (t : thread) (ts : list thread) (sch : list nat).

(** A call that is over in no turn is over. *)
Lemma over_in_0 t : over_in 0 t → is_finished t = true.
Proof. by destruct t. Qed.

(** A turn of a thread brings the end of its call one turn closer. *)
Lemma step_over_in k t w : over_in k t → over_in (pred k) (step t w).1.
Proof.
  destruct t as [c [a|e|X m f]|r]; [| | |done]; destruct k as [|k]; try done.
  cbn [over_in within step pred]. destruct k as [|k]; [done|]. intros H.
  destruct (m w) as [[x|e] w']; cbn [fst over_in]; [apply H|done].
Qed.

(** A caller that has not started is ten turns from the end of its call, at
    most: nine statements and the step of the decorator. *)
Lemma over_in_spawn self qs i t :
  spawn self qs !! i = Some t → over_in (S steps_bound) t.
Proof.
  unfold spawn. rewrite list_lookup_fmap. destruct (qs !! i) as [q|]; [|done].
  intros [= <-]. apply within_of_request.
Qed.

(** Under a schedule, a thread is as many turns closer to the end of its
    call as the schedule gave it. *)
Lemma run_schedule_over_in (f : nat → nat) sch ts w :
  (∀ i t, ts !! i = Some t → over_in (f i) t) →
  ∀ i t, (run_schedule sch ts w).1 !! i = Some t →
         over_in (f i - count_occ Nat.eq_dec sch i) t.
Proof.
  revert f ts w. induction sch as [|j sch IH]; intros f ts w Hts i t.
  - simpl. rewrite Nat.sub_0_r. apply Hts.
  - rewrite run_schedule_cons. intros Hi.
    apply (IH (λ i, if decide (j = i) then pred (f i) else f i)) in Hi.
    + simpl. destruct (Nat.eq_dec j i) as [->|Hne].
      * rewrite decide_True in Hi by done.
        by replace (f i - S _) with (pred (f i) - count_occ Nat.eq_dec sch i) by lia.
      * by rewrite decide_False in Hi by done.
    + clear i t Hi. intros i t. unfold turn.
      destruct (ts !! j) as [tj|] eqn:Hj; simpl.
      * destruct (decide (j = i)) as [<-|Hne].
        -- rewrite list_lookup_insert_eq by by eapply lookup_lt_Some.
           intros [= <-]. apply step_over_in. eauto.
        -- rewrite list_lookup_insert_ne by done. apply Hts.
      * intros Hi. destruct (decide (j = i)) as [<-|Hne]; [congruence|by apply Hts].
Qed.

(** When every call is over, the calls that are over are all the calls. *)
Lemma finished_all ts : Forall (λ t, is_finished t = true) ts → finished ts = length ts.
Proof.
  induction 1 as [|t ts Ht _ IH]; [done|].
  change (finished (t :: ts)) with ((if is_finished t then 1 else 0) + finished ts).
  by rewrite Ht, IH.
Qed.

(** C26. Every call ends.  The commands have no loop and wait for nothing
    but their collaborators: under any schedule that gives each caller ten
    turns, in whatever order and with whatever in between, every call is
    over, no caller is lost, and the log holds one more record per caller. *)
Theorem schedule_fair_finishes `{!SessionCodecLaws SC} self qs sch w :
  world_wf w →
  (∀ i, i < length qs → S steps_bound ≤ count_occ Nat.eq_dec sch i) →
  let final := run_schedule sch (spawn self qs) w in
  length final.1 = length qs ∧
  Forall (λ t, is_finished t = true) final.1 ∧
  length (log final.2) = length (log w) + length qs.
Proof.
  intros Hw Hfair final.
  destruct (run_schedule_inv _ _ sch _ w (spawn_inv self qs w Hw))
    as [(_ & _ & _ & Hl) Hn].
  replace (length (spawn self qs)) with (length qs) in Hn by (symmetry; apply length_fmap).
  fold final in Hl, Hn.
  assert (Forall (λ t, is_finished t = true) final.1) as Hall.
  { apply Forall_lookup. intros i t Hi. apply over_in_0.
    pose proof (lookup_lt_Some _ _ _ Hi) as Hlt. rewrite Hn in Hlt.
    apply (run_schedule_over_in (λ _, S steps_bound) sch _ w
             (over_in_spawn self qs)) in Hi.
    by replace (S steps_bound - _) with 0 in Hi by (specialize (Hfair i Hlt); lia). }
  split_and!; [done..|]. by rewrite Hl, (finished_all _ Hall), Hn.
Qed.

End Fair.
