(* ===== verification/Machine.v ===== *)
(** * The session state machine

    Section 4.4 of the specification describes the account controller as a
    machine with two states, carried by [user_settings.profile.hub_session]:
    Anonymous and Connected.  This file states that machine as a relation
    ([transition false]), the machine the code implements ([transition true],
    which has one more rule, a [login] that fails after it connected), and
    proves that the commands of [Account] refine them: every command is one
    transition, every sequence of commands is a run.  What holds of all runs
    of the machine then holds of every sequence of commands. *)

From S2P Require Import Prelude Exn FileSystem Settings Hub SessionStore Account.

(** The state of the process. *)
Inductive phase : Type :=
| Anonymous
| Connected (s : HubSession).

#[global] Instance phase_eq_dec : EqDecision phase.
Proof. solve_decision. Defined.

(** The state the settings are in: what the commands test with
    [if not hub_session]. *)
Definition phase_of (us : UserSettings) : phase :=
  match session_of us with
  | Some s => Connected s
  | None => Anonymous
  end.

(** What the caller sees of a command: it returned or it raised. *)
Inductive verdict : Type := Done | Failed.

#[global] Instance verdict_eq_dec : EqDecision verdict.
Proof. solve_decision. Defined.

Definition verdict_of {E A} (r : outcome E A) : verdict :=
  match r with
  | Returned _ => Done
  | Raised _ => Failed
  end.

(** The transitions.  With [lax = false] they are the table of section 4.4
    under the rule of section 5, that a command which fails leaves the state
    where it was.  With [lax = true] there is one more, [LoginTorn]: a [login]
    asked to remember can fail and leave the process connected. *)
Inductive transition (lax : bool) : phase → request → verdict → phase → Prop :=
| LoginDone ph e p t rm rs s :
    transition lax ph (ReqLogin e p t rm rs) Done (Connected s)
| LoginFailed ph e p t rm rs :
    transition lax ph (ReqLogin e p t rm rs) Failed ph
| LoginTorn ph e p t rs s :
    lax = true →
    transition lax ph (ReqLogin e p t true rs) Failed (Connected s)
| SaveLocal rs :
    transition lax Anonymous (ReqSave rs) Done Anonymous
| SavePush s rs v :
    transition lax (Connected s) (ReqSave rs) v (Connected s)
| RefreshLocal rs :
    transition lax Anonymous (ReqRefresh rs) Done Anonymous
| RefreshPull s rs v :
    transition lax (Connected s) (ReqRefresh rs) v (Connected s)
| LogoutRefused rs :
    transition lax Anonymous (ReqLogout rs) Failed Anonymous
| LogoutDone s rs :
    transition lax (Connected s) (ReqLogout rs) Done Anonymous
| LogoutFailed s rs :
    transition lax (Connected s) (ReqLogout rs) Failed (Connected s).

(** The transitions, as a test. *)
Definition allowed (lax : bool) (ph : phase) (q : request) (v : verdict) (ph' : phase) :
    bool :=
  match q, v, ph, ph' with
  | ReqLogin _ _ _ _ _, Done, _, Connected _ => true
  | ReqLogin _ _ _ rm _, Failed, _, _ =>
      bool_decide (ph' = ph) || (lax && rm && bool_decide (ph' ≠ Anonymous))
  | (ReqSave _ | ReqRefresh _), Done, Anonymous, Anonymous => true
  | (ReqSave _ | ReqRefresh _), _, Connected s, Connected s' => bool_decide (s' = s)
  | ReqLogout _, Failed, _, _ => bool_decide (ph' = ph)
  | ReqLogout _, Done, Connected _, Anonymous => true
  | _, _, _, _ => false
  end.

(** A run: the commands made, with what the caller saw of each, from one
    state to another. *)
Inductive run (lax : bool) : phase → list (request * verdict) → phase → Prop :=
| run_nil ph : run lax ph [] ph
| run_cons ph q v ph1 tr ph2 :
    transition lax ph q v ph1 → run lax ph1 tr ph2 → run lax ph ((q, v) :: tr) ph2.

Section Trace.
Context {US : UserService} {HR : HubRemote} {SC : SessionCodec}.

(** What a sequence of commands looks like from outside. *)
Fixpoint serve_trace (self : Account.t) (qs : list request) (w : World) :
    list (request * verdict) :=
  match qs with
  | [] => []
  | q :: qs' =>
      (q, verdict_of (dispatch self q w).1) :: serve_trace self qs' (dispatch self q w).2
  end.

End Trace.

(** * Theorems *)

(** ** The machine *)

Section MachineLemmas.
Implicit Types (ph : phase) (q : request) (v : verdict) (tr : list (request * verdict)).

Lemma transition_allowed lax ph q v ph' :
  transition lax ph q v ph' ↔ allowed lax ph q v ph' = true.
Proof.
  split.
  - intros []; subst; simpl; repeat case_match; repeat case_bool_decide; naive_solver.
  - destruct q as [e p t rm rs|rs|rs|rs], v, ph as [|s], ph' as [|s']; simpl;
      rewrite ?orb_true_iff, ?andb_true_iff, ?bool_decide_eq_true;
      intros; destruct_or?; destruct_and?; simplify_eq; try done; try by constructor.
Qed.

#[global] Instance transition_dec lax ph q v ph' : Decision (transition lax ph q v ph').
Proof.
  refine (cast_if (decide (allowed lax ph q v ph' = true))); by rewrite transition_allowed.
Defined.

(** The machine of the specification is part of the machine of the code. *)
Lemma transition_lax lax ph q v ph' : transition false ph q v ph' → transition lax ph q v ph'.
Proof. intros []; try done; by constructor. Qed.

(** Without a [login] that remembers, the two machines are one. *)
Lemma transition_strict lax ph q v ph' :
  remembers q = false → transition lax ph q v ph' → transition false ph q v ph'.
Proof. intros Hq H. revert Hq. destruct H; simpl; intros; try done; by constructor. Qed.

(** In the machine of the specification a command that fails leaves the
    state where it was. *)
Lemma transition_failed ph q ph' : transition false ph q Failed ph' → ph' = ph.
Proof. by inversion 1. Qed.

(** Only [login] connects. *)
Lemma transition_connects lax ph q v s :
  transition lax ph q v (Connected s) → ph = Connected s ∨ is_login q = true.
Proof. inversion 1; subst; eauto. Qed.

(** Only [logout] disconnects, and only by returning. *)
Lemma transition_disconnects lax s q v :
  transition lax (Connected s) q v Anonymous → ∃ rs, q = ReqLogout rs ∧ v = Done.
Proof. inversion 1; subst; eauto. Qed.

(** The session changes by [login] only. *)
Lemma transition_session lax s q v s' :
  transition lax (Connected s) q v (Connected s') → s' = s ∨ is_login q = true.
Proof. inversion 1; subst; eauto. Qed.

Lemma run_lax lax ph tr ph' : run false ph tr ph' → run lax ph tr ph'.
Proof. induction 1; econstructor; eauto using transition_lax. Qed.

Lemma run_app lax ph tr1 ph1 tr2 ph2 :
  run lax ph tr1 ph1 → run lax ph1 tr2 ph2 → run lax ph (tr1 ++ tr2) ph2.
Proof. induction 1; simpl; [done|]. intros. econstructor; eauto. Qed.

Lemma run_app_inv lax ph tr1 tr2 ph2 :
  run lax ph (tr1 ++ tr2) ph2 → ∃ ph1, run lax ph tr1 ph1 ∧ run lax ph1 tr2 ph2.
Proof.
  revert ph. induction tr1 as [|[q v] tr1 IH]; simpl; intros ph H.
  - exists ph. split; [constructor|done].
  - inversion H; subst. destruct (IH _ ltac:(eassumption)) as (ph1' & ? & ?).
    exists ph1'. split; [econstructor|]; eauto.
Qed.

Lemma run_strict lax ph tr ph' :
  Forall (λ qv, remembers qv.1 = false) tr → run lax ph tr ph' → run false ph tr ph'.
Proof.
  intros Hf H. induction H; [constructor|]. inversion Hf; subst.
  econstructor; eauto using transition_strict.
Qed.

End MachineLemmas.

(** ** All runs of the machine *)

Section Runs.
Implicit Types (ph : phase) (q : request) (v : verdict) (tr : list (request * verdict)).

(** A run that starts without a session and ends with one has a [login]. *)
Lemma run_connected_needs_login lax tr ph s :
  run lax ph tr (Connected s) → ph = Connected s ∨ Exists (λ qv, is_login qv.1 = true) tr.
Proof.
  remember (Connected s) as ph' eqn:Hph. induction 1 as [|ph q v ph1 tr ph2 Ht Hr IH].
  - by left.
  - subst. destruct (IH eq_refl) as [->|Hex]; [|right; by constructor 2].
    destruct (transition_connects _ _ _ _ _ Ht) as [->|Hq]; [by left|].
    right. by constructor 1.
Qed.

(** In the machine of the specification, a run whose commands all fail ends
    where it started. *)
Lemma run_failed_stutters tr ph ph' :
  run false ph tr ph' → Forall (λ qv, qv.2 = Failed) tr → ph' = ph.
Proof.
  induction 1 as [|ph q v ph1 tr ph2 Ht Hr IH]; [done|].
  intros [Hv Hf]%Forall_cons. simpl in Hv. subst v. rewrite (IH Hf).
  by apply transition_failed in Ht.
Qed.

(** After a [logout] that returned, the machine is in [Anonymous], where the
    next [logout] is refused. *)
Lemma run_logout_twice lax ph rs rs' v tr ph' :
  run lax ph ((ReqLogout rs, Done) :: (ReqLogout rs', v) :: tr) ph' → v = Failed.
Proof.
  inversion 1 as [|? ? ? ph1 ? ? Ht Hr]; subst.
  inversion Ht; subst. inversion Hr as [|? ? ? ? ? ? Ht' _]; subst. by inversion Ht'.
Qed.

End Runs.

(** ** The commands refine the machine *)

Section Refinement.
Context {US : UserService} {HR : HubRemote} {SC : SessionCodec}.
Context `{!UserServiceLaws US, !SessionCodecLaws SC}.
Implicit Types (w : World) (self : Account.t) (q : request) (qs : list request).

Lemma verdict_of_wrapped {A} (r : outcome exn A) : verdict_of (wrapped r) = verdict_of r.
Proof. by destruct r. Qed.

Lemma phase_of_connected us s : session_of us = Some s → phase_of us = Connected s.
Proof. unfold phase_of. by intros ->. Qed.

Lemma phase_of_anonymous us : session_of us = None → phase_of us = Anonymous.
Proof. unfold phase_of. by intros ->. Qed.

Lemma phase_of_default w : phase_of (read_default_user_settings (store w)) = Anonymous.
Proof. apply phase_of_anonymous, read_default_anonymous. Qed.

Lemma phase_of_merged s doc d : phase_of (update_default (set_hub_session (Some s) doc) d)
  = Connected s.
Proof. apply phase_of_connected, update_default_session. Qed.

(** What [login] does to the state: connected if it returns; if it fails,
    where it was, or connected when it was to remember the session on a disk
    that is not ready for it. *)
Lemma login_body_phase self e p t rm rs w :
  let r := Account.login_body self e p t rm rs w in
  match r.1 with
  | Returned _ => ∃ s, phase_of (user_settings r.2) = Connected s
  | Raised _ =>
      phase_of (user_settings r.2) = phase_of (user_settings w) ∨
      (rm = true ∧
       session_dir_ready (Account._openbb_directory self) (disk w) = false ∧
       ∃ s, phase_of (user_settings r.2) = Connected s)
  end.
Proof.
  simpl. destruct (Account.login_body self e p t rm rs w) as [[v|c] w'] eqn:Hb; simpl.
  - apply login_body_returned in Hb as (_ & s & doc & _ & _ & _ & _ & _ & -> & _).
    exists s. apply phase_of_merged.
  - apply login_body_raised in Hb as [_ [[-> _]|(-> & _ & Hr & s & doc & ->)]]; [by left|].
    right. split_and!; [done..|]. exists s. apply phase_of_merged.
Qed.

(** The functions of the commands, one transition each. *)
Lemma body_simulation self q w :
  transition true (phase_of (user_settings w)) q (verdict_of (body_of self q w).1)
    (phase_of (user_settings (body_of self q w).2)).
Proof.
  destruct q as [e p t rm rs|rs|rs|rs]; simpl.
  - pose proof (login_body_phase self e p t rm rs w) as H. simpl in H.
    destruct (Account.login_body self e p t rm rs w) as [[v|c] w']; simpl in *.
    + destruct H as [s ->]. constructor.
    + destruct H as [->|(-> & _ & s & ->)]; by constructor.
  - destruct (session_of (user_settings w)) as [s|] eqn:Hs.
    + rewrite (save_body_connected _ _ _ _ Hs), (phase_of_connected _ _ Hs).
      destruct (push_settings _ _ _) as [[u|k] h]; simpl;
        rewrite (phase_of_connected _ _ Hs); constructor.
    + rewrite (save_body_anonymous _ _ _ Hs), (phase_of_anonymous _ Hs). simpl.
      rewrite (phase_of_anonymous _ Hs). constructor.
  - destruct (session_of (user_settings w)) as [s|] eqn:Hs.
    + rewrite (refresh_body_connected _ _ _ _ Hs), (phase_of_connected _ _ Hs).
      destruct (pull_settings _ _) as [[doc|k] h]; simpl.
      * rewrite (phase_of_connected _ s); [constructor|].
        rewrite session_of_set_id. apply update_default_session.
      * rewrite (phase_of_connected _ _ Hs). constructor.
    + rewrite (refresh_body_anonymous _ _ _ Hs), (phase_of_anonymous _ Hs). simpl.
      rewrite phase_of_default. constructor.
  - destruct (session_of (user_settings w)) as [s|] eqn:Hs.
    + rewrite (logout_body_connected _ _ _ _ Hs), (phase_of_connected _ _ Hs). simpl.
      destruct (disk w !! _) as [[|text]|]; simpl;
        rewrite ?phase_of_default, ?(phase_of_connected _ _ Hs); constructor.
    + rewrite (logout_body_anonymous _ _ _ Hs), (phase_of_anonymous _ Hs). simpl.
      rewrite (phase_of_anonymous _ Hs). constructor.
Qed.

(** On a disk that is ready for the session file, the functions follow the
    machine of the specification. *)
Lemma body_simulation_strict self q w :
  remembers q = false ∨ session_dir_ready (Account._openbb_directory self) (disk w) = true →
  transition false (phase_of (user_settings w)) q (verdict_of (body_of self q w).1)
    (phase_of (user_settings (body_of self q w).2)).
Proof.
  intros [Hq|Hr]; [eauto using transition_strict, body_simulation|].
  destruct (remembers q) eqn:Hq; [|eauto using transition_strict, body_simulation].
  destruct q as [e p t rm rs|rs|rs|rs]; simplify_eq/=.
  pose proof (login_body_phase self e p t true rs w) as H. simpl in H.
  destruct (Account.login_body self e p t true rs w) as [[v|c] w']; simpl in *.
  - destruct H as [s ->]. constructor.
  - destruct H as [->|(_ & ? & _)]; [constructor|congruence].
Qed.

Lemma dispatch_phase self q w :
  verdict_of (dispatch self q w).1 = verdict_of (body_of self q w).1 ∧
  user_settings (dispatch self q w).2 = user_settings (body_of self q w).2.
Proof. rewrite dispatch_run. simpl. by rewrite verdict_of_wrapped. Qed.

(** The commands keep a disk that is ready for the session file ready. *)
Lemma dispatch_keeps_ready self q :
  preserves (λ w, session_dir_ready (Account._openbb_directory self) (disk w) = true)
    (dispatch self q).
Proof.
  destruct q; unfold_account;
    repeat first
      [ preserves_step
      | apply (preserves_disk_on_disk (λ σ, session_dir_ready _ σ = true));
        first [ apply save_session_keeps_ready | apply remove_session_keeps_ready
              | apply read_session_preserves | apply preserves_gets ]
      | apply preserves_on_net; by intros
      | apply preserves_modify; by intros ].
Qed.

(** A command is a transition of the machine of the code, and of the machine
    of the specification when it does not remember a session or the disk is
    ready for it. *)
Lemma dispatch_transition lax self q w :
  lax = true ∨ remembers q = false ∨
    session_dir_ready (Account._openbb_directory self) (disk w) = true →
  transition lax (phase_of (user_settings w)) q (verdict_of (dispatch self q w).1)
    (phase_of (user_settings (dispatch self q w).2)).
Proof.
  destruct (dispatch_phase self q w) as [-> ->].
  intros [->|H]; [apply body_simulation|]. by apply transition_lax, body_simulation_strict.
Qed.

Lemma serve_trace_requests self qs w : (serve_trace self qs w).*1 = qs.
Proof. revert w. induction qs as [|q qs IH]; intros w; simpl; [done|]. by rewrite IH. Qed.

(** A sequence of commands is a run. *)
Lemma serve_run lax self qs w :
  lax = true ∨ session_dir_ready (Account._openbb_directory self) (disk w) = true →
  run lax (phase_of (user_settings w)) (serve_trace self qs w)
    (phase_of (user_settings (serve self qs w))).
Proof.
  revert w. induction qs as [|q qs IH]; intros w H; simpl; [constructor|].
  econstructor; [apply dispatch_transition; tauto|].
  apply IH. destruct H as [?|H]; [by left|right]. by apply dispatch_keeps_ready.
Qed.

(** Refinement, one command.  A command that does not remember a
    session, or that runs on a disk that is ready for the session file, is a
    transition of the machine of the specification between the state of the
    settings before and after it, with the verdict the caller sees. *)
Theorem dispatch_refines_spec self q w :
  remembers q = false ∨
    session_dir_ready (Account._openbb_directory self) (disk w) = true →
  transition false (phase_of (user_settings w)) q (verdict_of (dispatch self q w).1)
    (phase_of (user_settings (dispatch self q w).2)).
Proof. intros H. apply dispatch_transition. by right. Qed.

(** C15. Refinement, any sequence of commands, any disk.  What a sequence of
    commands looks like from outside is a run of the machine of the code: the
    machine of the specification and the [login] that fails connected. *)
Theorem serve_simulation self qs w :
  (serve_trace self qs w).*1 = qs ∧
  run true (phase_of (user_settings w)) (serve_trace self qs w)
    (phase_of (user_settings (serve self qs w))).
Proof. split; [apply serve_trace_requests|apply serve_run; by left]. Qed.

(** C11. Refinement of the specification.  On a disk that is ready for the
    session file, every sequence of commands is a run of the machine of the
    specification, and the disk is ready at its end. *)
Theorem serve_refines_spec self qs w :
  session_dir_ready (Account._openbb_directory self) (disk w) = true →
  run false (phase_of (user_settings w)) (serve_trace self qs w)
    (phase_of (user_settings (serve self qs w))) ∧
  session_dir_ready (Account._openbb_directory self) (disk (serve self qs w)) = true.
Proof.
  intros H. split; [apply serve_run; by right|].
  revert w H. induction qs as [|q qs IH]; intros w H; simpl; [done|].
  by apply IH, dispatch_keeps_ready.
Qed.

(** C27. A process that has no session and ends a sequence of commands with
    one has been asked to [login] in between: no other command connects. *)
Theorem serve_connected_needs_login self qs w s :
  session_of (user_settings w) = None →
  session_of (user_settings (serve self qs w)) = Some s →
  Exists (λ q, is_login q = true) qs.
Proof.
  intros Ha%phase_of_anonymous Hc%phase_of_connected.
  pose proof (serve_run true self qs w (or_introl eq_refl)) as Hr.
  rewrite Ha, Hc in Hr. apply run_connected_needs_login in Hr as [?|Hex]; [done|].
  rewrite <-(serve_trace_requests self qs w). by apply Exists_fmap.
Qed.

(** On a disk that is ready for the session file, a sequence of commands
    that all fail ends in the state it started in. *)
Lemma serve_failures_stutter self qs w :
  session_dir_ready (Account._openbb_directory self) (disk w) = true →
  Forall (λ qv, qv.2 = Failed) (serve_trace self qs w) →
  phase_of (user_settings (serve self qs w)) = phase_of (user_settings w).
Proof.
  intros H Hf. eapply run_failed_stutters; [|done]. apply serve_run. by right.
Qed.

End Refinement.
