(* ===== verification/SessionFile.v ===== *)
(** * The commands on the JSON session file

    The theorems of [Account] hold for any text of the session file that
    meets the laws of [SessionCodec].  Here the text is the one of [Json]:
    what [login] leaves in the file, character for character, and what a
    [login] without credentials does of a file that was cut short.

    The file is written in place: line 128 opens it with mode [w], which
    empties it, and line 132 writes the text.  Between the two the file is
    there and empty.  The last part runs a [login] that remembers against a
    [login] that resumes the session file, under the schedule [torn] of
    [Interleave]'s threads, and shows what the second one reads. *)

From stdpp Require Import gmap.
From S2P Require Import Prelude Exn FileSystem Settings Hub SessionStore Json Account.
From S2P Require Import Interleave.

(** A [login] that remembers (thread 0) and a [login] without credentials
    (thread 1).  The first resolves its client, pulls, merges, assigns, makes
    the directory and opens the session file: six statements.  The second
    runs from its first statement to its log record.  The first goes on with
    the write. *)
Definition torn : list nat :=
  replicate 6 0 ++ replicate (S steps_bound) 1 ++ replicate (S steps_bound) 0.

Section SessionFile.
Context {US : UserService} {HR : HubRemote}.
Implicit Types (w : World) (self : Account.t) (s : HubSession).

(** A [login] without credentials on a session file that does not load fails
    with what the loading raised, and changes nothing but the log. *)
Lemma login_session_file_raises self rm rs w text e :
  disk w !! session_file (Account._openbb_directory self) = Some (File text) →
  json_load text = Raised e →
  Account.login self None None None rm rs w =
  (Raised (OpenBBErrorFrom e), logged Login (Some e) w).
Proof. apply (login_stored_raises (SC:=json_codec)). Qed.

(** C31. The session file a [login] leaves when it is asked to remember:
    the four fields of the session the settings now hold, as [json.dump]
    writes them with [indent=4], in printable ASCII, and such that loading the
    text gives the document back. *)
Theorem login_writes_session_file `{!UserServiceLaws US} self e p t rs w v w' :
  Account.login self e p t true rs w = (Returned v, w') →
  ∃ s, session_of (user_settings w') = Some s ∧
       disk w' !! session_file (Account._openbb_directory self)
       = Some (File (dumps (session_to_json s))) ∧
       all_chars printable (dumps (session_to_json s)) = true ∧
       loads (dumps (session_to_json s)) = Some (session_to_json s).
Proof.
  intros (w1 & Hb & ->)%(dispatch_returned self (ReqLogin e p t true rs)).
  apply login_body_returned in Hb as (hs & s & doc & n1 & _ & _ & _ & _ & Hus & _ & Hf).
  exists s. autorewrite with action. split_and!.
  - rewrite Hus. apply update_default_session.
  - exact Hf.
  - apply dumps_at_ascii.
  - apply loads_dumps_at.
Qed.

(** C34. A session file that was cut to nothing, as [open(_, "w")] leaves
    it before anything is written, is not an absent file: a [login] without
    credentials fails on it with [JSONDecodeError] inside an [OpenBBError],
    where on an absent file it fails with "Session not found.". *)
Theorem login_truncated_session_file self rm rs w :
  disk w !! session_file (Account._openbb_directory self) = Some (File "") →
  Account.login self None None None rm rs w =
  (Raised (OpenBBErrorFrom JSONDecodeError), logged Login (Some JSONDecodeError) w).
Proof. intros Hf. by apply (login_session_file_raises _ _ _ _ ""). Qed.

(** C35. A session file that holds JSON which is not an object makes
    [HubSession( **session_dict)] raise [TypeError]: the [login] without
    credentials fails with it, inside an [OpenBBError]. *)
Theorem login_session_file_not_object self rm rs w text v :
  disk w !! session_file (Account._openbb_directory self) = Some (File text) →
  loads text = Some v → (∀ ms, v ≠ JObject ms) →
  Account.login self None None None rm rs w =
  (Raised (OpenBBErrorFrom TypeError), logged Login (Some TypeError) w).
Proof.
  intros Hf Hl Hv. apply (login_session_file_raises _ _ _ _ text); [done|].
  unfold json_load. rewrite Hl. destruct v; try done. by destruct (Hv members).
Qed.

End SessionFile.

(** ** A reader between the open and the write *)

Section TornRead.
Context {US : UserService} {HR : HubRemote}.
Implicit Types (w : World) (self : Account.t) (s : HubSession) (ts : list thread).

(** A turn of the first thread on a statement that returns. *)
Lemma turn_atom {X : Type} c (m : action World exn X) k ts w x w' :
  m w = (Returned x, w') →
  turn 0 (Running c (Atom m k) :: ts) w = (Running c (k x) :: ts, w').
Proof. intros H. unfold turn. simpl. by rewrite H. Qed.

Ltac take_turn tac :=
  rewrite run_schedule_cons; erewrite turn_atom by tac; cbn [fst snd pbind].

(** The first six turns of a [login] by credentials that remembers, when the
    hub accepts the credentials and answers the pull and the disk is ready:
    the settings are installed and the session file is open and empty.  What
    is left is the write and the [return]. *)
Lemma login_six_turns self e p t rs ts w s h1 doc h2 :
  authenticate (ByCredentials e p) (remote (net w)) = (Returned s, h1) →
  pull_settings s h1 = (Returned doc, h2) →
  session_dir_ready (Account._openbb_directory self) (disk w) = true →
  let file := session_file (Account._openbb_directory self) in
  let us := update_default (set_hub_session (Some s) doc) (store w) in
  let n2 := after_call (RpcPull s) h2
              (after_call (RpcAuthenticate (ByCredentials e p)) h1 (net w)) in
  ∃ rest σ,
    run_schedule (replicate 6 0)
      (Running Login (Steps.login self (Some e) (Some p) t true rs) :: ts) w =
    (Running Login rest :: ts,
     set_disk (<[file := File ""]> σ) (set_user_settings us (set_net n2 w))) ∧
    within 2 rest ∧
    ∀ w' text, disk w' !! file = Some (File text) →
      finish Login rest w' =
      (Returned (if rs then Some (user_settings w') else None),
       logged Login None (set_disk (<[file := File (text +:+ json_dump s)]> (disk w')) w')).
Proof.
  intros Ha Hp (σ1 & Hmk & Hdir & Hop)%save_session_opens file us n2.
  eexists _, σ1. split_and!.
  - cbn [replicate].
    unfold Steps.login, Steps._create_hub_service, Steps.save_session. cbn [pbind atom].
    take_turn ltac:(by apply on_net_connect).
    take_turn ltac:(by rewrite on_net_pull; cbn [net set_net remote after_call]; rewrite Hp).
    take_turn ltac:(apply run_gets).
    take_turn ltac:(apply run_modify).
    take_turn ltac:(by rewrite on_disk_run; cbn [disk set_user_settings set_net]; rewrite Hmk).
    take_turn ltac:(by rewrite on_disk_run; cbn [disk set_disk]; rewrite Hop).
    cbn [run_schedule HubService.session HubService.init]. reflexivity.
  - by destruct rs.
  - intros w' text Hf. cbn [finish pbind atom]. rewrite on_disk_run.
    rewrite (write_file _ _ _ text) by done. by destruct rs.
Qed.

(** Callers that wait: a [login] by credentials and a [login] that resumes
    the session file, in either order, on a disk that is ready and whose
    session file, if there, loads.  Neither fails in the decoding. *)
Lemma logins_serial self e p t rm rs rm' rs' qs w :
  session_dir_ready (Account._openbb_directory self) (disk w) = true →
  (∀ text, disk w !! session_file (Account._openbb_directory self) = Some (File text) →
           is_Some (returned (json_load text))) →
  qs = [ReqLogin (Some e) (Some p) t rm rs; ReqLogin None None None rm' rs'] ∨
  qs = [ReqLogin None None None rm' rs'; ReqLogin (Some e) (Some p) t rm rs] →
  Forall (λ r, r ≠ Raised (OpenBBErrorFrom JSONDecodeError)) (answers self qs w).
Proof.
  assert (∀ e p t rm rs w,
    (∀ text, disk w !! session_file (Account._openbb_directory self) = Some (File text) →
             is_Some (returned (json_load text))) →
    (Account.login self e p t rm rs w).1 ≠ Raised (OpenBBErrorFrom JSONDecodeError)) as Hno.
  { intros e0 p0 t0 rm0 rs0 w0 Hl Hr.
    apply login_raised_corrupt in Hr as (_ & text & Hf & Ht); [|by left].
    apply Hl in Hf. change (session_load text) with (json_load text) in Ht.
    rewrite Ht in Hf. by destruct Hf. }
  intros Hr Hl [-> | ->]; cbn [answers dispatch];
    (constructor; [|constructor; [|constructor]]);
    apply Hno; first [done | by apply (login_keeps_loadable (SC:=json_codec))].
Qed.

(** C13. A reader between the open and the write.  A [login] by credentials
    that remembers the session opens the session file, which empties it, and
    writes it one statement later.  A [login] without credentials that runs
    in between finds the file, reads nothing, and fails with
    [JSONDecodeError] inside an [OpenBBError]; the first [login] returns and
    leaves the file with the text of its session, as if nothing had happened.
    Callers that wait never see this: in either order, neither [login] fails
    in the decoding. *)
Theorem login_torn_read self e p t rs rm' rs' w s h1 doc h2 :
  authenticate (ByCredentials e p) (remote (net w)) = (Returned s, h1) →
  pull_settings s h1 = (Returned doc, h2) →
  session_dir_ready (Account._openbb_directory self) (disk w) = true →
  (∀ text, disk w !! session_file (Account._openbb_directory self) = Some (File text) →
           is_Some (returned (json_load text))) →
  let writer := ReqLogin (Some e) (Some p) t true rs in
  let reader := ReqLogin None None None rm' rs' in
  let us := update_default (set_hub_session (Some s) doc) (store w) in
  let final := run_schedule torn (spawn self [writer; reader]) w in
  final.1 = [Finished (Returned (if rs then Some us else None));
             Finished (Raised (OpenBBErrorFrom JSONDecodeError))] ∧
  disk final.2 !! session_file (Account._openbb_directory self)
  = Some (File (json_dump s)) ∧
  user_settings final.2 = us ∧
  wire (net final.2) = wire (net w) ++ [RpcAuthenticate (ByCredentials e p); RpcPull s] ∧
  ∀ qs, qs = [writer; reader] ∨ qs = [reader; writer] →
        Forall (λ r, r ≠ Raised (OpenBBErrorFrom JSONDecodeError)) (answers self qs w).
Proof.
  intros Ha Hp Hr Hl writer reader us final. subst final.
  unfold torn, spawn. simpl fmap.
  destruct (login_six_turns self e p t rs [Running Login (Steps.of_request self reader)]
              w s h1 doc h2 Ha Hp Hr) as (rest & σ & Hrun & Hrest & Hfin).
  rewrite !run_schedule_app.
  change (Steps.login self None None None rm' rs') with (Steps.of_request self reader).
  rewrite Hrun. cbn [fst snd].
  rewrite (run_alone _ 1 _ _ (command_of reader) (Steps.of_request self reader));
    [|done|apply within_of_request].
  rewrite finish_of_request. subst reader. cbn [dispatch].
  rewrite (login_stored_raises _ _ _ _ "" JSONDecodeError);
    [|apply lookup_insert_eq|reflexivity].
  cbn [fst snd list_insert insert].
  rewrite (run_alone steps_bound 0 _ _ Login rest);
    [|done|by apply (within_mono 2); [unfold steps_bound; lia|]].
  rewrite (Hfin _ "") by apply lookup_insert_eq.
  cbn [fst snd list_insert insert]. split_and!.
  - by destruct rs.
  - apply lookup_insert_eq.
  - done.
  - simpl. by rewrite <-app_assoc.
  - intros qs. by apply logins_serial.
Qed.

End TornRead.
