(* ===== verification/Symbols.v ===== *)
(** * Ticker symbols of the institutional-ownership schema

    [institutional_ownership.py] declares the query parameters and the data
    row of the institutional-ownership standard model.  Both classes
    normalise their [symbol] field with a validator [upper_symbol] that runs
    before type validation, so on the raw value: the one of the query
    upper-cases it (line 25); the one of the data row upper-cases a string
    (line 43) and turns any other collection of symbols into their upper-cased
    names joined by commas (line 44).

    A Python string is modelled as a [string] of characters below 256 and
    [str.upper] as the upper-casing of the letters [a] to [z]: this is
    [str.upper] on ASCII text, which is what ticker symbols are; outside
    ASCII [str.upper] also maps letters with diacritics and can change the
    length of the string, which the model does not follow.  A set is modelled
    by the list of its elements in the order its iteration yields them.  The
    raw value ranges over what the annotation of line 40 declares, a string,
    a list of strings or a set of strings; a validator that runs before type
    validation can be handed any other value ([None], a number, a tuple, a
    collection of something else than strings), and those are outside the
    model.  The field [date] is a calendar date as three integers; that the
    three make a day of the calendar is checked by the [datetime] library and
    is not stated here. *)

From Stdlib Require Import Ascii.
From S2P Require Import Prelude.

(** ** Python's string operations *)

Definition is_lower (c : ascii) : bool :=
  (97 <=? nat_of_ascii c)%nat && (nat_of_ascii c <=? 122)%nat.

Definition upper_char (c : ascii) : ascii :=
  if is_lower c then ascii_of_nat (nat_of_ascii c - 32) else c.

(** [s.upper()]. *)
Fixpoint upper (s : string) : string :=
  match s with
  | EmptyString => EmptyString
  | String c s' => String (upper_char c) (upper s')
  end.

(** [sep.join(parts)]. *)
Fixpoint join (sep : string) (parts : list string) : string :=
  match parts with
  | [] => EmptyString
  | [p] => p
  | p :: ps => p +:+ sep +:+ join sep ps
  end.

(** [s.split(sep)] for a separator of one character: the inverse of [join],
    used to say what a joined symbol stands for. *)
Fixpoint split (sep : ascii) (s : string) : list string :=
  match s with
  | EmptyString => [EmptyString]
  | String c s' =>
      if Ascii.eqb c sep then EmptyString :: split sep s'
      else match split sep s' with
           | [] => [String c EmptyString]
           | p :: ps => String c p :: ps
           end
  end.

(** [sep in s]. *)
Fixpoint contains (sep : ascii) (s : string) : bool :=
  match s with
  | EmptyString => false
  | String c s' => Ascii.eqb c sep || contains sep s'
  end.

(** ** The raw value of the field *)

(** What the validators receive: the annotation of line 40,
    [Union[str, List[str], Set[str]]]. *)
Inductive raw_symbol : Type :=
| PyStr (s : string)
| PyList (l : list string)
| PySet (iteration : list string).

(** Iterating over a string yields its characters, each one a string. *)
Fixpoint chars (s : string) : list string :=
  match s with
  | EmptyString => []
  | String c s' => String c EmptyString :: chars s'
  end.

(** [list(v)]: the elements of a list, those of a set in the order of its
    iteration, the characters of a string (line 44 is not reached with a
    string, which line 42 has taken). *)
Definition elements_of (v : raw_symbol) : list string :=
  match v with
  | PyStr s => chars s
  | PyList l => l
  | PySet l => l
  end.

(** A validator that calls a method its argument does not have fails with
    [AttributeError]. *)
Inductive schema_error : Type :=
| AttributeError (attribute : string).

#[global] Instance schema_error_eq_dec : EqDecision schema_error.
Proof. solve_decision. Defined.

(** [dateType], the type of the field [date] (line 36): a year, a month and
    a day. *)
Record date : Type := mkDate {
  year : Z;
  month : Z;
  day : Z;
}.

(** ** The query parameters *)

Module InstitutionalOwnershipQueryParams.

Record t : Type := mk {
  symbol : string;
}.

(** Lines 21 to 25: [return v.upper()], whatever [v] is. *)
Definition upper_symbol (v : raw_symbol) : outcome schema_error string :=
  match v with
  | PyStr s => Returned (upper s)
  | PyList _ | PySet _ => Raised (AttributeError "upper")
  end.

(** The object built from a raw symbol. *)
Definition validate (v : raw_symbol) : outcome schema_error t :=
  match upper_symbol v with
  | Returned s => Returned {| symbol := s |}
  | Raised e => Raised e
  end.

End InstitutionalOwnershipQueryParams.

(** ** The data row *)

Module InstitutionalOwnershipData.

Record t : Type := mk {
  symbol : string;
  cik : option string;
  date_ : date;
}.

(** Lines 38 to 44. *)
Definition upper_symbol (v : raw_symbol) : string :=
  match v with
  | PyStr s => upper s
  | PyList l | PySet l => join "," (upper <$> l)
  end.

(** The row built from a raw symbol; [cik] defaults to [None]. *)
Definition validate (v : raw_symbol) (cik : option string) (d : date) : t :=
  {| symbol := upper_symbol v; cik := cik; date_ := d |}.

End InstitutionalOwnershipData.

(** A symbol in normal form: no letter of it is in lower case. *)
Definition normalized (s : string) : Prop := upper s = s.

#[global] Instance normalized_dec s : Decision (normalized s).
Proof. unfold normalized. apply _. Defined.

(** * Theorems *)

Section Strings.
Implicit Types (c sep : ascii) (s t : string) (l : list string).

(** ** Characters *)


Lemma upper_char_not_lower c : is_lower (upper_char c) = false.
Proof. by_cases_on c. Qed.

Lemma upper_char_idemp c : upper_char (upper_char c) = upper_char c.
Proof. unfold upper_char at 1. by rewrite upper_char_not_lower. Qed.

(** A letter in lower case moves 32 places down the table, to the same letter
    in upper case; every other character stays. *)
Lemma upper_char_spec c :
  nat_of_ascii (upper_char c) =
  if is_lower c then (nat_of_ascii c - 32)%nat else nat_of_ascii c.
Proof. by_cases_on c. Qed.

Lemma upper_char_comma : upper_char "," = ","%char.
Proof. reflexivity. Qed.

Lemma upper_char_eqb_comma c : Ascii.eqb (upper_char c) "," = Ascii.eqb c ",".
Proof. by_cases_on c. Qed.

(** ** [upper] *)

Lemma upper_app s t : upper (s +:+ t) = upper s +:+ upper t.
Proof. induction s as [|c s IH]; simpl; [done|]. by rewrite IH. Qed.

Lemma upper_idemp s : upper (upper s) = upper s.
Proof. induction s as [|c s IH]; simpl; [done|]. by rewrite upper_char_idemp, IH. Qed.

Lemma upper_length s : String.length (upper s) = String.length s.
Proof. induction s as [|c s IH]; simpl; [done|]. by rewrite IH. Qed.

Lemma upper_normalized s : normalized (upper s).
Proof. apply upper_idemp. Qed.

Lemma contains_upper_comma s : contains "," (upper s) = contains "," s.
Proof. induction s as [|c s IH]; simpl; [done|]. by rewrite upper_char_eqb_comma, IH. Qed.

(** ** [join] and [split] *)

Lemma join_cons (sp : string) s s' l :
  join sp (s :: s' :: l) = s +:+ sp +:+ join sp (s' :: l).
Proof. reflexivity. Qed.

(** Upper-casing goes through [join]. *)
Lemma upper_join (sp : string) l : upper (join sp l) = join (upper sp) (upper <$> l).
Proof.
  induction l as [|s l IH]; [done|]. destruct l as [|s' l]; [done|].
  rewrite !fmap_cons in *.
  by rewrite (join_cons sp), (join_cons (upper sp)), !upper_app, IH.
Qed.

Lemma split_nonempty sep s : split sep s ≠ [].
Proof. destruct s as [|c s]; simpl; [done|]. by repeat case_match. Qed.

(** Splitting a string that has no separator gives the string. *)
Lemma split_none sep s : contains sep s = false → split sep s = [s].
Proof.
  induction s as [|c s IH]; simpl; [done|].
  intros [Hc Hs]%orb_false_iff. by rewrite Hc, (IH Hs).
Qed.

(** Splitting a part followed by the separator and more gives the part and
    the split of what follows. *)
Lemma split_app sep s t :
  contains sep s = false →
  split sep (s +:+ String sep t) = s :: split sep t.
Proof.
  induction s as [|c s IH]; simpl.
  - by rewrite Ascii.eqb_refl.
  - intros [Hc Hs]%orb_false_iff. by rewrite Hc, (IH Hs).
Qed.

(** [split] undoes [join] on parts that do not hold the separator. *)
Lemma split_join sep l :
  l ≠ [] → Forall (λ s, contains sep s = false) l →
  split sep (join (String sep EmptyString) l) = l.
Proof.
  induction l as [|s l IH]; [done|]. intros _ [Hs Hl]%Forall_cons.
  destruct l as [|s' l]; [by apply split_none|].
  rewrite join_cons.
  change (split sep (s +:+ String sep (join (String sep EmptyString) (s' :: l)))
          = s :: s' :: l).
  rewrite split_app by done. by rewrite IH.
Qed.

End Strings.

(** ** The validators *)

Section Validators.
Implicit Types (v : raw_symbol) (s : string) (l : list string).

Lemma upper_fmap_idemp l : upper <$> (upper <$> l) = upper <$> l.
Proof. rewrite <-list_fmap_compose. apply list_fmap_ext. intros _ s _. apply upper_idemp. Qed.

(** What the validator of the data row returns is in normal form. *)
Lemma data_upper_symbol_normalized v : normalized (InstitutionalOwnershipData.upper_symbol v).
Proof.
  unfold normalized. destruct v as [s|l|l]; simpl; [apply upper_idemp|..];
    by rewrite (upper_join ","), upper_fmap_idemp.
Qed.

(** Validating twice is validating once: the symbol of a data row,
    given back to the validator as a string, comes out as it is, whatever
    the raw value was. *)
Theorem upper_symbol_idempotent v :
  InstitutionalOwnershipData.upper_symbol
    (PyStr (InstitutionalOwnershipData.upper_symbol v))
  = InstitutionalOwnershipData.upper_symbol v.
Proof. apply data_upper_symbol_normalized. Qed.

(** C36. Upper-casing each symbol and joining them with commas, as line 44
    does, is upper-casing the joined symbols: a list of symbols and the
    string that lists them are normalised to the same field. *)
Theorem upper_symbol_join l :
  InstitutionalOwnershipData.upper_symbol (PyList l)
  = InstitutionalOwnershipData.upper_symbol (PyStr (join "," l)).
Proof. simpl. by rewrite (upper_join ","). Qed.

(** C37. The symbols of a row can be read back from its field: for a
    collection of at least one symbol, none of which holds a comma, splitting
    the field at the commas gives the upper-cased symbols, in the order of the
    collection. *)
Theorem upper_symbol_split v :
  (∀ s, v ≠ PyStr s) → elements_of v ≠ [] →
  Forall (λ s, contains "," s = false) (elements_of v) →
  split "," (InstitutionalOwnershipData.upper_symbol v) = upper <$> elements_of v.
Proof.
  intros Hv Hne Hf.
  assert (InstitutionalOwnershipData.upper_symbol v = join "," (upper <$> elements_of v))
    as -> by (destruct v; [by destruct (Hv s)|done..]).
  apply split_join; [by destruct (elements_of v)|].
  apply Forall_fmap. eapply Forall_impl; [done|]. intros s Hs. simpl.
  by rewrite contains_upper_comma.
Qed.

(** C38. The validator of the query accepts strings only, and on them it is
    the validator of the data row: a result of the query validator is the
    field the data row gets for the same raw value, has its length, and is in
    normal form. *)
Theorem query_upper_symbol_returned v s :
  InstitutionalOwnershipQueryParams.upper_symbol v = Returned s →
  ∃ s0, v = PyStr s0 ∧ s = InstitutionalOwnershipData.upper_symbol v ∧
        String.length s = String.length s0 ∧ normalized s.
Proof.
  destruct v as [s0|l|l]; simpl; [|done..]. intros [= <-]. exists s0.
  split_and!; [done..|apply upper_length|apply upper_normalized].
Qed.

End Validators.

(** ** On concrete symbols *)

Lemma upper_symbol_split_witness :
  split "," (InstitutionalOwnershipData.upper_symbol (PyList ["aapl"; "Msft"; "brk.b"]))
  = upper <$> elements_of (PyList ["aapl"; "Msft"; "brk.b"]).
Proof. apply (upper_symbol_split (PyList ["aapl"; "Msft"; "brk.b"])); by repeat constructor. Defined.

Lemma query_upper_symbol_returned_witness :
  ∃ s0, PyStr "aapl" = PyStr s0 ∧
        "AAPL" = InstitutionalOwnershipData.upper_symbol (PyStr "aapl") ∧
        String.length "AAPL" = String.length s0 ∧ normalized "AAPL".
Proof. apply (query_upper_symbol_returned (PyStr "aapl") "AAPL"). reflexivity. Defined.

(** A row built from a list of symbols. *)
Example validate_list :
  InstitutionalOwnershipData.symbol
    (InstitutionalOwnershipData.validate (PyList ["aapl"; "Msft"; "brk.b"]) None
       (mkDate 2023 9 30))
  = "AAPL,MSFT,BRK.B".
Proof. reflexivity. Qed.

(** The query rejects the list the data row accepts, and not with a
    validation error. *)
Example query_rejects_list :
  InstitutionalOwnershipQueryParams.validate (PyList ["aapl"; "msft"])
  = Raised (AttributeError "upper").
Proof. reflexivity. Qed.

(** The field of a row built from a set depends on the order in which the set
    is iterated. *)
Example set_order_matters :
  ["aapl"; "msft"] ≡ₚ ["msft"; "aapl"] ∧
  InstitutionalOwnershipData.upper_symbol (PySet ["aapl"; "msft"]) = "AAPL,MSFT" ∧
  InstitutionalOwnershipData.upper_symbol (PySet ["msft"; "aapl"]) = "MSFT,AAPL".
Proof. split_and!; [apply Permutation_swap|done..]. Qed.

(** Why line 42 tests for a string first: line 44 alone would take a string
    for the collection of its characters. *)
Example string_is_not_a_collection :
  InstitutionalOwnershipData.upper_symbol (PyStr "brk.b") = "BRK.B" ∧
  join "," (upper <$> elements_of (PyStr "brk.b")) = "B,R,K,.,B".
Proof. done. Qed.

(** An empty collection gives the empty symbol, which does not split back
    into no symbol. *)
Example empty_collection :
  InstitutionalOwnershipData.upper_symbol (PyList []) = "" ∧
  split "," (InstitutionalOwnershipData.upper_symbol (PyList [])) = [""].
Proof. done. Qed.
