(* ===== verification/Runs.v ===== *)
(** * Concrete runs

    The commands run on concrete worlds built from the collaborators of
    [Doubles]: a user with an account on the hub, a disk with a home
    directory, default settings.  Each theorem of [Account] that has
    hypotheses is applied here to such a run, with the hypotheses discharged
    by computation; the examples at the end run the commands into the two
    failures that leave the system between two states, through a refresh
    without a session, through the race of a [refresh] with a [logout], and
    through two logins that wait for each other where [login_torn_read] has
    them interleave. *)

From stdpp Require Import gmap.
From S2P Require Import Prelude Exn FileSystem Settings Hub SessionStore Doubles Account.
From S2P Require Import Json Interleave Machine SessionFile.

(** The object, built on the platform directory of the user. *)
Definition self0 : Account.t := {| Account._openbb_directory := platform_dir |}.

(** A fresh process: default settings, no session, nothing on the wire. *)
Definition world0 : World :=
  {| user_settings := local_defaults;
     system_settings := {| openbb_directory := platform_dir |};
     disk := disk0;
     store := local_defaults;
     net := {| remote := hub0; wire := [] |};
     log := [] |}.

Definition alice_email : option string := Some "alice@example.org".
Definition alice_password : option string := Some "hunter2".

(** The world after a login by credentials that remembers the session. *)
Definition world1 : World :=
  Eval vm_compute in
    (Account.login self0 alice_email alice_password None true true world0).2.

(** The same world with the hub out of reach. *)
Definition cut_off (w : World) : World :=
  set_net {| remote := {| online := false; accounts := accounts (remote (net w));
                          live := live (remote (net w));
                          issued := issued (remote (net w)) |};
             wire := wire (net w) |} w.

(** A connected world in which a directory stands where the session file
    should be. *)
Definition world_blocked : World :=
  Eval vm_compute in
    set_disk (<[session_file platform_dir := Dir]> disk1)
      (set_user_settings (set_hub_session (Some (fresh_session 0)) local_defaults) world0).

(** The session the hub issues first. *)
Definition s0 : HubSession := Eval vm_compute in fresh_session 0.

(** The worlds the runs below end in. *)
Definition world1_cut : World := Eval vm_compute in cut_off world1.

(** The connected world after the identity was edited locally: it now
    differs from the identity of the remote document. *)
Definition world_renamed : World :=
  Eval vm_compute in set_user_settings (set_id "kept-42" (user_settings world1)) world1.

Definition world_refreshed : World :=
  Eval vm_compute in (Account.refresh self0 true world_renamed).2.

Definition world_cut_refreshed : World :=
  Eval vm_compute in (Account.refresh self0 false world1_cut).2.

Definition world_saved : World := Eval vm_compute in (Account.save self0 false world1).2.

Definition world_out : World := Eval vm_compute in (Account.logout self0 false world1).2.

Definition world_rejected : World :=
  Eval vm_compute in
    (Account.login self0 alice_email (Some "wrong") None true false world0).2.

Definition world_stuck : World :=
  Eval vm_compute in (Account.logout self0 false world_blocked).2.

Definition session0 : list request :=
  [ReqLogin alice_email alice_password None true false; ReqSave false; ReqRefresh true;
   ReqLogout false; ReqLogout false].

(** The hub once it has issued a session to the user. *)
Definition hub1 : ref_hub_state :=
  Eval vm_compute in
    (authenticate (ByCredentials "alice@example.org" "hunter2") hub0).2.

Definition login_remembered : request := ReqLogin alice_email alice_password None true true.

Definition login_wrong : request := ReqLogin alice_email (Some "wrong") None true false.

(** An object whose platform directory lies under a directory that does not
    exist. *)
Definition self_nowhere : Account.t :=
  {| Account._openbb_directory := ["srv"; "missing"; ".openbb_platform"] |}.

(** The disk of [world1] with the session file open for writing. *)
Definition disk_open : fs :=
  Eval vm_compute in (open_w (session_file platform_dir) (disk world1)).2.

(** A world whose session file was opened for writing and never written. *)
Definition world_truncated : World := Eval vm_compute in set_disk disk_open world0.

(** A world whose session file holds a JSON array. *)
Definition world_array : World :=
  Eval vm_compute in
    set_disk (<[session_file platform_dir := File "[1, 2]"]> disk1) world0.

(** Two callers on the connected world: one refreshes, one logs out. *)
Definition callers : list request := [ReqRefresh true; ReqLogout false].

(** What the hub answers to a pull with the first session, and the hub
    after it. *)
Definition doc0 : UserSettings :=
  Eval vm_compute in
    match pull_settings s0 (remote (net world1)) with
    | (Returned doc, _) => doc
    | (Raised _, _) => local_defaults
    end.

Definition hub_pulled : ref_hub_state :=
  Eval vm_compute in (pull_settings s0 (remote (net world1))).2.

(** The world the two callers leave under the schedule [race]. *)
Definition world_raced : World :=
  Eval vm_compute in (run_schedule race (spawn self0 callers) world1).2.

(** A schedule of three callers that takes turns between them. *)
Definition round_robin : list nat :=
  Eval vm_compute in concat (replicate 12 [0; 1; 2]).

(** A second login by credentials on the connected world: the session the
    hub issues, the document it answers the pull with, and the hub after each
    of the two calls. *)
Definition s1 : HubSession :=
  Eval vm_compute in
    match authenticate (ByCredentials "alice@example.org" "hunter2") (remote (net world1)) with
    | (Returned s, _) => s
    | (Raised _, _) => s0
    end.

Definition hub2 : ref_hub_state :=
  Eval vm_compute in
    (authenticate (ByCredentials "alice@example.org" "hunter2") (remote (net world1))).2.

Definition doc1 : UserSettings :=
  Eval vm_compute in
    match pull_settings s1 hub2 with
    | (Returned doc, _) => doc
    | (Raised _, _) => local_defaults
    end.

Definition hub3 : ref_hub_state := Eval vm_compute in (pull_settings s1 hub2).2.

(** A login that resumes the session file. *)
Definition login_resume : request := ReqLogin None None None false false.

(** Three callers that do not wait for each other. *)
Definition three_callers : list request :=
  [ReqLogin alice_email alice_password None true false; ReqSave false; ReqLogout false].

(** * Witnesses *)

Lemma dispatch_wraps_once_witness :
  ∃ cause, OpenBBErrorFrom not_connected = OpenBBErrorFrom cause ∧ unwrapped cause ∧
           (body_of self0 (ReqLogout false) world0).1 = Raised cause.
Proof.
  apply (dispatch_wraps_once self0 (ReqLogout false) world0 (OpenBBErrorFrom not_connected)
           (dispatch self0 (ReqLogout false) world0).2).
  vm_refl.
Defined.

Lemma login_installs_remote_witness :
  ∃ hs s doc n1,
    Account._create_hub_service self0 alice_email alice_password None world0
    = (Returned hs, set_net n1 world0) ∧
    HubService.session hs = Some s ∧
    pull_settings s (remote n1) = (Returned doc, remote (net world1)) ∧
    user_settings world1 = update_default (set_hub_session (Some s) doc) (store world0) ∧
    session_of (user_settings world1) = Some s ∧
    id (user_settings world1) = id doc ∧
    last (wire (net world1)) = Some (RpcPull s) ∧
    Some (user_settings world1) = (if true then Some (user_settings world1) else None).
Proof.
  apply (login_installs_remote self0 alice_email alice_password None true true world0
           (Some (user_settings world1)) world1).
  vm_refl.
Defined.

Lemma login_without_session_file_witness :
  Account.login self0 None None None false false world0 =
  (Raised (OpenBBErrorFrom session_not_found),
   logged Login (Some session_not_found) world0).
Proof. apply (login_without_session_file self0 false false world0). vm_refl. Defined.

Lemma login_failure_witness :
  OpenBBErrorFrom (HubError AuthenticationError) ≠ OpenBBErrorFrom not_connected ∧
  ((user_settings world_rejected = user_settings world0 ∧
    disk world_rejected = disk world0) ∨
   (true = true ∧
    session_dir_ready (Account._openbb_directory self0) (disk world0) = false ∧
    ∃ s doc, user_settings world_rejected
             = update_default (set_hub_session (Some s) doc) (store world0))).
Proof.
  apply (login_failure self0 alice_email (Some "wrong") None true false world0
           (OpenBBErrorFrom (HubError AuthenticationError)) world_rejected).
  vm_refl.
Defined.

Lemma refresh_keeps_identity_witness :
  ∃ doc,
    pull_settings s0 (remote (net world_renamed))
      = (Returned doc, remote (net world_refreshed)) ∧
    wire (net world_refreshed) = wire (net world_renamed) ++ [RpcPull s0] ∧
    id (user_settings world_refreshed) = id (user_settings world_renamed) ∧
    same_but_id (user_settings world_refreshed)
      (update_default (set_hub_session (Some s0) doc) (store world_renamed)) ∧
    Some (user_settings world_refreshed)
      = (if true then Some (user_settings world_refreshed) else None).
Proof.
  apply (refresh_keeps_identity self0 true world_renamed s0
           (Some (user_settings world_refreshed)) world_refreshed); vm_refl.
Defined.

Lemma refresh_failure_witness :
  user_settings world_cut_refreshed = user_settings world1_cut ∧
  disk world_cut_refreshed = disk world1_cut ∧
  store world_cut_refreshed = store world1_cut ∧
  ∃ s k, session_of (user_settings world1_cut) = Some s ∧
         OpenBBErrorFrom (HubError HubUnavailableError) = OpenBBErrorFrom (HubError k) ∧
         wire (net world_cut_refreshed) = wire (net world1_cut) ++ [RpcPull s].
Proof.
  apply (refresh_failure self0 false world1_cut
           (OpenBBErrorFrom (HubError HubUnavailableError)) world_cut_refreshed).
  vm_refl.
Defined.

Lemma save_connected_witness :
  let w' := (Account.save self0 false world1).2 in
  user_settings w' = user_settings world1 ∧ disk w' = disk world1 ∧
  store w' = store world1 ∧
  wire (net w') = wire (net world1) ++ [RpcPush s0 (user_settings world1)].
Proof. apply (save_connected self0 false world1 s0). vm_refl. Defined.

Lemma anonymous_stays_local_witness :
  Account.save self0 true world0 =
    (Returned (if true then Some (user_settings world0) else None),
     logged Save None
       (set_store (write_default_user_settings (user_settings world0) (store world0))
          world0)) ∧
  Account.refresh self0 true world0 =
    (Returned (if true then Some (read_default_user_settings (store world0)) else None),
     logged Refresh None
       (set_user_settings (read_default_user_settings (store world0)) world0)) ∧
  net (Account.save self0 true world0).2 = net world0 ∧
  net (Account.refresh self0 true world0).2 = net world0.
Proof. apply (anonymous_stays_local self0 true world0). vm_refl. Defined.

Lemma logout_anonymous_witness :
  Account.logout self0 false world0 =
  (Raised (OpenBBErrorFrom not_connected),
   logged Logout (Some not_connected) world0).
Proof. apply (logout_anonymous self0 false world0). vm_refl. Defined.

Lemma logout_returned_witness :
  wire (net world_out) = wire (net world1) ++ [RpcDisconnect s0] ∧
  disk world_out !! session_file (Account._openbb_directory self0) = None ∧
  (∀ p, p ≠ session_file (Account._openbb_directory self0) →
        disk world_out !! p = disk world1 !! p) ∧
  user_settings world_out = read_default_user_settings (store world1) ∧
  anonymous (user_settings world_out) ∧
  None = (if false then Some (user_settings world_out) else None).
Proof.
  apply (logout_returned self0 false world1 s0 None world_out); vm_refl.
Defined.

Lemma logout_twice_witness :
  Account.logout self0 true world_out =
  (Raised (OpenBBErrorFrom not_connected),
   logged Logout (Some not_connected) world_out).
Proof. apply (logout_twice self0 false true world1 None world_out). vm_refl. Defined.

Lemma logout_failure_witness :
  OpenBBErrorFrom IsADirectoryError = OpenBBErrorFrom IsADirectoryError ∧
  disk world_blocked !! session_file (Account._openbb_directory self0) = Some Dir ∧
  wire (net world_stuck) = wire (net world_blocked) ++ [RpcDisconnect s0] ∧
  session_of (user_settings world_stuck) = Some s0 ∧
  disk world_stuck = disk world_blocked.
Proof.
  apply (logout_failure self0 false world_blocked s0
           (OpenBBErrorFrom IsADirectoryError) world_stuck); vm_refl.
Defined.

Lemma remember_me_round_trip_witness :
  ∃ s, session_of (user_settings world1) = Some s ∧
    ∀ w2 rs2, disk w2 = disk world1 →
      let r := Account.login self0 None None None false rs2 w2 in
      wire (net r.2) = wire (net w2) ++ [RpcPull s] ∧
      ∀ doc h, pull_settings s (remote (net w2)) = (Returned doc, h) →
        session_of (user_settings r.2) = Some s ∧
        r.1 = Returned (if rs2 then Some (user_settings r.2) else None).
Proof.
  apply (remember_me_round_trip self0 alice_email alice_password None true world0
           (Some (user_settings world1))).
  vm_refl.
Defined.

Lemma serve_invariant_witness :
  let w' := serve self0 session0 world0 in
  fs_wf (disk w') ∧
  system_settings w' = system_settings world0 ∧
  route <$> log w' =
    (route <$> log world0) ++
    ((λ q, "/account/" +:+ func_name (command_of q)) <$> session0).
Proof. apply (serve_invariant self0 session0 world0). apply disk0_wf. Defined.

Lemma mkdir_no_parent_witness :
  mkdir (Account._openbb_directory self_nowhere) disk0 = (Raised FileNotFoundError, disk0).
Proof. apply (mkdir_no_parent (Account._openbb_directory self_nowhere) disk0); vm_refl. Defined.

Lemma open_w_write_read_witness :
  open_r (session_file platform_dir) (write (session_file platform_dir) "{}" disk_open).2
  = (Returned "{}", (write (session_file platform_dir) "{}" disk_open).2).
Proof.
  apply (open_w_write_read (session_file platform_dir) "{}" (disk world1) disk_open).
  vm_refl.
Defined.

Lemma save_session_no_session_witness :
  save_session platform_dir None (disk world1) = (Raised not_connected, disk_open) ∧
  disk_open !! session_file platform_dir = Some (File "").
Proof.
  apply (save_session_no_session platform_dir (disk world1) (disk world1) disk_open);
    vm_refl.
Defined.

Lemma save_read_session_witness :
  ∃ s, Some s0 = Some s ∧
       read_session (session_file platform_dir) (disk world1) = (Returned s, disk world1).
Proof.
  apply (save_read_session platform_dir (Some s0) disk0 tt (disk world1)). vm_refl.
Defined.

Lemma failed_command_keeps_settings_witness :
  user_settings world_rejected = user_settings world0.
Proof.
  apply (failed_command_keeps_settings self0 login_wrong world0
           (OpenBBErrorFrom (HubError AuthenticationError)) world_rejected);
    [right|]; vm_refl.
Defined.

Lemma login_returns_witness :
  let us := update_default (set_hub_session (Some s0) alice_doc) (store world0) in
  let r := Account.login self0 (Some "alice@example.org") (Some "hunter2") None true true
             world0 in
  r.1 = Returned (if true then Some us else None) ∧
  user_settings r.2 = us ∧
  wire (net r.2) =
    wire (net world0) ++
    [RpcAuthenticate (ByCredentials "alice@example.org" "hunter2"); RpcPull s0] ∧
  remote (net r.2) = hub1 ∧
  (if true
   then disk r.2 !! session_file (Account._openbb_directory self0)
        = Some (File (session_dump s0))
   else disk r.2 = disk world0).
Proof.
  apply (login_returns self0 "alice@example.org" "hunter2" None true true world0 s0 hub1
           alice_doc hub1); [vm_refl|vm_refl|right; vm_refl].
Defined.

Lemma logout_returns_witness :
  (Account.logout self0 true world1).1 =
  Returned (if true then Some (read_default_user_settings (store world1)) else None).
Proof.
  apply (logout_returns self0 true world1 s0); [vm_refl|].
  intros H. revert H. by vm_compute.
Defined.

Lemma dispatch_refines_spec_witness :
  transition false (phase_of (user_settings world0)) login_remembered
    (verdict_of (dispatch self0 login_remembered world0).1)
    (phase_of (user_settings (dispatch self0 login_remembered world0).2)).
Proof. apply (dispatch_refines_spec self0 login_remembered world0). right. vm_refl. Defined.

Lemma serve_simulation_witness :
  (serve_trace self_nowhere session0 world0).*1 = session0 ∧
  run true (phase_of (user_settings world0)) (serve_trace self_nowhere session0 world0)
    (phase_of (user_settings (serve self_nowhere session0 world0))).
Proof. apply (serve_simulation self_nowhere session0 world0). Defined.

Lemma serve_refines_spec_witness :
  run false (phase_of (user_settings world0)) (serve_trace self0 session0 world0)
    (phase_of (user_settings (serve self0 session0 world0))) ∧
  session_dir_ready (Account._openbb_directory self0) (disk (serve self0 session0 world0))
  = true.
Proof. apply (serve_refines_spec self0 session0 world0). vm_refl. Defined.

Lemma serve_connected_needs_login_witness :
  Exists (λ q, is_login q = true) [ReqSave false; login_remembered; ReqRefresh false].
Proof.
  apply (serve_connected_needs_login self0
           [ReqSave false; login_remembered; ReqRefresh false] world0 s0); vm_refl.
Defined.

Lemma login_writes_session_file_witness :
  ∃ s, session_of (user_settings world1) = Some s ∧
       disk world1 !! session_file (Account._openbb_directory self0)
       = Some (File (dumps (session_to_json s))) ∧
       all_chars printable (dumps (session_to_json s)) = true ∧
       loads (dumps (session_to_json s)) = Some (session_to_json s).
Proof.
  apply (login_writes_session_file self0 alice_email alice_password None true world0
           (Some (user_settings world1)) world1).
  vm_refl.
Defined.

Lemma login_truncated_session_file_witness :
  Account.login self0 None None None false false world_truncated =
  (Raised (OpenBBErrorFrom JSONDecodeError),
   logged Login (Some JSONDecodeError) world_truncated).
Proof. apply (login_truncated_session_file self0 false false world_truncated). vm_refl. Defined.

Lemma login_session_file_not_object_witness :
  Account.login self0 None None None false false world_array =
  (Raised (OpenBBErrorFrom TypeError), logged Login (Some TypeError) world_array).
Proof.
  apply (login_session_file_not_object self0 false false world_array "[1, 2]"
           (JArray [JNumber 1; JNumber 2])); [vm_refl|vm_refl|done].
Defined.

(** * Runs of note *)

Lemma dispatch_keeps_world_wf_witness :
  world_wf (dispatch self0 login_wrong world0).2.
Proof.
  apply (dispatch_keeps_world_wf self0 login_wrong world0).
  split; [apply disk0_wf|constructor].
Defined.

Lemma schedule_invariant_witness :
  world_wf (run_schedule round_robin (spawn self0 session0) world0).2 ∧
  system_settings (run_schedule round_robin (spawn self0 session0) world0).2
    = system_settings world0 ∧
  length (log (run_schedule round_robin (spawn self0 session0) world0).2) =
    length (log world0) + finished (run_schedule round_robin (spawn self0 session0) world0).1 ∧
  length (run_schedule round_robin (spawn self0 session0) world0).1 = length session0.
Proof.
  apply (schedule_invariant self0 session0 round_robin world0).
  split; [apply disk0_wf|constructor].
Defined.

Lemma schedule_fair_finishes_witness :
  let final := run_schedule round_robin (spawn self0 three_callers) world0 in
  length final.1 = length three_callers ∧
  Forall (λ t, is_finished t = true) final.1 ∧
  length (log final.2) = length (log world0) + length three_callers.
Proof.
  apply (schedule_fair_finishes self0 three_callers round_robin world0).
  - split; [apply disk0_wf|constructor].
  - intros [|[|[|i]]] Hi; [vm_compute; lia..|simpl in Hi; lia].
Defined.

Lemma refresh_logout_race_witness :
  let final := run_schedule race (spawn self0 [ReqRefresh true; ReqLogout false]) world1 in
  (length final.1 = 2 ∧ Forall (λ t, has_returned t = true) final.1) ∧
  session_of (user_settings final.2) = Some s0 ∧
  wire (net final.2) = wire (net world1) ++ [RpcPull s0; RpcDisconnect s0] ∧
  disk final.2 !! session_file (Account._openbb_directory self0) = None ∧
  ∀ qs, qs = [ReqRefresh true; ReqLogout false] ∨ qs = [ReqLogout false; ReqRefresh true] →
        Forall (λ r, is_Some (returned r)) (answers self0 qs world1) →
        session_of (user_settings (serve self0 qs world1)) = None.
Proof.
  apply (refresh_logout_race self0 true false world1 s0 doc0 hub_pulled);
    [vm_refl|vm_refl|by vm_compute].
Defined.

Lemma login_corrupt_session_witness :
  let stored text :=
    disk world_truncated !! session_file (Account._openbb_directory self0) = Some (File text) ∧
    session_load text = Raised JSONDecodeError in
  ((Account.login self0 None None None false false world_truncated).1
   = Raised (OpenBBErrorFrom JSONDecodeError) ↔
   (@None string, @None string, @None string) = (None, None, None) ∧ ∃ text, stored text) ∧
  ((Account.login self0 None None None false false world_truncated).1
   = Raised (OpenBBErrorFrom JSONDecodeError) →
   (Account.login self0 None None None false false world_truncated).2
   = logged Login (Some JSONDecodeError) world_truncated).
Proof.
  apply (login_corrupt_session self0 None None None false false world_truncated
           JSONDecodeError).
  by left.
Defined.

Lemma login_torn_read_witness :
  let writer := ReqLogin (Some "alice@example.org") (Some "hunter2") None true true in
  let reader := ReqLogin None None None false false in
  let us := update_default (set_hub_session (Some s1) doc1) (store world1) in
  let final := run_schedule torn (spawn self0 [writer; reader]) world1 in
  final.1 = [Finished (Returned (if true then Some us else None));
             Finished (Raised (OpenBBErrorFrom JSONDecodeError))] ∧
  disk final.2 !! session_file (Account._openbb_directory self0)
  = Some (File (json_dump s1)) ∧
  user_settings final.2 = us ∧
  wire (net final.2)
  = wire (net world1)
    ++ [RpcAuthenticate (ByCredentials "alice@example.org" "hunter2"); RpcPull s1] ∧
  ∀ qs, qs = [writer; reader] ∨ qs = [reader; writer] →
        Forall (λ r, r ≠ Raised (OpenBBErrorFrom JSONDecodeError)) (answers self0 qs world1).
Proof.
  apply (login_torn_read self0 "alice@example.org" "hunter2" None true false false world1
           s1 hub2 doc1 hub3); [vm_refl|vm_refl|vm_refl|].
  intros text [= <-]. vm_compute. by eexists.
Defined.

(** The two logins of [login_torn_read], when they wait for each other on
    the connected world: both return, in either order. *)
Example waiting_logins_return :
  let writer := ReqLogin alice_email alice_password None true true in
  (λ r, bool_decide (is_Some (returned r))) <$> answers self0 [writer; login_resume] world1
  = [true; true] ∧
  (λ r, bool_decide (is_Some (returned r))) <$> answers self0 [login_resume; writer] world1
  = [true; true].
Proof. split; vm_refl. Qed.

(** The session file after the first login, character for character. *)
Example session_file_text :
  let q s := String quote_char (s +:+ String quote_char "") in
  let nl := String newline "" in
  disk world1 !! session_file platform_dir =
  Some (File ("{" +:+ nl +:+
              "    " +:+ q "access_token" +:+ ": " +:+ q "access-0" +:+ "," +:+ nl +:+
              "    " +:+ q "refresh_token" +:+ ": " +:+ q "refresh-0" +:+ "," +:+ nl +:+
              "    " +:+ q "token_type" +:+ ": " +:+ q "bearer" +:+ "," +:+ nl +:+
              "    " +:+ q "expiry" +:+ ": 3600" +:+ nl +:+
              "}")).
Proof. cbv zeta. vm_refl. Qed.

(** The same document without the white space, with its members in another
    order and one of them twice, loads as the same session: the last member
    of a key counts. *)
Example session_file_compact :
  let q s := String quote_char (s +:+ String quote_char "") in
  json_load ("{" +:+ q "expiry" +:+ ":3600," +:+ q "token_type" +:+ ":" +:+ q "basic" +:+ "," +:+
             q "refresh_token" +:+ ":" +:+ q "refresh-0" +:+ "," +:+
             q "access_token" +:+ ":" +:+ q "access-0" +:+ "," +:+
             q "token_type" +:+ ":" +:+ q "bearer" +:+ "}")
  = Returned s0.
Proof. cbv zeta. vm_refl. Qed.

(** Texts that are not sessions: missing fields, a trailing comma, a value
    that is not an object. *)
Example session_file_rejected :
  let q s := String quote_char (s +:+ String quote_char "") in
  json_load ("{" +:+ q "expiry" +:+ ": 3600}") = Raised ValidationError ∧
  json_load ("{" +:+ q "expiry" +:+ ": 3600,}") = Raised JSONDecodeError ∧
  json_load "null" = Raised TypeError.
Proof. cbv zeta. split_and!; vm_refl. Qed.


(** A session of use, from outside: login, save, refresh, logout, and a
    second logout that is refused. *)
Example session0_trace :
  serve_trace self0 session0 world0 =
  [(ReqLogin alice_email alice_password None true false, Done); (ReqSave false, Done);
   (ReqRefresh true, Done); (ReqLogout false, Done); (ReqLogout false, Failed)].
Proof. vm_refl. Qed.

(** The [login] that fails connected is a transition of the machine of the
    code and not of the machine of the specification. *)
Example torn_login_not_in_spec :
  let q := ReqLogin alice_email alice_password None true false in
  let r := dispatch self_nowhere q world0 in
  session_dir_ready (Account._openbb_directory self_nowhere) (disk world0) = false ∧
  transition true (phase_of (user_settings world0)) q (verdict_of r.1)
    (phase_of (user_settings r.2)) ∧
  ¬ transition false (phase_of (user_settings world0)) q (verdict_of r.1)
      (phase_of (user_settings r.2)).
Proof.
  split_and!; [vm_refl|apply transition_allowed; vm_refl|].
  intros H%transition_allowed. revert H. by vm_compute.
Qed.


(** A [login] asked to remember, on a platform directory whose parent does
    not exist: the command fails on [mkdir], after it has installed the
    pulled settings.  The caller gets an error and is connected. *)
Example login_fails_connected :
  let r := Account.login self_nowhere alice_email alice_password None true false world0 in
  r.1 = Raised (OpenBBErrorFrom FileNotFoundError) ∧
  session_of (user_settings world0) = None ∧
  session_of (user_settings r.2) = Some s0 ∧
  id (user_settings r.2) = "remote-7".
Proof. split_and!; vm_refl. Qed.

(** A [logout] with a directory in the place of the session file: the hub
    has been told to drop the session, and the settings still hold it. *)
Example logout_fails_disconnected :
  let r := Account.logout self0 false world_blocked in
  r.1 = Raised (OpenBBErrorFrom IsADirectoryError) ∧
  wire (net r.2) = [RpcDisconnect s0] ∧
  session_of (user_settings r.2) = Some s0.
Proof. split_and!; vm_refl. Qed.

(** Without a session, [refresh] replaces the identity of the settings by the
    one of the default settings. *)
Example anonymous_refresh_changes_id :
  let w := set_user_settings (set_id "edited" local_defaults) world0 in
  id (user_settings w) = "edited" ∧
  id (user_settings (Account.refresh self0 false w).2) = "local-1".
Proof. split; vm_refl. Qed.

(** The race, run: after the two callers have returned the process holds the
    session that was disconnected, the hub no longer knows it, and the log
    record of the [logout] shows no session where the one of the [refresh],
    written after it, shows one. *)
Example race_run :
  session_of (user_settings world_raced) = Some s0 ∧
  live (remote (net world_raced)) = [] ∧
  (session_of ∘ log_user_settings) <$> log world_raced
    = (session_of ∘ log_user_settings <$> log world1) ++ [None; Some s0] ∧
  func <$> log world_raced = (func <$> log world1) ++ [Logout; Refresh] ∧
  (Account.refresh self0 false world_raced).1
    = Raised (OpenBBErrorFrom (HubError AuthenticationError)).
Proof. split_and!; vm_refl. Qed.

(** Under the serial schedule the same two callers end without a session. *)
Example serial_run :
  session_of (user_settings (run_schedule (serial 2) (spawn self0 callers) world1).2) = None.
Proof. vm_refl. Qed.
